(** * ChemModel: the abstract training harness of [chem_tensorflow.py]

    A shallow embedding of the [ChemModel] base class: parameter
    collection, schema inference in [load_data], the abstract hooks,
    the per-epoch aggregation of [run_epoch], and the early-stopping
    loop of [train].

    Python objects are modelled as follows.
    - [int] is [Z]; a float (a Python [float] or the numpy scalar that
      [Session.run] returns) is an element of a carrier [num] with the
      arithmetic of the interface [Numeric]; every development below is
      generic in that interface, and [binary64] instantiates it with
      the kernel's IEEE 754 doubles.
    - a [dict] with string keys is a [gmap string _]; [d.update(e)] is
      the union that prefers [e].
    - a raised exception is the [Raise] case of [result]; methods that
      mutate [self] or the outside world are state-passing functions
      in the monad [M], in which the state survives a raise. *)

From Stdlib Require Import ZArith QArith PrimFloat Uint63 Lia Ascii String.
From stdpp Require Import gmap strings list fin_maps pretty.

Local Open Scope Z_scope.

(** ** Exceptions and results *)

Inductive exn : Type :=
| Exception (msg : string)
| KeyError (key : string)
| IndexError
| ValueError
| TypeError
| ZeroDivisionError
| FileNotFoundError (path : string).

Inductive result (A : Type) : Type :=
| Ok (a : A)
| Raise (e : exn).
Arguments Ok {A} a.
Arguments Raise {A} e.

Definition rbind {A B} (r : result A) (k : A → result B) : result B :=
  match r with
  | Ok a => k a
  | Raise e => Raise e
  end.

(** ** The state-and-exception monad

    [M St A] is a computation over a mutable state [St].  The final
    state is returned also when the computation raises: assignments to
    [self] and writes to files made before the raise stay made. *)

Definition M (St A : Type) : Type := St → result A * St.

Definition ret {St A} (a : A) : M St A := λ s, (Ok a, s).

Definition bind {St A B} (m : M St A) (k : A → M St B) : M St B :=
  λ s, match m s with
       | (Ok a, s') => k a s'
       | (Raise e, s') => (Raise e, s')
       end.

Definition lift {St A} (r : result A) : M St A := λ s, (r, s).

Definition get {St} : M St St := λ s, (Ok s, s).

Definition modify {St} (f : St → St) : M St unit := λ s, (Ok tt, f s).

Declare Scope monad_scope.
Delimit Scope monad_scope with monad.
Notation "'do' x <- e ; k" := (bind e (λ x, k))
  (at level 10, x name, e at level 100, k at level 200) : monad_scope.
Notation "'do' ' p <- e ; k" := (bind e (λ x, match x with p => k end))
  (at level 10, p pattern, e at level 100, k at level 200) : monad_scope.
Notation "e ;; k" := (bind e (λ _, k))
  (at level 100, k at level 200, right associativity) : monad_scope.
Local Open Scope monad_scope.

(** ** Numbers *)

(** The float arithmetic the harness relies on.  [num_div] is IEEE
    division.  On the numpy scalars that [sess.run] returns, and on
    every total built from them, it is applied as it is: a zero divisor
    gives an infinity or a NaN under a warning, not an exception.  Where
    Python divides two numbers of its own, the zero test [num_is_zero]
    guards it and a zero divisor raises [ZeroDivisionError]. *)
Class Numeric (num : Type) : Type := {
  num_of_int : Z → num;
  num_lit : Q → num;
  num_inf : num;
  num_add : num → num → num;
  num_sub : num → num → num;
  num_mul : num → num → num;
  num_div : num → num → num;
  num_ltb : num → num → bool;
  num_is_zero : num → bool
}.

(** IEEE 754 binary64, the arithmetic of CPython floats. Integers are
    converted exactly below 2^53 in magnitude, and a decimal literal
    whose numerator and denominator are below that bound is rounded
    once, by the division. *)
Module binary64.
Definition of_int (z : Z) : float :=
  if z <? 0 then PrimFloat.opp (PrimFloat.of_uint63 (Uint63.of_Z (- z)))
  else PrimFloat.of_uint63 (Uint63.of_Z z).

Definition lit (q : Q) : float :=
  PrimFloat.div (of_int (Qnum q)) (of_int (Zpos (Qden q))).

Definition is_zero (x : float) : bool := PrimFloat.eqb x PrimFloat.zero.

#[global] Instance numeric : Numeric float := {|
  num_of_int := of_int;
  num_lit := lit;
  num_inf := PrimFloat.infinity;
  num_add := PrimFloat.add;
  num_sub := PrimFloat.sub;
  num_mul := PrimFloat.mul;
  num_div := PrimFloat.div;
  num_ltb := PrimFloat.ltb;
  num_is_zero := is_zero
|}.
End binary64.

(** ** Python values *)

(** The values that JSON decoding, the command line and a feed
    dictionary can hold. *)
#[warnings="-register-all"]
Inductive pyval (num : Type) : Type :=
| PNone
| PBool (b : bool)
| PInt (z : Z)
| PFloat (x : num)
| PStr (s : string)
| PList (vs : list (pyval num))
| PDict (kvs : list (string * pyval num)).
Arguments PNone {num}.
Arguments PBool {num} b.
Arguments PInt {num} z.
Arguments PFloat {num} x.
Arguments PStr {num} s.
Arguments PList {num} vs.
Arguments PDict {num} kvs.

(** One record of a molecule file: the edge list of [(source,
    edge_type, target)] triples under the key ['graph'], and one
    feature vector per node under ['node_features']. *)
Record graph_record (num : Type) : Type := {
  graph : list (Z * Z * Z);
  node_features : list (list num)
}.
Arguments graph {num} g.
Arguments node_features {num} g.

(** What [sess.run] can be asked for, and what it hands back for each
    fetch: a number for a tensor, [None] for an operation. *)
Inductive op : Type := Loss | Accuracy | TrainStep | InitOp.

Inductive fetched (num : Type) : Type :=
| FNum (x : num)
| FNone.
Arguments FNum {num} x.
Arguments FNone {num}.

Definition is_train_step (o : op) : bool :=
  match o with TrainStep => true | _ => false end.

(** [os.path.join] on two POSIX components. *)
Definition starts_with_slash (s : string) : bool :=
  match s with
  | String c _ => Ascii.eqb c "/"%char
  | EmptyString => false
  end.

Fixpoint ends_with_slash (s : string) : bool :=
  match s with
  | EmptyString => false
  | String c EmptyString => Ascii.eqb c "/"%char
  | String _ s' => ends_with_slash s'
  end.

Definition path_join (a b : string) : string :=
  if starts_with_slash b then b
  else if (String.eqb a "" || ends_with_slash a)%bool then a +:+ b
  else a +:+ "/" +:+ b.

(** The builtin [max] on a list of integers: [ValueError] on the empty
    list. *)
Definition py_max (l : list Z) : result Z :=
  match l with
  | [] => Raise ValueError
  | x :: l' => Ok (foldl Z.max x l')
  end.

(** [l[i]] for a Python list: negative indices count from the end. *)
Definition py_index {A} (l : list A) (i : Z) : result A :=
  let n := Z.of_nat (length l) in
  let j := if i <? 0 then i + n else i in
  if (j <? 0) || (n <=? j) then Raise IndexError
  else match l !! Z.to_nat j with
       | Some a => Ok a
       | None => Raise IndexError
       end.

(** * The model object *)

Section ChemModel.
Context {num : Type} `{Numeric num}.

(** [D] is whatever [process_raw_graphs] of the concrete model
    returns, [tensor] a node of the computation graph. *)
Context {D tensor : Type}.

Local Abbreviation dict := (gmap string (pyval num)).

(** ** Dictionaries *)

(** [d.update(e)]: the entries of [e] replace those of [d]. *)
Definition dict_update (d e : dict) : dict := e ∪ d.

(** [d.get(k)]: [None] for a missing key. *)
Definition dict_get (d : dict) (k : string) : pyval num :=
  default PNone (d !! k).

(** [d[k]]: [KeyError] for a missing key. *)
Definition dict_item (d : dict) (k : string) : result (pyval num) :=
  match d !! k with
  | Some v => Ok v
  | None => Raise (KeyError k)
  end.

(** Truth value of an object in a condition. *)
Definition py_truthy (v : pyval num) : bool :=
  match v with
  | PNone => false
  | PBool b => b
  | PInt z => negb (z =? 0)
  | PFloat x => negb (num_is_zero x)
  | PStr s => negb (String.eqb s "")
  | PList vs => match vs with [] => false | _ => true end
  | PDict kvs => match kvs with [] => false | _ => true end
  end.

(** An object used where an integer is required ([range], a list
    index): [bool] is a subclass of [int]. *)
Definition as_int (v : pyval num) : result Z :=
  match v with
  | PInt z => Ok z
  | PBool b => Ok (if b then 1 else 0)
  | _ => Raise TypeError
  end.

(** [i > v] for an integer [i] and an object [v]. *)
Definition int_gt (i : Z) (v : pyval num) : result bool :=
  match v with
  | PInt z => Ok (z <? i)
  | PBool b => Ok ((if b then 1 else 0) <? i)
  | PFloat x => Ok (num_ltb x (num_of_int i))
  | _ => Raise TypeError
  end.

(** ** Parameters *)

Definition default_params : dict :=
  list_to_map
    [ ("num_epochs", PInt 3000);
      ("patience", PInt 25);
      ("learning_rate", PFloat (num_lit 0.0001%Q));
      ("clamp_gradient_norm", PFloat (num_lit 1.0%Q));
      ("dropout_keep_prob", PFloat (num_lit 1.0%Q));
      ("hidden_size", PInt 100);
      ("num_timesteps", PInt 4);
      ("tie_fwd_bkwd", PBool true);
      ("task_id", PInt 0) ].

(** The decoders behind [json.load(open(path))] for a configuration
    file and [json.loads] for the inline string; both yield a JSON
    object. *)
Variable json_load_file : string → result dict.
Variable json_loads : string → result dict.

(** The "Collect parameters" block of [__init__]; [defaults] is
    [self.default_params()], which a model may override. *)
Definition collect_params (defaults args : dict) : result dict :=
  let params := defaults in
  let config_file := dict_get args "--config-file" in
  rbind
    match config_file with
    | PNone => Ok params
    | PStr path =>
        rbind (json_load_file path) (λ d, Ok (dict_update params d))
    | _ => Raise TypeError
    end
    (λ params,
       let config := dict_get args "--config" in
       match config with
       | PNone => Ok params
       | PStr s => rbind (json_loads s) (λ d, Ok (dict_update params d))
       | _ => Raise TypeError
       end).

(** ** The object and its schema fields *)

Record chem_model : Type := {
  args : dict;
  params : dict;
  data_dir : string;
  max_num_vertices : Z;
  num_edge_types : Z;
  annotation_size : Z
}.

Definition set_max_num_vertices (v : Z) (self : chem_model) : chem_model :=
  {| args := args self; params := params self; data_dir := data_dir self;
     max_num_vertices := v;
     num_edge_types := num_edge_types self;
     annotation_size := annotation_size self |}.

Definition set_num_edge_types (v : Z) (self : chem_model) : chem_model :=
  {| args := args self; params := params self; data_dir := data_dir self;
     max_num_vertices := max_num_vertices self;
     num_edge_types := v;
     annotation_size := annotation_size self |}.

Definition set_annotation_size (v : Z) (self : chem_model) : chem_model :=
  {| args := args self; params := params self; data_dir := data_dir self;
     max_num_vertices := max_num_vertices self;
     num_edge_types := num_edge_types self;
     annotation_size := v |}.

(** The object as [__init__] leaves it just before the first
    [load_data]; [data_dir] is the [--data_dir] argument, or [''] when
    it is absent or [None]. *)
Definition new_model (a p : dict) : chem_model :=
  {| args := a; params := p;
     data_dir := match a !! "--data_dir" with
                 | Some (PStr d) => d
                 | _ => ""
                 end;
     max_num_vertices := 0;
     num_edge_types := 0;
     annotation_size := 0 |}.

(** ** The hooks a concrete model overrides *)

Record hooks : Type := {
  process_raw_graphs : chem_model → list (graph_record num) → result D;
  gated_regression : tensor → result tensor;
  prepare_specific_model : chem_model → result unit;
  compute_final_node_representations : chem_model → result tensor;
  make_minibatch_iterator : D → bool → result (list dict)
}.

(** The bodies [ChemModel] itself gives them. *)
Definition base_hooks : hooks := {|
  process_raw_graphs := λ _ _,
    Raise (Exception "Models have to implement process_raw_graphs!");
  gated_regression := λ _,
    Raise (Exception "Models have to implement gated_regression!");
  prepare_specific_model := λ _,
    Raise (Exception "Models have to implement prepare_specific_model!");
  compute_final_node_representations := λ _,
    Raise (Exception
             "Models have to implement compute_final_node_representations!");
  make_minibatch_iterator := λ _ _,
    Raise (Exception "Models have to implement make_minibatch_iterator!")
|}.

(** [make_model], as far as the hooks are concerned: they are called
    in this order, and the first one that raises aborts the build. *)
Definition make_model (h : hooks) (self : chem_model) : result tensor :=
  rbind (prepare_specific_model h self) (λ _,
  rbind (compute_final_node_representations h self) (λ final,
  gated_regression h final)).

(** ** Loading a split *)

(** [open(full_path)] followed by [json.load]: the records of a
    molecule file. *)
Variable read_data : string → result (list (graph_record num)).

(** [data[:restrict]] when [--restrict_data] is given and positive. *)
Definition restrict_data {A} (restrict : pyval num) (data : list A)
  : result (list A) :=
  match restrict with
  | PNone => Ok data
  | PInt r => Ok (if 0 <? r then take (Z.to_nat r) data else data)
  | PBool b => Ok (if b then take 1 data else data)
  | PFloat x => if num_ltb (num_of_int 0) x then Raise TypeError else Ok data
  | _ => Raise TypeError
  end.

(** [[v for e in g['graph'] for v in [e[0], e[2]]]] *)
Definition edge_vertices (es : list (Z * Z * Z)) : list Z :=
  es ≫= (λ e, [e.1.1; e.2]).

(** [[e[1] for e in g['graph']]] *)
Definition edge_types (es : list (Z * Z * Z)) : list Z :=
  (λ e, e.1.2) <$> es.

(** The [for g in data] loop; [num_fwd_edge_types] is its local. *)
Fixpoint scan_graphs (data : list (graph_record num)) (num_fwd_edge_types : Z)
  : M chem_model Z :=
  match data with
  | [] => ret num_fwd_edge_types
  | g :: data' =>
      do v <- lift (py_max (edge_vertices (graph g)));
      modify (λ self, set_max_num_vertices (Z.max (max_num_vertices self) v) self);;
      do t <- lift (py_max (edge_types (graph g)));
      scan_graphs data' (Z.max num_fwd_edge_types t)
  end.

Definition load_data (h : hooks) (file_name : string) : M chem_model D :=
  do self <- get;
  let full_path := path_join (data_dir self) file_name in
  do data <- lift (read_data full_path);
  let restrict := dict_get (args self) "--restrict_data" in
  do data <- lift (restrict_data restrict data);
  do num_fwd_edge_types <- scan_graphs data 0;
  do tie <- lift (dict_item (params self) "tie_fwd_bkwd");
  modify (λ self,
    set_num_edge_types
      (Z.max (num_edge_types self)
             (num_fwd_edge_types * (if py_truthy tie then 1 else 2))) self);;
  do g0 <- lift (py_index data 0);
  do f0 <- lift (py_index (node_features g0) 0);
  modify (λ self,
    set_annotation_size
      (Z.max (annotation_size self) (Z.of_nat (length f0))) self);;
  do self <- get;
  lift (process_raw_graphs h self data).

(** A sequence of [load_data] calls on the same object. *)
Fixpoint load_all (h : hooks) (file_names : list string)
  : M chem_model (list D) :=
  match file_names with
  | [] => ret []
  | f :: fs =>
      do d <- load_data h f;
      do ds <- load_all h fs;
      ret (d :: ds)
  end.

(** ** The runtime and the outside world *)

(** The tensor runtime behind [sess.run], over a state [W] of trainable
    variables: the value of the loss and of the accuracy tensor under a
    feed, the effect of one application of the train step, and the
    variables after the initialiser.  [now k] is what the [k]-th call
    of [time.time()] returns. *)
Record runtime (W : Type) : Type := {
  init_weights : W;
  eval_loss : W → dict → num;
  eval_accuracy : W → dict → num;
  apply_train_step : W → dict → W;
  now : nat → num
}.
Arguments init_weights {W} r.
Arguments eval_loss {W} r w feed.
Arguments eval_accuracy {W} r w feed.
Arguments apply_train_step {W} r w feed.
Arguments now {W} r k.

(** [(loss, accuracy, error_ratio, instance_per_sec)] *)
Definition epoch_result : Type := num * num * num * num.

Record log_entry : Type := {
  epoch : Z;
  time : num;
  train_results : epoch_result;
  valid_results : epoch_result;
  valid_error_rate : num
}.

(** [weights]: the session's variables; [clock]: how many times the
    clock was read; [sess_calls]: every [sess.run] so far, oldest
    first, with its fetch list and feed dictionary; [log_file]: the
    decoded content of the run's log file, if it was written. *)
Record world (W : Type) : Type := {
  weights : W;
  clock : nat;
  sess_calls : list (list op * dict);
  log_file : option (list log_entry)
}.
Arguments weights {W} w.
Arguments clock {W} w.
Arguments sess_calls {W} w.
Arguments log_file {W} w.

Context {W : Type}.

(** [time.time()] *)
Definition time_time (rt : runtime W) : M (world W) num :=
  λ w, (Ok (now rt (clock w)),
        {| weights := weights w; clock := S (clock w);
           sess_calls := sess_calls w; log_file := log_file w |}).

Definition fetch (rt : runtime W) (vars : W) (feed : dict) (o : op)
  : fetched num :=
  match o with
  | Loss => FNum (eval_loss rt vars feed)
  | Accuracy => FNum (eval_accuracy rt vars feed)
  | TrainStep => FNone
  | InitOp => FNone
  end.

(** The variables after one [sess.run]: only the initialiser and the
    train step assign them. *)
Definition run_ops (rt : runtime W) (fetch_list : list op) (feed : dict)
  (vars : W) : W :=
  let vars := if existsb (λ o, match o with InitOp => true | _ => false end)
                         fetch_list
              then init_weights rt else vars in
  if existsb is_train_step fetch_list
  then apply_train_step rt vars feed else vars.

(** [sess.run(fetch_list, feed_dict=feed)] *)
Definition sess_run (rt : runtime W) (fetch_list : list op) (feed : dict)
  : M (world W) (list (fetched num)) :=
  λ w, (Ok (fetch rt (weights w) feed <$> fetch_list),
        {| weights := run_ops rt fetch_list feed (weights w);
           clock := clock w;
           sess_calls := sess_calls w ++ [(fetch_list, feed)];
           log_file := log_file w |}).

(** [json.dump(log_to_save, f)] on the freshly truncated log file. *)
Definition write_log (log_to_save : list log_entry) : M (world W) unit :=
  modify (λ w, {| weights := weights w; clock := clock w;
                  sess_calls := sess_calls w;
                  log_file := Some log_to_save |}).

(** ** One pass over a split *)

Definition chemical_accuracy : list num :=
  num_lit <$>
    [ 0.066513725; 0.012235489; 0.071939046; 0.033730778; 0.033486113;
      0.004278493; 0.001330901; 0.004165489; 0.004128926; 0.00409976;
      0.004527465; 0.012292586; 0.037467458 ]%Q.

(** A running total: the integer it starts as, or the numpy float it is
    once a product has been added. *)
Inductive total : Type :=
| TInt (z : Z)
| TFloat (x : num).

(** [acc += x] for a float [x]. *)
Definition total_add (acc : total) (x : num) : total :=
  match acc with
  | TInt z => TFloat (num_add (num_of_int z) x)
  | TFloat y => TFloat (num_add y x)
  end.

(** [acc / n] for an integer [n]: between two integers Python raises on
    a zero divisor, a numpy float divides by IEEE rules. *)
Definition total_div (acc : total) (n : Z) : result num :=
  match acc with
  | TInt z =>
      if n =? 0 then Raise ZeroDivisionError
      else Ok (num_div (num_of_int z) (num_of_int n))
  | TFloat x => Ok (num_div x (num_of_int n))
  end.

(** [r * n] for a fetched value [r] and an integer [n]. *)
Definition fetched_mul (r : fetched num) (n : Z) : result num :=
  match r with
  | FNum x => Ok (num_mul x (num_of_int n))
  | FNone => Raise TypeError
  end.

(** [n / d] for an integer [n] and a Python float [d]. *)
Definition int_div_float (n : Z) (d : num) : result num :=
  if num_is_zero d then Raise ZeroDivisionError
  else Ok (num_div (num_of_int n) d).

(** The feed and the fetch list that [run_epoch] hands to [sess.run]
    for one minibatch. *)
Definition batch_request (p : dict) (is_training : bool) (batch_data : dict)
  : result (list op * dict) :=
  if is_training then
    rbind (dict_item p "dropout_keep_prob") (λ keep,
      Ok ([Loss; Accuracy; TrainStep],
          <["dropout_keep_prob" := keep]> batch_data))
  else
    Ok ([Loss; Accuracy],
        <["dropout_keep_prob" := PFloat (num_lit 1.0%Q)]> batch_data).

(** The [for step, batch_data in enumerate(batch_iterator)] loop, with
    the locals [loss], [accuracy] and [processed_graphs].  Of the
    progress line only the two quotients it evaluates are kept; what is
    printed is not modelled. *)
Fixpoint run_batches (rt : runtime W) (p : dict) (is_training : bool)
  (batches : list dict) (loss accuracy : total) (processed_graphs : Z)
  : M (world W) (total * total * Z) :=
  match batches with
  | [] => ret (loss, accuracy, processed_graphs)
  | batch_data :: batches' =>
      do num_graphs <- lift (rbind (dict_item batch_data "num_graphs") as_int);
      let processed_graphs := processed_graphs + num_graphs in
      do '(fetch_list, batch_data) <-
        lift (batch_request p is_training batch_data);
      do result <- sess_run rt fetch_list batch_data;
      do l <- lift (rbind (py_index result 0) (λ r, fetched_mul r num_graphs));
      let loss := total_add loss l in
      do a <- lift (rbind (py_index result 1) (λ r, fetched_mul r num_graphs));
      let accuracy := total_add accuracy a in
      lift (total_div loss processed_graphs);;
      lift (total_div accuracy processed_graphs);;
      run_batches rt p is_training batches' loss accuracy processed_graphs
  end.

(** [run_epoch]; [p] is [self.params].  The minibatches reach the loop
    through the [ThreadedIterator], in the order the model's iterator
    yields them. *)
Definition run_epoch (rt : runtime W) (h : hooks) (p : dict)
  (epoch_name : string) (data : D) (is_training : bool)
  : M (world W) epoch_result :=
  let loss := TInt 0 in
  let accuracy := TInt 0 in
  do start_time <- time_time rt;
  let processed_graphs := 0 in
  do batch_iterator <- lift (make_minibatch_iterator h data is_training);
  do '(loss, accuracy, processed_graphs) <-
    run_batches rt p is_training batch_iterator loss accuracy processed_graphs;
  do accuracy <- lift (total_div accuracy processed_graphs);
  do loss <- lift (total_div loss processed_graphs);
  do task_id <- lift (rbind (dict_item p "task_id") as_int);
  do reference <- lift (py_index chemical_accuracy task_id);
  let error_ratio := num_div accuracy reference in
  do t <- time_time rt;
  do instance_per_sec <-
    lift (int_div_float processed_graphs (num_sub t start_time));
  ret (loss, accuracy, error_ratio, instance_per_sec).

(** ** The training loop *)

(** The components of a result tuple that [train] reads. *)
Definition result_accuracy (r : epoch_result) : num := r.1.1.2.
Definition result_error_ratio (r : epoch_result) : num := r.1.2.

(** The locals of [train] when it returns, and whether the loop was
    left through [break]. *)
Record train_end : Type := {
  log_to_save : list log_entry;
  best_val_acc : num;
  best_val_acc_epoch : Z;
  stopped : bool
}.

(** The body of [for epoch in range(1, num_epochs)], iterated over the
    epochs still to run. *)
Fixpoint train_loop (rt : runtime W) (h : hooks) (p : dict)
  (train_data valid_data : D) (total_time_start : num) (epochs : list Z)
  (log : list log_entry) (best : num) (best_epoch : Z)
  : M (world W) train_end :=
  match epochs with
  | [] => ret {| log_to_save := log; best_val_acc := best;
                 best_val_acc_epoch := best_epoch; stopped := false |}
  | epoch :: epochs' =>
      do train_results <-
        run_epoch rt h p ("epoch " +:+ pretty epoch +:+ " (training)")
                  train_data true;
      do valid_results <-
        run_epoch rt h p ("epoch " +:+ pretty epoch +:+ " (validation)")
                  valid_data false;
      do t <- time_time rt;
      let epoch_time := num_sub t total_time_start in
      let entry := {| epoch := epoch;
                      time := epoch_time;
                      train_results := train_results;
                      valid_results := valid_results;
                      valid_error_rate := result_error_ratio valid_results |} in
      let log := log ++ [entry] in
      write_log log;;
      let val_acc := result_accuracy valid_results in
      if num_ltb val_acc best then
        train_loop rt h p train_data valid_data total_time_start epochs'
                   log val_acc epoch
      else
        do stop <- lift (rbind (dict_item p "patience")
                               (int_gt (epoch - best_epoch)));
        if (stop : bool) then
          ret {| log_to_save := log; best_val_acc := best;
                 best_val_acc_epoch := best_epoch; stopped := true |}
        else
          train_loop rt h p train_data valid_data total_time_start epochs'
                     log best best_epoch
  end.

(** [range(1, n)] *)
Definition range1 (n : Z) : list Z := seqZ 1 (n - 1).

Definition train (rt : runtime W) (h : hooks) (p : dict)
  (train_data valid_data : D) : M (world W) train_end :=
  sess_run rt [InitOp] ∅;;
  do total_time_start <- time_time rt;
  do num_epochs <- lift (rbind (dict_item p "num_epochs") as_int);
  train_loop rt h p train_data valid_data total_time_start
             (range1 num_epochs) [] num_inf 0.

(** ** The specification's vocabulary

    The definitions below are not taken from the source: they phrase
    what the specification says, for comparison with the code above. *)

(** A configuration source that is "given": the argument is absent (or
    [None]) and there is no mapping, or it is a string that decodes to
    the mapping. *)
Definition config_given (args : dict) (key : string)
  (decode : string → result dict) (source : option dict) : Prop :=
  match source with
  | None => dict_get args key = PNone
  | Some d => ∃ s, dict_get args key = PStr s ∧ decode s = Ok d
  end.

(** "Defaults overridden key-by-key first by the file contents and
    then by the inline contents". *)
Definition resolved_value (defaults : dict) (file inline : option dict)
  (k : string) : option (pyval num) :=
  match inline ≫= (λ d, d !! k) with
  | Some v => Some v
  | None =>
      match file ≫= (λ d, d !! k) with
      | Some v => Some v
      | None => defaults !! k
      end
  end.

(** The records one [load_data] call works on: those of the file,
    truncated when [--restrict_data] says so. *)
Definition loaded_records (self : chem_model) (file_name : string)
  : result (list (graph_record num)) :=
  rbind (read_data (path_join (data_dir self) file_name))
        (restrict_data (dict_get (args self) "--restrict_data")).

(** [m] is the maximum of the list [l]. *)
Definition is_max (l : list Z) (m : Z) : Prop :=
  m ∈ l ∧ ∀ x, x ∈ l → x ≤ m.

(** Every forward edge-type index observed in a split. *)
Definition observed_edge_types (data : list (graph_record num)) : list Z :=
  data ≫= (λ g, edge_types (graph g)).

(** The feature-vector length of the first node of the first record. *)
Definition first_feature_length (data : list (graph_record num))
  : option Z :=
  g0 ← data !! 0%nat;
  f0 ← node_features g0 !! 0%nat;
  Some (Z.of_nat (length f0)).

(** What a [load_data] call leaves alone in [self]. *)
Definition same_setup (s s' : chem_model) : Prop :=
  args s' = args s ∧ params s' = params s ∧ data_dir s' = data_dir s.

(** "Scaled by 1 if directions are tied, else 2". *)
Definition direction_factor (tie : pyval num) : Z :=
  if py_truthy tie then 1 else 2.

(** What the specification has a pass ask of the runtime for a
    minibatch: when evaluating, loss and accuracy only, under a
    dropout-keep probability of 1.0; when training, the train step as
    well, under the configured probability. *)
Definition validation_request (batch_data : dict) : list op * dict :=
  ([Loss; Accuracy],
   <["dropout_keep_prob" := PFloat (num_lit 1.0%Q)]> batch_data).

Definition training_request (keep : pyval num) (batch_data : dict)
  : list op * dict :=
  ([Loss; Accuracy; TrainStep], <["dropout_keep_prob" := keep]> batch_data).

(** A computation that neither runs the session nor writes the log. *)
Definition quiet {A} (m : M (world W) A) : Prop :=
  ∀ w, weights (m w).2 = weights w ∧
       sess_calls (m w).2 = sess_calls w ∧
       log_file (m w).2 = log_file w.

(** "The field valid_error_rate equals the third component of that
    same entry's valid_results tuple". *)
Definition error_rate_consistent (e : log_entry) : Prop :=
  valid_error_rate e = (valid_results e).1.2.

(** [epoch - best_epoch > self.params['patience']] *)
Definition out_of_patience (p : dict) (current_epoch best_epoch : Z)
  : result bool :=
  rbind (dict_item p "patience") (int_gt (current_epoch - best_epoch)).

(** The builtin [sum] on floats: it starts from the integer [0] and
    adds from the left. *)
Definition py_sum (xs : list num) : total := foldl total_add (TInt 0) xs.

Definition sum_counts (gs : list Z) : Z := foldr Z.add 0 gs.

(** "sum(x_i * graphs_i) / sum(graphs_i)" *)
Definition weighted_mean (xs : list num) (gs : list Z) : result num :=
  total_div (py_sum (zip_with (λ x g, num_mul x (num_of_int g)) xs gs))
            (sum_counts gs).

(** The graph count a minibatch declares. *)
Definition batch_num_graphs (batch_data : dict) : result Z :=
  rbind (dict_item batch_data "num_graphs") as_int.

(** The loss and the accuracy that the runtime reports for each of a
    sequence of requests, starting from the variables [vars]. *)
Fixpoint batch_values (rt : runtime W) (requests : list (list op * dict))
  (vars : W) : list (num * num) :=
  match requests with
  | [] => []
  | (fetch_list, feed) :: requests' =>
      (eval_loss rt vars feed, eval_accuracy rt vars feed)
        :: batch_values rt requests' (run_ops rt fetch_list feed vars)
  end.

(** The variables after a sequence of requests. *)
Definition run_requests (rt : runtime W) (requests : list (list op * dict))
  (vars : W) : W :=
  foldl (λ vars r, run_ops rt r.1 r.2 vars) vars requests.

(** The early-stopping rule, per epoch: "if the current validation
    accuracy is strictly lower than the best so far, update best and
    epoch; else, if current_epoch - best_epoch > patience, stop;
    otherwise continue".  The result is the best value, its epoch, and
    the epoch at which the loop stopped, if it did. *)
Fixpoint early_stopping (patience : Z) (best : num) (best_epoch : Z)
  (validations : list (Z * num)) : num * Z * option Z :=
  match validations with
  | [] => (best, best_epoch, None)
  | (current_epoch, val_acc) :: later =>
      if num_ltb val_acc best
      then early_stopping patience val_acc current_epoch later
      else if patience <? current_epoch - best_epoch
           then (best, best_epoch, Some current_epoch)
           else early_stopping patience best best_epoch later
  end.

(** The epoch and validation accuracy a log entry records. *)
Definition entry_validation (e : log_entry) : Z * num :=
  (epoch e, result_accuracy (valid_results e)).

End ChemModel.

Arguments chem_model : clear implicits.
Arguments hooks : clear implicits.
Arguments log_entry : clear implicits.
Arguments world : clear implicits.
Arguments runtime : clear implicits.
Arguments train_end : clear implicits.
Arguments total : clear implicits.
Arguments init_weights {num W} r.
Arguments eval_loss {num W} r w feed.
Arguments eval_accuracy {num W} r w feed.
Arguments apply_train_step {num W} r w feed.
Arguments now {num W} r k.
Arguments weights {num W} w.
Arguments clock {num W} w.
Arguments sess_calls {num W} w.
Arguments log_file {num W} w.

(** * The minibatch streamer *)

Module ThreadedIterator.
Section Streamer.
Context {A : Type}.

(** Modelled from the spec: [ThreadedIterator] lives in [utils.py],
    which is not among the sources.  A worker runs the model's
    iterator and puts each item into a bounded FIFO queue, then an
    end-of-stream sentinel; the consumer takes items from the queue
    until it takes the sentinel.  [source] is what the iterator has
    still to yield, [queue] the channel with its oldest entry first
    ([None] is the sentinel), [closed] whether the worker has put the
    sentinel and exited, [delivered] what the consumer has received,
    oldest first, and [finished] whether it has taken the sentinel. *)
Record state : Type := {
  source : list A;
  queue : list (option A);
  closed : bool;
  delivered : list A;
  finished : bool
}.

Inductive thread : Type := Producer | Consumer.

Definition start (items : list A) : state :=
  {| source := items; queue := []; closed := false;
     delivered := []; finished := false |}.

Definition put (entry : option A) (rest : list A) (s : state) : state :=
  {| source := rest; queue := queue s ++ [entry];
     closed := match entry with None => true | Some _ => false end;
     delivered := delivered s; finished := finished s |}.

(** Modelled from the spec: one scheduling slot given to a thread.  A
    producer facing a full queue and a consumer facing an empty one are
    suspended: the slot leaves the state as it is. *)
Definition step (max_queue_size : nat) (t : thread) (s : state) : state :=
  match t with
  | Producer =>
      if closed s then s
      else if (length (queue s) <? max_queue_size)%nat then
        match source s with
        | x :: rest => put (Some x) rest s
        | [] => put None [] s
        end
      else s
  | Consumer =>
      if finished s then s
      else match queue s with
           | [] => s
           | Some x :: q =>
               {| source := source s; queue := q; closed := closed s;
                  delivered := delivered s ++ [x]; finished := false |}
           | None :: q =>
               {| source := source s; queue := q; closed := closed s;
                  delivered := delivered s; finished := true |}
           end
  end.

(** Modelled from the spec: the timing of the two threads is a
    schedule, the sequence of slots they are given. *)
Definition run (max_queue_size : nat) (schedule : list thread) (s : state)
  : state :=
  foldl (λ s t, step max_queue_size t s) s schedule.

(** The items in the channel, oldest first. *)
Definition in_flight (s : state) : list A := omap id (queue s).

(** The capacity [run_epoch] asks for. *)
Definition max_queue_size : nat := 3.

(** The schedule that gives the worker and the consumer one slot each,
    in turn, for a number of rounds. *)
Fixpoint round_robin (rounds : nat) : list thread :=
  match rounds with
  | O => []
  | S rounds' => Producer :: Consumer :: round_robin rounds'
  end.

(** The shape of a state that streams [items]: nothing is lost or
    reordered between the iterator, the channel and the consumer, and
    the sentinel, once put, is the last entry of the channel until the
    consumer takes it. *)
Definition streams (items : list A) (s : state) : Prop :=
  delivered s ++ in_flight s ++ source s = items ∧
  if closed s then
    source s = [] ∧
    if finished s then queue s = []
    else ∃ xs, queue s = (Some <$> xs) ++ [None]
  else
    finished s = false ∧ ∃ xs, queue s = Some <$> xs.

End Streamer.
Arguments state : clear implicits.
End ThreadedIterator.

(** * A small concrete model

    A model whose minibatches are given outright and a runtime that
    reports the loss and accuracy written in the feed, or, for a feed
    without an accuracy, the entry of a table that the number of train
    steps selects.  Floats are binary64. *)

Module Toy.

Definition batch (num_graphs : Z) (loss accuracy : float)
  : gmap string (pyval float) :=
  <["num_graphs" := PInt num_graphs]>
    (<["loss" := PFloat loss]> (<["accuracy" := PFloat accuracy]> ∅)).

Definition plain_batch (num_graphs : Z) : gmap string (pyval float) :=
  <["num_graphs" := PInt num_graphs]> ∅.

Definition rt (table : list float) : runtime float nat := {|
  init_weights := 0%nat;
  eval_loss := λ _ feed,
    match feed !! "loss" with Some (PFloat x) => x | _ => 0%float end;
  eval_accuracy := λ vars feed,
    match feed !! "accuracy" with
    | Some (PFloat x) => x
    | _ => nth (vars - 1) table 0%float
    end;
  apply_train_step := λ vars _, S vars;
  now := λ k, binary64.of_int (Z.of_nat k)
|}.

(** Each record becomes a one-graph minibatch; the iterator yields the
    processed data as they are. *)
Definition h : hooks float (list (gmap string (pyval float))) unit := {|
  process_raw_graphs := λ _ data, Ok ((λ _, plain_batch 1) <$> data);
  gated_regression := λ t, Ok t;
  prepare_specific_model := λ _, Ok tt;
  compute_final_node_representations := λ _, Ok tt;
  make_minibatch_iterator := λ data _, Ok data
|}.

Definition w0 : world float nat :=
  {| weights := 0%nat; clock := 0%nat; sess_calls := []; log_file := None |}.

(** Two splits: the first has forward edge types up to 2 and
    one-element feature vectors, the second edge types up to 3 and
    two-element feature vectors. *)
Definition split_a : list (graph_record float) :=
  [ {| graph := [(0, 1, 1); (1, 2, 2)];
       node_features := [[1%float]; [0%float]; [0%float]] |} ].

Definition split_b : list (graph_record float) :=
  [ {| graph := [(0, 3, 1)];
       node_features := [[1%float; 0%float]; [0%float; 1%float]] |};
    {| graph := [(0, 1, 1); (1, 1, 0)];
       node_features := [[0%float; 0%float]; [1%float; 1%float]] |} ].

Definition read_data (path : string) : result (list (graph_record float)) :=
  if String.eqb path "molecules_train.json" then Ok split_a
  else if String.eqb path "molecules_valid.json" then Ok split_b
  else Raise (FileNotFoundError path).

Definition untied : gmap string (pyval float) :=
  <["tie_fwd_bkwd" := PBool false]> default_params.

(** The configuration sources of the specification's example. *)
Definition defaults : gmap string (pyval float) :=
  {["hidden_size" := PInt 100]}.

Definition cli : gmap string (pyval float) :=
  <["--config-file" := PStr "params.json"]> (<["--config" := PStr "{}"]> ∅).

Definition json_load_file (path : string)
  : result (gmap string (pyval float)) :=
  if String.eqb path "params.json" then Ok {["hidden_size" := PInt 50]}
  else Raise (FileNotFoundError path).

Definition json_loads (s : string) : result (gmap string (pyval float)) :=
  if String.eqb s "{}" then Ok ∅ else Raise ValueError.

(** Parameters with the given epoch budget and patience. *)
Definition budget (num_epochs patience : Z) : gmap string (pyval float) :=
  <["num_epochs" := PInt num_epochs]>
    (<["patience" := PInt patience]> default_params).

(** The validation accuracies of the specification's example, by
    number of train steps taken. *)
Definition accuracies : list float :=
  [5%float; 4%float; 6%float; 7%float; 8%float;
   9%float; 9%float; 9%float; 9%float].

(** The two files [__init__] loads, and what the hook makes of them. *)
Definition files : list string :=
  ["molecules_train.json"; "molecules_valid.json"].

Definition processed : list (list (gmap string (pyval float))) :=
  [[plain_batch 1]; [plain_batch 1; plain_batch 1]].

(** Minibatches of 1 and 3 graphs with losses 1.0 and 3.0. *)
Definition two_batches : list (gmap string (pyval float)) :=
  [batch 1 1 2; batch 3 3 4].

(** A split that is a single one-graph minibatch. *)
Definition one_graph : list (gmap string (pyval float)) := [plain_batch 1].

End Toy.

(** * The rest of the class *)

(** ** Strings and comprehensions *)

(** [s.split(sep)] for a one-character separator: the pieces between
    the occurrences of [sep], empty pieces included. *)
Fixpoint split_on (sep : ascii) (s : string) : list string :=
  match s with
  | EmptyString => [EmptyString]
  | String c s' =>
      if Ascii.eqb c sep then EmptyString :: split_on sep s'
      else match split_on sep s' with
           | piece :: pieces => String c piece :: pieces
           | [] => [String c EmptyString]
           end
  end.

(** [sep.join(pieces)] *)
Fixpoint join_with (sep : ascii) (pieces : list string) : string :=
  match pieces with
  | [] => EmptyString
  | piece :: pieces' =>
      match pieces' with
      | [] => piece
      | _ :: _ => piece +:+ String sep (join_with sep pieces')
      end
  end.

(** Whether a character occurs in a string. *)
Fixpoint occurs (c : ascii) (s : string) : bool :=
  match s with
  | EmptyString => false
  | String c' s' => Ascii.eqb c' c || occurs c s'
  end.

(** How often a character occurs in a string. *)
Fixpoint occurrences (c : ascii) (s : string) : nat :=
  match s with
  | EmptyString => 0%nat
  | String c' s' =>
      if Ascii.eqb c' c then S (occurrences c s') else occurrences c s'
  end.

(** A list comprehension whose element expression can raise: the
    elements in order, or the first exception. *)
Fixpoint rmap {A B} (f : A → result B) (l : list A) : result (list B) :=
  match l with
  | [] => Ok []
  | x :: l' => rbind (f x) (λ y, rbind (rmap f l') (λ ys, Ok (y :: ys)))
  end.

Definition space : ascii := " "%char.
Definition newline : ascii := "010"%char.

Section GraphString.

(** The builtin [int] applied to a string. *)
Variable py_int : string → result Z.

Definition graph_string_to_array (graph_string : string)
  : result (list (list Z)) :=
  rmap (λ s, rmap py_int (split_on space s)) (split_on newline graph_string).

End GraphString.

(** The reading of plain decimal tokens, on which [int] agrees in
    every version of the language: ASCII digits after an optional minus
    sign.  It stands in for [int] where an example needs one; what else
    [int] accepts (a plus sign, surrounding blanks, grouped digits) it
    rejects. *)
Module Decimal.

Definition digit (c : ascii) : option Z :=
  let n := Z.of_N (N_of_ascii c) in
  if (48 <=? n) && (n <=? 57) then Some (n - 48) else None.

Fixpoint digits (acc : Z) (s : string) : option Z :=
  match s with
  | EmptyString => Some acc
  | String c s' =>
      match digit c with
      | Some d => digits (10 * acc + d) s'
      | None => None
      end
  end.

Definition unsigned (s : string) : result Z :=
  match s with
  | EmptyString => Raise ValueError
  | _ => match digits 0 s with
         | Some n => Ok n
         | None => Raise ValueError
         end
  end.

Definition int (s : string) : result Z :=
  match s with
  | String "-"%char s' => rbind (unsigned s') (λ n, Ok (- n))
  | _ => unsigned s
  end.

End Decimal.

Section ChemModelRest.
Context {num : Type} `{Numeric num}.
Context {D tensor : Type}.

Local Abbreviation dict := (gmap string (pyval num)).

(** ** Loading a split, continued *)

(** Every vertex index, source or target, observed in a split. *)
Definition observed_vertices (data : list (graph_record num)) : list Z :=
  data ≫= (λ g, edge_vertices (graph g)).

(** [self] after a [load_data] call that worked on [data] under the
    flag [tie]. *)
Definition loaded_model (s : chem_model num) (data : list (graph_record num))
  (tie : pyval num) (first_length : Z) : chem_model num :=
  {| args := args s; params := params s; data_dir := data_dir s;
     max_num_vertices :=
       foldl Z.max (max_num_vertices s) (observed_vertices data);
     num_edge_types :=
       Z.max (num_edge_types s)
             (foldl Z.max 0 (observed_edge_types data) * direction_factor tie);
     annotation_size := Z.max (annotation_size s) first_length |}.

(** The schema only grows from [s] to [s']: arguments, parameters and
    data directory are the same and no schema field is smaller. *)
Definition schema_grows (s s' : chem_model num) : Prop :=
  same_setup s s' ∧
  max_num_vertices s ≤ max_num_vertices s' ∧
  num_edge_types s ≤ num_edge_types s' ∧
  annotation_size s ≤ annotation_size s'.

(** A computation on [self] under which the schema only grows,
    whether it returns or raises. *)
Definition growing {A} (m : M (chem_model num) A) : Prop :=
  ∀ s, schema_grows s (m s).2.

(** ** The gradient-clipping loop of [make_model] *)

(** A pair of [grads_and_vars] whose gradient is [None]. *)
Definition no_gradient (gv : option tensor * tensor) : bool :=
  match gv.1 with None => true | Some _ => false end.


(** [tf.clip_by_norm], a node of the computation graph. *)
Variable clip_by_norm : tensor → pyval num → tensor.

(** [for grad, var in grads_and_vars], with [clipped_grads] the list
    it appends to; a gradient is [None] for a variable the loss does
    not depend on. *)
Fixpoint clip_loop (p : dict) (grads_and_vars : list (option tensor * tensor))
  (clipped_grads : list (option tensor * tensor))
  : result (list (option tensor * tensor)) :=
  match grads_and_vars with
  | [] => Ok clipped_grads
  | (grad, var) :: rest =>
      match grad with
      | Some g =>
          rbind (dict_item p "clamp_gradient_norm") (λ clamp,
            clip_loop p rest (clipped_grads ++ [(Some (clip_by_norm g clamp), var)]))
      | None => clip_loop p rest (clipped_grads ++ [(grad, var)])
      end
  end.

Definition clip_gradients (p : dict)
  (grads_and_vars : list (option tensor * tensor))
  : result (list (option tensor * tensor)) :=
  clip_loop p grads_and_vars [].

(** ** Construction *)

(** What [__init__] takes from outside: the decoders of the
    configuration sources and of the molecule files, the formatted
    start time, the process identifier, and which paths can be opened
    for writing. *)
Variable json_load_file : string → result dict.
Variable json_loads : string → result dict.
Variable read_data : string → result (list (graph_record num)).
Variable timestamp : string.
Variable pid : Z.
Variable can_write : string → bool.

(** [args.get('--log_dir') or '.'], as [os.path.join] then needs it. *)
Definition log_dir_of (a : dict) : result string :=
  let v := dict_get a "--log_dir" in
  if py_truthy v then
    match v with
    | PStr s => Ok s
    | _ => Raise TypeError
    end
  else Ok ".".

(** A [--data_dir] that is given and is not a string is stored as it
    is, and [os.path.join] rejects it when the first split is loaded. *)
Definition data_dir_usable (a : dict) : result unit :=
  match a !! "--data_dir" with
  | None | Some PNone | Some (PStr _) => Ok tt
  | Some _ => Raise TypeError
  end.

(** The files written so far, oldest first, each with the mapping
    dumped into it. *)
Definition disk : Type := list (string * dict).

(** [with open(path, 'w') as f: json.dump(content, f)] *)
Definition write_json (path : string) (content : dict) : M disk unit :=
  λ d, if can_write path then (Ok tt, d ++ [(path, content)])
       else (Raise (FileNotFoundError path), d).

(** The attributes of a constructed object that the rest of the class
    reads; [computed_values] is what [gated_regression] returned. *)
Record instance : Type := {
  self : chem_model num;
  run_id : string;
  log_file_path : string;
  train_data : D;
  valid_data : D;
  computed_values : tensor
}.

(** [__init__]; [defaults] is [self.default_params()].  Of
    [make_model] the hook calls are kept; the placeholders, networks,
    loss and optimizer that the runtime builds around them are not
    modelled. *)
Definition init (h : hooks num D tensor) (defaults a : dict)
  : M disk instance :=
  let run_id := timestamp +:+ "_" +:+ pretty pid in
  do log_dir <- lift (log_dir_of a);
  let log_file := path_join log_dir (run_id +:+ "_log.json") in
  do params <- lift (collect_params json_load_file json_loads defaults a);
  write_json (path_join log_dir (run_id +:+ "_params.json")) params;;
  let model := new_model a params in
  lift (data_dir_usable a);;
  match load_data read_data h "molecules_train.json" model with
  | (Raise e, _) => lift (Raise e)
  | (Ok train_data, model) =>
      match load_data read_data h "molecules_valid.json" model with
      | (Raise e, _) => lift (Raise e)
      | (Ok valid_data, model) =>
          do values <- lift (make_model h model);
          ret {| self := model; run_id := run_id; log_file_path := log_file;
                 train_data := train_data; valid_data := valid_data;
                 computed_values := values |}
      end
  end.

(** ** One pass over a split, continued *)

Context {W : Type}.

(** The time a pass that starts in [w] measures: its second clock
    reading minus its first. *)
Definition elapsed (rt : runtime num W) (w : world num W) : num :=
  num_sub (now rt (S (clock w))) (now rt (clock w)).

(** The world after a pass that started in [w], ran the requests
    [reqs] in order and read the clock [clock_reads] times. *)
Definition after_pass (rt : runtime num W) (reqs : list (list op * dict))
  (w : world num W) (clock_reads : nat) : world num W :=
  {| weights := run_requests rt reqs (weights w);
     clock := (clock_reads + clock w)%nat;
     sess_calls := sess_calls w ++ reqs;
     log_file := log_file w |}.

(** A computation whose session calls, if it makes any, do not run
    the initialiser. *)
Definition never_initialises {A} (m : M (world num W) A) : Prop :=
  ∀ w, ∃ calls, sess_calls (m w).2 = sess_calls w ++ calls ∧
                Forall (λ c, InitOp ∉ c.1) calls.

End ChemModelRest.

Arguments disk : clear implicits.
Arguments instance : clear implicits.

(** * Further concrete cases

    Inputs at the edges of what the class accepts, for the small model
    above. *)

Module Samples.

(** An edge list as text, and the rows it denotes. *)
Definition rows : list (list Z) := [[0; 1; 1]; [1; 2; 2]].

Definition graph_string : string := join_with newline ["0 1 1"; "1 2 2"].

(** The text of one edge, ended by a newline. *)
Definition trailing_newline : string := "0 1 1" +:+ String newline "".

(** A split whose second molecule is a single atom, without an edge. *)
Definition single_atom : list (graph_record float) :=
  [ {| graph := [(0, 1, 1)]; node_features := [[1%float]; [0%float]] |};
    {| graph := []; node_features := [[1%float]] |} ].

Definition read_data (path : string) : result (list (graph_record float)) :=
  if String.eqb path "single_atom.json" then Ok single_atom
  else if String.eqb path "empty.json" then Ok []
  else Toy.read_data path.

(** A reader that sees only the first record of each file. *)
Definition read_head (path : string) : result (list (graph_record float)) :=
  rbind (Toy.read_data path) (λ data, Ok (take 1 data)).

Definition restricted : gmap string (pyval float) :=
  {["--restrict_data" := PInt 1]}.

(** Minibatches of which the second declares no graph count. *)
Definition bad_batches : list (gmap string (pyval float)) :=
  [Toy.batch 1 1 2; ∅; Toy.batch 3 3 4].

(** Parameters with a task identifier just past the table. *)
Definition task_13 : gmap string (pyval float) :=
  <["task_id" := PInt 13]> default_params.

(** A run started by process 4242, with every path writable. *)
Definition timestamp : string := "2018-03-01-12-00-00".

Definition pid : Z := 4242.

Definition can_write (path : string) : bool := true.

End Samples.

(** * Properties *)

Section ChemModelTheory.
Context {num : Type} `{Numeric num}.
Context {D tensor W : Type}.

Local Abbreviation dict := (gmap string (pyval num)).

(** ** Parameter resolution *)

Lemma dict_update_lookup (d e : dict) (k : string) :
  dict_update d e !! k =
  match e !! k with Some v => Some v | None => d !! k end.
Proof.
  unfold dict_update. rewrite lookup_union.
  destruct (e !! k), (d !! k); reflexivity.
Qed.

(** C6: the resolved parameters are the defaults overridden key by key
    by the configuration file, if one is given, and then by the inline
    configuration, if one is given; a key that a later source does not
    mention keeps its earlier value. *)
Theorem collect_params_resolved
  (json_load_file json_loads : string → result dict)
  (defaults args : dict) (file inline : option dict) :
  config_given args "--config-file" json_load_file file →
  config_given args "--config" json_loads inline →
  ∃ resolved,
    collect_params json_load_file json_loads defaults args = Ok resolved ∧
    ∀ k, resolved !! k = resolved_value defaults file inline k.
Proof.
  intros Hfile Hinline. unfold collect_params, resolved_value.
  destruct file as [fd|], inline as [il|]; simpl in Hfile, Hinline.
  - destruct Hfile as (path & -> & ->), Hinline as (s & -> & ->). simpl.
    eexists; split; [reflexivity|]. intros k.
    rewrite !dict_update_lookup. reflexivity.
  - destruct Hfile as (path & -> & ->). rewrite Hinline. simpl.
    eexists; split; [reflexivity|]. intros k.
    rewrite dict_update_lookup. reflexivity.
  - destruct Hinline as (s & -> & ->). rewrite Hfile. simpl.
    eexists; split; [reflexivity|]. intros k.
    rewrite dict_update_lookup. reflexivity.
  - rewrite Hfile, Hinline. simpl.
    eexists; split; [reflexivity|]. intros k. reflexivity.
Qed.

(** ** The abstract hooks *)

(** C8: each of the five extension points, as [ChemModel] itself
    defines it, raises on every input and never returns a value. *)
Theorem base_hooks_unimplemented :
  (∀ (self : chem_model num) raw_data,
     process_raw_graphs (base_hooks (D:=D) (tensor:=tensor)) self raw_data =
     Raise (Exception "Models have to implement process_raw_graphs!")) ∧
  (∀ last_h,
     gated_regression (base_hooks (num:=num) (D:=D) (tensor:=tensor)) last_h =
     Raise (Exception "Models have to implement gated_regression!")) ∧
  (∀ self : chem_model num,
     prepare_specific_model (base_hooks (D:=D) (tensor:=tensor)) self =
     Raise (Exception "Models have to implement prepare_specific_model!")) ∧
  (∀ self : chem_model num,
     compute_final_node_representations
       (base_hooks (D:=D) (tensor:=tensor)) self =
     Raise (Exception
              "Models have to implement compute_final_node_representations!")) ∧
  (∀ (data : D) is_training,
     make_minibatch_iterator
       (base_hooks (num:=num) (D:=D) (tensor:=tensor)) data is_training =
     Raise (Exception "Models have to implement make_minibatch_iterator!")).
Proof. repeat split. Qed.

(** With the base-class hooks no model can be built and no pass over a
    split starts: the first hook called raises. *)
Lemma base_make_model_raises (self : chem_model num) :
  make_model (base_hooks (D:=D) (tensor:=tensor)) self =
  Raise (Exception "Models have to implement prepare_specific_model!").
Proof. reflexivity. Qed.

Lemma base_run_epoch_raises (rt : runtime num W) (p : dict)
  (epoch_name : string) (data : D) (is_training : bool) (w : world num W) :
  (run_epoch rt (base_hooks (tensor:=tensor)) p epoch_name data is_training w).1
  = Raise (Exception "Models have to implement make_minibatch_iterator!") ∧
  sess_calls
    (run_epoch rt (base_hooks (tensor:=tensor)) p epoch_name data is_training w).2
  = sess_calls w.
Proof. split; reflexivity. Qed.

(** ** Schema inference *)

Lemma foldl_max_ge_base (l : list Z) (b : Z) : b ≤ foldl Z.max b l.
Proof.
  revert b. induction l as [|x l IH]; intros b; simpl; [lia|].
  specialize (IH (Z.max b x)). lia.
Qed.

Lemma foldl_max_ge_elem (l : list Z) (b x : Z) :
  x ∈ l → x ≤ foldl Z.max b l.
Proof.
  revert b. induction l as [|y l IH]; intros b Hx; simpl.
  - inversion Hx.
  - apply elem_of_cons in Hx as [->|Hx]; [|by apply IH].
    pose proof (foldl_max_ge_base l (Z.max b y)). lia.
Qed.

Lemma foldl_max_in (l : list Z) (b : Z) :
  foldl Z.max b l = b ∨ foldl Z.max b l ∈ l.
Proof.
  revert b. induction l as [|y l IH]; intros b; simpl; [by left|].
  destruct (IH (Z.max b y)) as [->|Hin].
  - destruct (Z.max_spec b y) as [[_ ->]|[_ ->]]; [right; left|by left].
  - right. by right.
Qed.

Lemma foldl_max_is_max (l : list Z) (b : Z) :
  (∃ x, x ∈ l ∧ b ≤ x) → is_max l (foldl Z.max b l).
Proof.
  intros (x & Hx & Hbx). split.
  - destruct (foldl_max_in l b) as [Heq|Hin]; [|done].
    pose proof (foldl_max_ge_elem l b x Hx).
    assert (x = b) as -> by lia. by rewrite Heq.
  - intros y Hy. by apply foldl_max_ge_elem.
Qed.

Lemma foldl_max_comm (l : list Z) (a b : Z) :
  Z.max a (foldl Z.max b l) = foldl Z.max (Z.max a b) l.
Proof.
  revert b. induction l as [|x l IH]; intros b; simpl; [done|].
  rewrite IH. f_equal. lia.
Qed.

Lemma py_max_ok (l : list Z) (m : Z) :
  py_max l = Ok m → l ≠ [] ∧ ∀ b, Z.max b m = foldl Z.max b l.
Proof.
  destruct l as [|x l]; simpl; [discriminate|].
  intros [= <-]. split; [done|]. intros b. apply foldl_max_comm.
Qed.

Lemma scan_graphs_ok (data : list (graph_record num)) (n n' : Z)
  (s s' : chem_model num) :
  scan_graphs data n s = (Ok n', s') →
  n' = foldl Z.max n (observed_edge_types data) ∧
  Forall (λ g, graph g ≠ []) data ∧
  same_setup s s' ∧
  num_edge_types s' = num_edge_types s ∧
  annotation_size s' = annotation_size s.
Proof.
  revert n s. induction data as [|g data IH]; intros n s; simpl.
  - intros [= <- <-]. by repeat split.
  - unfold bind, lift, modify.
    destruct (py_max (edge_vertices (graph g))) as [v|] eqn:Hv; [|discriminate].
    destruct (py_max (edge_types (graph g))) as [t|] eqn:Ht; [|discriminate].
    intros Hrest. apply IH in Hrest as (-> & Hall & Hsame & Hn & Ha).
    apply py_max_ok in Ht as [Hne Ht].
    unfold observed_edge_types. simpl. rewrite foldl_app, <- Ht.
    repeat split; try apply Hsame; try done.
    constructor; [|done]. intros Hg. apply Hne. by rewrite Hg.
Qed.

Lemma load_data_ok (read_data : string → result (list (graph_record num)))
  (h : hooks num D tensor) (file_name : string) (d : D)
  (s s' : chem_model num) :
  load_data read_data h file_name s = (Ok d, s') →
  ∃ data tie n,
    loaded_records read_data s file_name = Ok data ∧
    params s !! "tie_fwd_bkwd" = Some tie ∧
    first_feature_length data = Some n ∧
    observed_edge_types data ≠ [] ∧
    same_setup s s' ∧
    num_edge_types s' =
      Z.max (num_edge_types s)
            (foldl Z.max 0 (observed_edge_types data) * direction_factor tie) ∧
    annotation_size s' = Z.max (annotation_size s) n.
Proof.
  unfold load_data, loaded_records, bind, get, lift, modify, dict_item.
  destruct (read_data _) as [raw|]; [simpl|discriminate].
  destruct (restrict_data _ raw) as [data|]; [|discriminate].
  destruct (scan_graphs data 0 s) as [[n|] s1] eqn:Hscan; [|discriminate].
  apply scan_graphs_ok in Hscan as (-> & Hall & Hsame & Hn & Ha).
  destruct (params s !! "tie_fwd_bkwd") as [tie|] eqn:Htie; [|discriminate].
  unfold py_index. simpl.
  destruct data as [|g0 data]; [discriminate|]. simpl.
  destruct (node_features g0) as [|f0 fs] eqn:Hf; [discriminate|]. simpl.
  intros Hret. exists (g0 :: data), tie, (Z.of_nat (length f0)).
  assert (s' = set_annotation_size
                 (Z.max (annotation_size s1) (Z.of_nat (length f0)))
                 (set_num_edge_types
                    (Z.max (num_edge_types s1)
                       (foldl Z.max 0 (observed_edge_types (g0 :: data)) *
                        direction_factor tie)) s1)) as ->.
  { injection Hret as _ <-. reflexivity. }
  simpl. rewrite Hn, Ha.
  repeat split; try apply Hsame; try done.
  - unfold first_feature_length. simpl. by rewrite Hf.
  - apply Forall_cons in Hall as [Hg _]. unfold observed_edge_types. simpl.
    destruct (graph g0); [done|]. discriminate.
Qed.

Lemma loaded_records_same_setup
  (read_data : string → result (list (graph_record num)))
  (s s' : chem_model num) (file_name : string) :
  same_setup s s' →
  loaded_records read_data s' file_name = loaded_records read_data s file_name.
Proof. intros (Ha & _ & Hd). unfold loaded_records. by rewrite Ha, Hd. Qed.

(** The effect of a sequence of successful loads: per file the records
    worked on, and the two running maxima. *)
Lemma load_all_ok (read_data : string → result (list (graph_record num)))
  (h : hooks num D tensor) (file_names : list string) (ds : list D)
  (s s' : chem_model num) :
  load_all read_data h file_names s = (Ok ds, s') →
  ∃ splits lens,
    Forall2 (λ f data, loaded_records read_data s f = Ok data ∧
                       observed_edge_types data ≠ []) file_names splits ∧
    Forall2 (λ data n, first_feature_length data = Some n) splits lens ∧
    same_setup s s' ∧
    (∀ tie, params s !! "tie_fwd_bkwd" = Some tie →
       num_edge_types s' =
       foldl Z.max (num_edge_types s)
         ((λ data, foldl Z.max 0 (observed_edge_types data) *
                   direction_factor tie) <$> splits)) ∧
    annotation_size s' = foldl Z.max (annotation_size s) lens.
Proof.
  revert ds s. induction file_names as [|f fs IH]; intros ds s; simpl.
  - intros [= <- <-]. exists [], []. repeat split; constructor.
  - unfold bind at 1.
    destruct (load_data read_data h f s) as [[d|] s1] eqn:Hload; [|discriminate].
    apply load_data_ok in Hload
      as (data & tie & n & Hdata & Htie & Hlen & Hobs & Hsame & Hn & Ha).
    unfold bind at 1.
    destruct (load_all read_data h fs s1) as [[ds'|] s2] eqn:Hrest;
      [|discriminate].
    intros [= <- <-].
    apply IH in Hrest as (splits & lens & Hsplits & Hlens & Hsame' & Hn' & Ha').
    exists (data :: splits), (n :: lens). repeat split.
    + constructor; [done|].
      eapply Forall2_impl; [exact Hsplits|]. simpl. intros f' data' [Hl Ho].
      split; [|done]. by rewrite <- (loaded_records_same_setup _ s s1).
    + by constructor.
    + destruct Hsame as (E & _ & _), Hsame' as (E' & _ & _). congruence.
    + destruct Hsame as (_ & E & _), Hsame' as (_ & E' & _). congruence.
    + destruct Hsame as (_ & _ & E), Hsame' as (_ & _ & E'). congruence.
    + intros tie' Htie'. rewrite Htie in Htie'. injection Htie' as <-.
      simpl. rewrite <- Hn. apply Hn'. destruct Hsame as (_ & -> & _). done.
    + simpl. by rewrite <- Ha.
Qed.

Lemma observed_edge_types_elem (data : list (graph_record num)) (x : Z) :
  x ∈ observed_edge_types data →
  ∃ g e, g ∈ data ∧ e ∈ graph g ∧ x = e.1.2.
Proof.
  unfold observed_edge_types, edge_types. intros Hx.
  apply list_elem_of_bind in Hx as (g & Hx & Hg).
  apply list_elem_of_fmap in Hx as (e & -> & He). eauto.
Qed.

(** C4: after a sequence of [load_data] calls on a fresh object, with
    non-negative edge-type indices, [num_edge_types] is the maximum
    over the loads of the largest forward edge-type index observed in
    the load times 1 (tied) or 2 (untied).  Every prefix of a sequence
    of calls is such a sequence, so this holds after each call. *)
Theorem num_edge_types_running_max
  (read_data : string → result (list (graph_record num)))
  (h : hooks num D tensor) (file_names : list string) (a p : dict)
  (tie : pyval num) (ds : list D) (s' : chem_model num) :
  p !! "tie_fwd_bkwd" = Some tie →
  file_names ≠ [] →
  (∀ f data g e,
     f ∈ file_names →
     loaded_records read_data (new_model a p) f = Ok data →
     g ∈ data → e ∈ graph g → 0 ≤ e.1.2) →
  load_all read_data h file_names (new_model a p) = (Ok ds, s') →
  ∃ ms,
    Forall2 (λ f m, ∃ data,
               loaded_records read_data (new_model a p) f = Ok data ∧
               is_max (observed_edge_types data) m) file_names ms ∧
    is_max ((λ m, m * direction_factor tie) <$> ms) (num_edge_types s').
Proof.
  intros Htie Hne Hpos Hload.
  apply load_all_ok in Hload as (splits & lens & Hsplits & _ & _ & Hn & _).
  specialize (Hn tie Htie). simpl in Hn.
  exists ((λ data, foldl Z.max 0 (observed_edge_types data)) <$> splits).
  split.
  - apply Forall2_fmap_r.
    assert (Forall2 (λ f data, f ∈ file_names ∧
                       loaded_records read_data (new_model a p) f = Ok data ∧
                       observed_edge_types data ≠ []) file_names splits) as Hin.
    { apply Forall2_same_length_lookup. split.
      - by eapply Forall2_length.
      - intros i f data Hf Hd. split; [by eapply list_elem_of_lookup_2|].
        eapply Forall2_lookup_lr in Hsplits; eauto. }
    eapply Forall2_impl; [exact Hin|]. simpl.
    intros f data (Hf & Hl & Ho). exists data. split; [done|].
    apply foldl_max_is_max.
    destruct (observed_edge_types data) as [|x l] eqn:Hobs; [done|].
    exists x. split; [left|].
    assert (x ∈ observed_edge_types data) as Hx by (rewrite Hobs; left).
    apply observed_edge_types_elem in Hx as (g & e & Hg & He & ->). eauto.
  - rewrite <- list_fmap_compose. rewrite Hn.
    apply foldl_max_is_max.
    destruct splits as [|data splits].
    { apply Forall2_nil_inv_r in Hsplits. done. }
    exists (foldl Z.max 0 (observed_edge_types data) * direction_factor tie).
    split; [left|].
    pose proof (foldl_max_ge_base (observed_edge_types data) 0).
    unfold direction_factor. destruct (py_truthy tie); lia.
Qed.

(** C3, as the code has it: after a sequence of [load_data] calls on a
    fresh object, [annotation_size] is the largest, over all the loads,
    of the feature-vector length of the first node of the load's first
    record; every load takes part in it. *)
Theorem annotation_size_running_max
  (read_data : string → result (list (graph_record num)))
  (h : hooks num D tensor) (file_names : list string) (a p : dict)
  (ds : list D) (s' : chem_model num) :
  file_names ≠ [] →
  load_all read_data h file_names (new_model a p) = (Ok ds, s') →
  ∃ lens,
    Forall2 (λ f n, ∃ data,
               loaded_records read_data (new_model a p) f = Ok data ∧
               first_feature_length data = Some n) file_names lens ∧
    is_max lens (annotation_size s').
Proof.
  intros Hne Hload.
  apply load_all_ok in Hload as (splits & lens & Hsplits & Hlens & _ & _ & Ha).
  exists lens. split.
  - apply Forall2_same_length_lookup. split.
    + erewrite Forall2_length by exact Hsplits. by eapply Forall2_length.
    + intros i f n Hf Hlen.
      destruct (Forall2_lookup_l _ _ _ _ _ Hsplits Hf) as (data & Hd & Hl & _).
      exists data. split; [done|].
      destruct (Forall2_lookup_l _ _ _ _ _ Hlens Hd) as (n' & Hn' & Hfl).
      congruence.
  - rewrite Ha. simpl. apply foldl_max_is_max.
    destruct lens as [|n lens].
    { apply Forall2_nil_inv_r in Hlens as ->.
      apply Forall2_nil_inv_r in Hsplits. done. }
    exists n. split; [left|].
    destruct splits as [|data splits]; [by apply Forall2_nil_inv_l in Hlens|].
    apply Forall2_cons in Hlens as [Hn _].
    unfold first_feature_length in Hn.
    destruct (data !! 0%nat) as [g0|]; [simpl in Hn|done].
    destruct (node_features g0 !! 0%nat) as [f0|]; [simpl in Hn|done].
    injection Hn as <-. lia.
Qed.

(** ** One pass over a split *)

Lemma batch_request_fetches (p : dict) (is_training : bool)
  (batch_data feed : dict) (fetch_list : list op) :
  batch_request p is_training batch_data = Ok (fetch_list, feed) →
  ∃ rest, fetch_list = Loss :: Accuracy :: rest.
Proof.
  unfold batch_request, dict_item. destruct is_training.
  - destruct (p !! "dropout_keep_prob"); simpl; [|discriminate].
    intros [= <- _]. eauto.
  - intros [= <- _]. eauto.
Qed.

Lemma py_index_0 {A} (x : A) (l : list A) : py_index (x :: l) 0 = Ok x.
Proof. reflexivity. Qed.

Lemma py_index_1 {A} (x y : A) (l : list A) : py_index (x :: y :: l) 1 = Ok y.
Proof.
  unfold py_index. cbn [length].
  change (1 <? 0) with false. cbv iota.
  replace (Z.of_nat (S (S (length l))) <=? 1) with false; [reflexivity|].
  symmetry. apply Z.leb_gt. lia.
Qed.

(** A running total that has had a product added is a numpy float, and
    dividing it by an integer does not raise. *)
Lemma total_div_total_add (t : total num) (x : num) (n : Z) :
  total_div (total_add t x) n =
  Ok (num_div match t with
              | TInt z => num_add (num_of_int z) x
              | TFloat y => num_add y x
              end (num_of_int n)).
Proof. by destruct t. Qed.

(** One iteration of the loop on minibatches. *)
Lemma run_batches_cons (rt : runtime num W) (p : dict) (is_training : bool)
  (b : dict) (batches : list dict) (g : Z) (r : list op * dict)
  (loss accuracy : total num) (n : Z) (w : world num W) :
  batch_num_graphs b = Ok g →
  batch_request p is_training b = Ok r →
  run_batches rt p is_training (b :: batches) loss accuracy n w =
  run_batches rt p is_training batches
    (total_add loss (num_mul (eval_loss rt (weights w) r.2) (num_of_int g)))
    (total_add accuracy
       (num_mul (eval_accuracy rt (weights w) r.2) (num_of_int g)))
    (n + g)
    {| weights := run_ops rt r.1 r.2 (weights w);
       clock := clock w;
       sess_calls := sess_calls w ++ [r];
       log_file := log_file w |}.
Proof.
  intros Hg Hr. destruct r as [fl feed].
  destruct (batch_request_fetches _ _ _ _ _ Hr) as [rest ->].
  unfold batch_num_graphs in Hg. cbn [run_batches].
  unfold bind at 1, lift at 1. rewrite Hg.
  unfold bind at 1, lift at 1. rewrite Hr.
  unfold bind at 1, sess_run at 1. cbn [fmap list_fmap fetch].
  unfold bind at 1, lift at 1. rewrite py_index_0. cbn [rbind fetched_mul].
  unfold bind at 1, lift at 1. rewrite py_index_1. cbn [rbind fetched_mul].
  unfold bind at 1, lift at 1. rewrite total_div_total_add.
  unfold bind at 1, lift at 1. rewrite total_div_total_add.
  reflexivity.
Qed.

Lemma run_batches_no_count (rt : runtime num W) (p : dict)
  (is_training : bool) (b : dict) (batches : list dict) (e : exn)
  (loss accuracy : total num) (n : Z) (w : world num W) :
  batch_num_graphs b = Raise e →
  run_batches rt p is_training (b :: batches) loss accuracy n w = (Raise e, w).
Proof.
  intros Hg. unfold batch_num_graphs in Hg. cbn [run_batches].
  unfold bind at 1, lift at 1. by rewrite Hg.
Qed.

Lemma run_batches_no_request (rt : runtime num W) (p : dict)
  (is_training : bool) (b : dict) (batches : list dict) (g : Z) (e : exn)
  (loss accuracy : total num) (n : Z) (w : world num W) :
  batch_num_graphs b = Ok g →
  batch_request p is_training b = Raise e →
  run_batches rt p is_training (b :: batches) loss accuracy n w = (Raise e, w).
Proof.
  intros Hg Hr. unfold batch_num_graphs in Hg. cbn [run_batches].
  unfold bind at 1, lift at 1. rewrite Hg.
  unfold bind at 1, lift at 1. by rewrite Hr.
Qed.

(** The loop on minibatches that all declare a graph count and get a
    request: the totals are left folds over the products, and every
    request is recorded and run in order. *)
Lemma run_batches_ok (rt : runtime num W) (p : dict) (is_training : bool)
  (batches : list dict) (gs : list Z) (reqs : list (list op * dict))
  (loss accuracy : total num) (n : Z) (w : world num W) :
  Forall2 (λ b g, batch_num_graphs b = Ok g) batches gs →
  Forall2 (λ b r, batch_request p is_training b = Ok r) batches reqs →
  run_batches rt p is_training batches loss accuracy n w =
  (Ok (foldl total_add loss
         (zip_with (λ x g, num_mul x (num_of_int g))
                   ((batch_values rt reqs (weights w)).*1) gs),
       foldl total_add accuracy
         (zip_with (λ x g, num_mul x (num_of_int g))
                   ((batch_values rt reqs (weights w)).*2) gs),
       n + sum_counts gs),
   {| weights := run_requests rt reqs (weights w);
      clock := clock w;
      sess_calls := sess_calls w ++ reqs;
      log_file := log_file w |}).
Proof.
  intros Hgs. revert reqs loss accuracy n w.
  induction Hgs as [|b g batches gs Hg _ IH];
    intros reqs loss accuracy n w Hreqs.
  - apply Forall2_nil_inv_l in Hreqs as ->. simpl.
    rewrite Z.add_0_r, app_nil_r. unfold ret. by destruct w.
  - apply Forall2_cons_inv_l in Hreqs as ([fl feed] & reqs' & Hr & Hreqs & ->).
    rewrite (run_batches_cons _ _ _ _ _ _ _ _ _ _ _ Hg Hr).
    rewrite (IH reqs') by exact Hreqs. simpl.
    rewrite <- app_assoc, Z.add_assoc. reflexivity.
Qed.

(** The loop whatever its outcome: it serves a prefix of the
    minibatches, all of them if it completes, and the world records one
    request per minibatch served. *)
Lemma run_batches_trace (rt : runtime num W) (p : dict) (is_training : bool)
  (batches : list dict) (loss accuracy : total num) (n : Z)
  (w : world num W) :
  ∃ served reqs,
    served `prefix_of` batches ∧
    Forall2 (λ b r, batch_request p is_training b = Ok r) served reqs ∧
    let r := run_batches rt p is_training batches loss accuracy n w in
    sess_calls r.2 = sess_calls w ++ reqs ∧
    weights r.2 = run_requests rt reqs (weights w) ∧
    clock r.2 = clock w ∧
    log_file r.2 = log_file w ∧
    match r.1 with Ok _ => served = batches | Raise _ => True end.
Proof.
  revert loss accuracy n w.
  induction batches as [|b batches IH]; intros loss accuracy n w.
  - exists [], []. simpl. rewrite app_nil_r. by repeat split; try constructor.
  - destruct (batch_num_graphs b) as [g|e] eqn:Hg.
    2:{ exists [], []. rewrite (run_batches_no_count _ _ _ _ _ _ _ _ _ _ Hg).
        simpl. rewrite app_nil_r.
        repeat split; [apply prefix_nil|constructor]. }
    destruct (batch_request p is_training b) as [r|e] eqn:Hr.
    2:{ exists [], []. rewrite (run_batches_no_request _ _ _ _ _ _ _ _ _ _ _ Hg Hr).
        simpl. rewrite app_nil_r.
        repeat split; [apply prefix_nil|constructor]. }
    rewrite (run_batches_cons _ _ _ _ _ _ _ _ _ _ _ Hg Hr).
    match goal with
    | |- context [run_batches rt p is_training batches ?l ?a ?m ?w1] =>
        destruct (IH l a m w1)
          as (served & reqs & Hp & Hf & Hc & Hw & Hk & Hl & Ho)
    end.
    exists (b :: served), (r :: reqs). cbv zeta.
    split; [by apply prefix_cons|]. split; [by constructor|].
    rewrite Hc, Hw, Hk, Hl. simpl. rewrite <- app_assoc.
    repeat split. revert Ho.
    destruct (run_batches _ _ _ _ _ _ _ _).1; [by intros ->|done].
Qed.

Lemma total_div_nonzero (t : total num) (n : Z) :
  n ≠ 0 →
  ∃ x, total_div t n = Ok x.
Proof.
  intros Hn. destruct t as [z|x]; simpl; [|eauto].
  destruct (Z.eqb_spec n 0); [done|eauto].
Qed.

(** C2: for minibatches with graph counts [gs] whose total is not
    zero, [run_epoch] returns as loss the left-to-right sum of the
    per-batch losses times their graph counts divided by the total
    graph count, and as accuracy the same mean of the per-batch
    accuracies; the per-batch values are those the runtime reports for
    the requests of the pass, in order.  The pass returns provided the
    task has a reference constant and the clock has advanced. *)
Theorem run_epoch_weighted_mean (rt : runtime num W) (h : hooks num D tensor)
  (p : dict) (epoch_name : string) (data : D) (is_training : bool)
  (w : world num W) (batches : list dict) (gs : list Z)
  (reqs : list (list op * dict)) (task_id : Z) (reference : num) :
  make_minibatch_iterator h data is_training = Ok batches →
  Forall2 (λ b g, batch_num_graphs b = Ok g) batches gs →
  Forall2 (λ b r, batch_request p is_training b = Ok r) batches reqs →
  rbind (dict_item p "task_id") as_int = Ok task_id →
  py_index chemical_accuracy task_id = Ok reference →
  num_is_zero (num_sub (now rt (S (clock w))) (now rt (clock w))) = false →
  sum_counts gs ≠ 0 →
  ∃ loss accuracy error_ratio instance_per_sec w',
    run_epoch rt h p epoch_name data is_training w =
      (Ok (loss, accuracy, error_ratio, instance_per_sec), w') ∧
    weighted_mean ((batch_values rt reqs (weights w)).*1) gs = Ok loss ∧
    weighted_mean ((batch_values rt reqs (weights w)).*2) gs = Ok accuracy.
Proof.
  intros Hit Hgs Hreqs Htask Href Hclock Hsum.
  unfold weighted_mean, py_sum.
  destruct (total_div_nonzero
              (foldl total_add (TInt 0)
                 (zip_with (λ x g, num_mul x (num_of_int g))
                    ((batch_values rt reqs (weights w)).*1) gs))
              (sum_counts gs) Hsum) as [loss Hloss].
  destruct (total_div_nonzero
              (foldl total_add (TInt 0)
                 (zip_with (λ x g, num_mul x (num_of_int g))
                    ((batch_values rt reqs (weights w)).*2) gs))
              (sum_counts gs) Hsum) as [acc Hacc].
  exists loss, acc. do 3 eexists. split; [|by split].
  unfold run_epoch.
  unfold bind at 1, time_time at 1.
  unfold bind at 1, lift at 1. rewrite Hit.
  unfold bind at 1.
  rewrite (run_batches_ok rt p is_training batches gs reqs) by done.
  cbn [weights clock sess_calls log_file]. rewrite Z.add_0_l.
  unfold bind at 1, lift at 1. rewrite Hacc.
  unfold bind at 1, lift at 1. rewrite Hloss.
  unfold bind at 1, lift at 1. rewrite Htask.
  unfold bind at 1, lift at 1. rewrite Href.
  unfold bind at 1, time_time at 1. cbn [weights clock sess_calls log_file].
  unfold bind at 1, lift at 1, int_div_float. rewrite Hclock.
  unfold ret. reflexivity.
Qed.

(** ** What a pass asks of the runtime *)

Lemma bind_fst {St A B} (m : M St A) (k : A → M St B) (s : St) :
  (bind m k s).1 =
  match (m s).1 with Ok a => (k a (m s).2).1 | Raise e => Raise e end.
Proof. unfold bind. by destruct (m s) as [[a|e] s']. Qed.

Lemma bind_snd {St A B} (m : M St A) (k : A → M St B) (s : St) :
  (bind m k s).2 =
  match (m s).1 with Ok a => (k a (m s).2).2 | Raise _ => (m s).2 end.
Proof. unfold bind. by destruct (m s) as [[a|e] s']. Qed.

Lemma quiet_ret {A} (a : A) : quiet (W:=W) (num:=num) (ret a).
Proof. by intros w. Qed.

Lemma quiet_lift {A} (r : result A) : quiet (W:=W) (num:=num) (lift r).
Proof. by intros w. Qed.

Lemma quiet_time_time (rt : runtime num W) : quiet (time_time rt).
Proof. by intros w. Qed.

Lemma quiet_bind {A B} (m : M (world num W) A) (k : A → M (world num W) B) :
  quiet m → (∀ a, quiet (k a)) → quiet (bind m k).
Proof.
  intros Hm Hk w. rewrite bind_snd.
  destruct (Hm w) as (Hw & Hc & Hl).
  destruct (m w).1 as [a|e]; [|done].
  destruct (Hk a (m w).2) as (Hw' & Hc' & Hl'). repeat split; congruence.
Qed.

Lemma run_requests_validation (rt : runtime num W) (served : list dict)
  (vars : W) :
  run_requests rt (validation_request <$> served) vars = vars.
Proof.
  unfold run_requests. revert vars.
  induction served as [|b served IH]; intros vars; simpl; [done|apply IH].
Qed.

Lemma validation_requests (p : dict) (served : list dict)
  (reqs : list (list op * dict)) :
  Forall2 (λ b r, batch_request p false b = Ok r) served reqs →
  reqs = validation_request <$> served.
Proof.
  induction 1 as [|b r served reqs Hr _ IH]; simpl; [done|].
  injection Hr as <-. by rewrite IH.
Qed.

Lemma training_requests (p : dict) (served : list dict)
  (reqs : list (list op * dict)) :
  Forall2 (λ b r, batch_request p true b = Ok r) served reqs →
  match p !! "dropout_keep_prob" with
  | Some keep => reqs = training_request keep <$> served
  | None => served = [] ∧ reqs = []
  end.
Proof.
  unfold batch_request, dict_item.
  destruct (p !! "dropout_keep_prob") as [keep|]; simpl.
  - induction 1 as [|b r served reqs Hr _ IH]; simpl; [done|].
    injection Hr as <-. by rewrite IH.
  - destruct 1; [done|discriminate].
Qed.

(** A pass whatever its outcome: the requests it makes are those of a
    prefix of the minibatches, of all of them if it returns. *)
Lemma run_epoch_trace (rt : runtime num W) (h : hooks num D tensor)
  (p : dict) (epoch_name : string) (data : D) (is_training : bool)
  (w : world num W) :
  ∃ served reqs,
    match make_minibatch_iterator h data is_training with
    | Ok batches => served `prefix_of` batches
    | Raise _ => served = []
    end ∧
    Forall2 (λ b r, batch_request p is_training b = Ok r) served reqs ∧
    let r := run_epoch rt h p epoch_name data is_training w in
    sess_calls r.2 = sess_calls w ++ reqs ∧
    weights r.2 = run_requests rt reqs (weights w) ∧
    log_file r.2 = log_file w ∧
    match r.1 with
    | Ok _ => make_minibatch_iterator h data is_training = Ok served
    | Raise _ => True
    end.
Proof.
  unfold run_epoch. cbv zeta.
  rewrite (bind_fst (time_time rt)), (bind_snd (time_time rt)).
  cbn [time_time fst snd].
  set (w1 := {| weights := weights w; clock := S (clock w);
                sess_calls := sess_calls w; log_file := log_file w |}).
  rewrite (bind_fst (lift _)), (bind_snd (lift _)). cbn [lift fst snd].
  destruct (make_minibatch_iterator h data is_training) as [batches|e].
  2:{ exists [], []. simpl. rewrite app_nil_r. repeat split. constructor. }
  destruct (run_batches_trace rt p is_training batches (TInt 0) (TInt 0) 0 w1)
    as (served & reqs & Hp & Hf & Hc & Hw & _ & Hl & Ho).
  exists served, reqs. split; [done|]. split; [done|].
  rewrite (bind_fst (run_batches _ _ _ _ _ _ _)),
          (bind_snd (run_batches _ _ _ _ _ _ _)).
  destruct (run_batches rt p is_training batches (TInt 0) (TInt 0) 0 w1)
    as [[[[l a] n]|e] w2]; cbn [fst snd] in *; [|done].
  subst served.
  match goal with
  | |- context [sess_calls (?m w2).2] => set (tail := m)
  end.
  assert (quiet tail) as Hq.
  { repeat (apply quiet_bind; [try apply quiet_lift; try apply quiet_time_time|];
            intros ?).
    apply quiet_ret. }
  destruct (Hq w2) as (Hw' & Hc' & Hl'). unfold epoch_result in *.
  rewrite Hw', Hc', Hl'. repeat split; try done.
  by destruct (tail w2).1.
Qed.

(** C7: a validation pass hands every minibatch it serves to the
    runtime with the dropout-keep probability set to 1.0 and asks for
    loss and accuracy only, and it leaves the trainable variables as
    they were; a training pass uses the configured probability and asks
    for the train step as well.  The minibatches served are those of
    the model's iterator, all of them when the pass returns. *)
Theorem run_epoch_requests (rt : runtime num W) (h : hooks num D tensor)
  (p : dict) (epoch_name : string) (data : D) (w : world num W) :
  (∃ served,
     match make_minibatch_iterator h data false with
     | Ok batches => served `prefix_of` batches
     | Raise _ => served = []
     end ∧
     let r := run_epoch rt h p epoch_name data false w in
     sess_calls r.2 = sess_calls w ++ (validation_request <$> served) ∧
     weights r.2 = weights w ∧
     match r.1 with
     | Ok _ => make_minibatch_iterator h data false = Ok served
     | Raise _ => True
     end) ∧
  (∃ served,
     match make_minibatch_iterator h data true with
     | Ok batches => served `prefix_of` batches
     | Raise _ => served = []
     end ∧
     let r := run_epoch rt h p epoch_name data true w in
     match p !! "dropout_keep_prob" with
     | Some keep =>
         sess_calls r.2 = sess_calls w ++ (training_request keep <$> served) ∧
         weights r.2 =
           run_requests rt (training_request keep <$> served) (weights w)
     | None =>
         served = [] ∧ sess_calls r.2 = sess_calls w ∧ weights r.2 = weights w
     end ∧
     match r.1 with
     | Ok _ => make_minibatch_iterator h data true = Ok served
     | Raise _ => True
     end).
Proof.
  split.
  - destruct (run_epoch_trace rt h p epoch_name data false w)
      as (served & reqs & Hp & Hf & Hc & Hw & _ & Ho).
    apply validation_requests in Hf as ->.
    rewrite run_requests_validation in Hw. by exists served.
  - destruct (run_epoch_trace rt h p epoch_name data true w)
      as (served & reqs & Hp & Hf & Hc & Hw & _ & Ho).
    apply training_requests in Hf. exists served. split; [done|].
    cbv zeta. destruct (p !! "dropout_keep_prob") as [keep|].
    + subst reqs. by repeat split.
    + destruct Hf as [-> ->]. rewrite app_nil_r in Hc. by repeat split.
Qed.

(** ** The training loop *)

Lemma run_epoch_log_file (rt : runtime num W) (h : hooks num D tensor)
  (p : dict) (epoch_name : string) (data : D) (is_training : bool)
  (w w' : world num W) (r : result epoch_result) :
  run_epoch rt h p epoch_name data is_training w = (r, w') →
  log_file w' = log_file w.
Proof.
  intros Hrun.
  destruct (run_epoch_trace rt h p epoch_name data is_training w)
    as (_ & _ & _ & _ & _ & _ & Hl & _).
  by rewrite Hrun in Hl.
Qed.

(** One iteration of the epoch loop, whatever its outcome: it raises
    before the log is touched, or it appends an entry for the epoch,
    writes the log, and then applies the early-stopping rule. *)
Lemma train_loop_cons_inv (rt : runtime num W) (h : hooks num D tensor)
  (p : dict) (train_data valid_data : D) (start : num) (current_epoch : Z)
  (epochs : list Z) (log : list (log_entry num)) (best : num)
  (best_epoch : Z) (w w' : world num W) (r : result (train_end num)) :
  train_loop rt h p train_data valid_data start (current_epoch :: epochs)
             log best best_epoch w = (r, w') →
  (log_file w' = log_file w ∧ ∃ e, r = Raise e) ∨
  ∃ entry w3,
    epoch entry = current_epoch ∧
    error_rate_consistent entry ∧
    log_file w3 = Some (log ++ [entry]) ∧
    let val_acc := result_accuracy (valid_results entry) in
    if num_ltb val_acc best then
      train_loop rt h p train_data valid_data start epochs
                 (log ++ [entry]) val_acc current_epoch w3 = (r, w')
    else
      match out_of_patience p current_epoch best_epoch with
      | Raise e => r = Raise e ∧ w' = w3
      | Ok true =>
          r = Ok {| log_to_save := log ++ [entry]; best_val_acc := best;
                    best_val_acc_epoch := best_epoch; stopped := true |} ∧
          w' = w3
      | Ok false =>
          train_loop rt h p train_data valid_data start epochs
                     (log ++ [entry]) best best_epoch w3 = (r, w')
      end.
Proof.
  cbn [train_loop]. unfold bind at 1.
  destruct (run_epoch rt h p _ train_data true w) as [[tr|e] w1] eqn:E1.
  2:{ intros [= <- <-]. left. apply run_epoch_log_file in E1. eauto. }
  unfold bind at 1.
  destruct (run_epoch rt h p _ valid_data false w1) as [[vr|e] w2] eqn:E2.
  2:{ intros [= <- <-]. left. apply run_epoch_log_file in E1, E2.
      split; [congruence|eauto]. }
  unfold bind at 1, time_time at 1.
  unfold bind at 1, write_log at 1, modify at 1.
  cbn [weights clock sess_calls log_file].
  intros Hrest. right.
  set (entry := {| epoch := current_epoch;
                   time := num_sub (now rt (clock w2)) start;
                   train_results := tr;
                   valid_results := vr;
                   valid_error_rate := result_error_ratio vr |}) in *.
  exists entry, {| weights := weights w2; clock := S (clock w2);
                   sess_calls := sess_calls w2;
                   log_file := Some (log ++ [entry]) |}.
  split; [reflexivity|]. split; [reflexivity|]. split; [reflexivity|].
  cbv zeta. change (valid_results entry) with vr.
  destruct (num_ltb (result_accuracy vr) best); [exact Hrest|].
  revert Hrest. unfold bind at 1, lift at 1, out_of_patience.
  destruct (rbind (dict_item p "patience") _) as [[|]|e].
  - unfold ret. by intros [= <- <-].
  - done.
  - by intros [= <- <-].
Qed.

Lemma out_of_patience_int (p : dict) (patience current_epoch best_epoch : Z) :
  p !! "patience" = Some (PInt patience) →
  out_of_patience p current_epoch best_epoch =
  Ok (patience <? current_epoch - best_epoch).
Proof. intros Hp. unfold out_of_patience, dict_item. by rewrite Hp. Qed.

(** The epoch loop whatever its outcome: the log file is untouched or
    holds consistent entries, and so does the log the loop returns. *)
Lemma train_loop_log (rt : runtime num W) (h : hooks num D tensor)
  (p : dict) (train_data valid_data : D) (start : num) (epochs : list Z)
  (log : list (log_entry num)) (best : num) (best_epoch : Z)
  (w w' : world num W) (r : result (train_end num)) :
  Forall error_rate_consistent log →
  train_loop rt h p train_data valid_data start epochs log best best_epoch w
    = (r, w') →
  (log_file w' = log_file w ∨
   ∃ l, log_file w' = Some l ∧ Forall error_rate_consistent l) ∧
  match r with
  | Ok e => Forall error_rate_consistent (log_to_save e)
  | Raise _ => True
  end.
Proof.
  revert log best best_epoch w.
  induction epochs as [|current_epoch epochs IH];
    intros log best best_epoch w Hlog Hrun.
  - injection Hrun as <- <-. split; [by left|done].
  - apply train_loop_cons_inv in Hrun
      as [[Hl [e ->]]|(entry & w3 & _ & Hentry & Hl & Hrest)];
      [split; [by left|done]|].
    assert (Forall error_rate_consistent (log ++ [entry])) as Hlog'.
    { apply Forall_app. split; [done|by constructor]. }
    assert (∀ w'' : world num W, (log_file w'' = log_file w3 ∨
                    ∃ l, log_file w'' = Some l ∧ Forall error_rate_consistent l) →
                   log_file w'' = log_file w ∨
                   ∃ l, log_file w'' = Some l ∧ Forall error_rate_consistent l)
      as Hweaken.
    { intros w'' [Heq|Hex]; [|by right]. right. rewrite Heq, Hl. eauto. }
    cbv zeta in Hrest.
    destruct (num_ltb _ best).
    { apply IH in Hrest as [Hf Hr]; [|done]. split; [by apply Hweaken|done]. }
    destruct (out_of_patience p current_epoch best_epoch) as [[|]|e].
    + destruct Hrest as [-> ->]. split; [apply Hweaken; by left|done].
    + apply IH in Hrest as [Hf Hr]; [|done]. split; [by apply Hweaken|done].
    + destruct Hrest as [-> ->]. split; [apply Hweaken; by left|done].
Qed.

(** C10: every entry of the run log that [train] writes, and every
    entry of the log it holds when it returns, carries as
    [valid_error_rate] the third component of its own [valid_results];
    a log file that [train] did not get to write is left as it was. *)
Theorem train_log_error_rate (rt : runtime num W) (h : hooks num D tensor)
  (p : dict) (train_data valid_data : D) (w : world num W) :
  let r := train rt h p train_data valid_data w in
  (log_file r.2 = log_file w ∨
   ∃ l, log_file r.2 = Some l ∧ Forall error_rate_consistent l) ∧
  match r.1 with
  | Ok e => Forall error_rate_consistent (log_to_save e)
  | Raise _ => True
  end.
Proof.
  cbv zeta. destruct (train rt h p train_data valid_data w) as [r w'] eqn:Hrun.
  revert Hrun. unfold train.
  unfold bind at 1, sess_run at 1.
  unfold bind at 1, time_time at 1. cbn [weights clock sess_calls log_file].
  unfold bind at 1, lift at 1.
  destruct (rbind (dict_item p "num_epochs") as_int) as [n|e].
  - intros Hrun. apply train_loop_log in Hrun; [done|constructor].
  - intros [= <- <-]. split; [by left|done].
Qed.

(** The epoch loop when it returns: the entries it appended are those
    of a prefix of the epochs, of all of them unless it stopped early,
    and its result is what the early-stopping rule yields on the
    validation accuracies the entries record. *)
Lemma train_loop_ok (rt : runtime num W) (h : hooks num D tensor)
  (p : dict) (train_data valid_data : D) (start : num) (epochs : list Z)
  (log : list (log_entry num)) (best : num) (best_epoch : Z)
  (w w' : world num W) (e : train_end num) :
  train_loop rt h p train_data valid_data start epochs log best best_epoch w
    = (Ok e, w') →
  ∃ new,
    log_to_save e = log ++ new ∧
    epoch <$> new = take (length new) epochs ∧
    (stopped e = false → length new = length epochs) ∧
    (stopped e = true → new ≠ []) ∧
    ∀ patience,
      p !! "patience" = Some (PInt patience) →
      early_stopping patience best best_epoch (entry_validation <$> new) =
      (best_val_acc e, best_val_acc_epoch e,
       if stopped e then last (epoch <$> new) else None).
Proof.
  revert log best best_epoch w.
  induction epochs as [|current_epoch epochs IH];
    intros log best best_epoch w Hrun.
  - injection Hrun as <- <-. exists []. simpl. rewrite app_nil_r.
    by repeat split.
  - apply train_loop_cons_inv in Hrun
      as [[_ [e' [=]]]|(entry & w3 & Hep & _ & _ & Hrest)].
    cbv zeta in Hrest.
    assert (∀ best' best_epoch',
              train_loop rt h p train_data valid_data start epochs
                (log ++ [entry]) best' best_epoch' w3 = (Ok e, w') →
              ∃ new, log_to_save e = log ++ entry :: new ∧
                epoch <$> entry :: new =
                  take (length (entry :: new)) (current_epoch :: epochs) ∧
                (stopped e = false →
                 length (entry :: new) = length (current_epoch :: epochs)) ∧
                ∀ patience,
                  p !! "patience" = Some (PInt patience) →
                  early_stopping patience best' best_epoch'
                    (entry_validation <$> new) =
                  (best_val_acc e, best_val_acc_epoch e,
                   if stopped e then last (epoch <$> entry :: new) else None))
      as Hnext.
    { intros best' best_epoch' Hrun.
      apply IH in Hrun as (new & Hlog & Heps & Hlen & Hne & Hes).
      exists new. rewrite Hlog, <- app_assoc, fmap_cons, Hep.
      cbn [length take app]. rewrite <- Heps.
      repeat split; [auto|].
      intros patience Hp. rewrite (Hes patience Hp).
      destruct (stopped e); [|done].
      destruct new as [|x new]; [by destruct Hne|done]. }
    unfold entry_validation at 1 in Hnext.
    destruct (num_ltb (result_accuracy (valid_results entry)) best) eqn:Hlt.
    { destruct (Hnext _ _ Hrest) as (new & Hlog & Heps & Hlen & Hes).
      exists (entry :: new). repeat split; try done.
      intros patience Hp. rewrite fmap_cons. unfold entry_validation at 1.
      cbn [early_stopping]. rewrite Hep, Hlt. by apply Hes. }
    destruct (out_of_patience p current_epoch best_epoch) as [[|]|e'] eqn:Hout.
    + destruct Hrest as [[= ->] _]. exists [entry].
      split; [reflexivity|]. split; [simpl; by rewrite Hep|].
      split; [done|]. split; [done|].
      intros patience Hp. simpl. rewrite !Hep, Hlt.
      rewrite (out_of_patience_int _ _ _ _ Hp) in Hout. injection Hout as ->.
      done.
    + destruct (Hnext _ _ Hrest) as (new & Hlog & Heps & Hlen & Hes).
      exists (entry :: new). repeat split; try done.
      intros patience Hp. rewrite fmap_cons. unfold entry_validation at 1.
      cbn [early_stopping]. rewrite Hep, Hlt.
      rewrite (out_of_patience_int _ _ _ _ Hp) in Hout. injection Hout as ->.
      by apply Hes.
    + by destruct Hrest as [[=] _].
Qed.

Lemma train_ok (rt : runtime num W) (h : hooks num D tensor)
  (p : dict) (train_data valid_data : D) (w w' : world num W)
  (e : train_end num) :
  train rt h p train_data valid_data w = (Ok e, w') →
  ∃ n start w1,
    rbind (dict_item p "num_epochs") as_int = Ok n ∧
    train_loop rt h p train_data valid_data start (range1 n) [] num_inf 0 w1
      = (Ok e, w').
Proof.
  unfold train.
  unfold bind at 1, sess_run at 1.
  unfold bind at 1, time_time at 1. cbn [weights clock sess_calls log_file].
  unfold bind at 1, lift at 1.
  destruct (rbind (dict_item p "num_epochs") as_int) as [n|e']; [|done].
  intros Hrun. eauto.
Qed.

(** C1: when [train] returns, its best validation accuracy, the epoch
    of that best and whether and where it stopped are what the rule
    "strictly lower than the best so far: record it; otherwise stop if
    current_epoch - best_epoch > patience; otherwise continue" yields,
    from a best of +inf at epoch 0, on the validation accuracies of the
    epochs it ran, which are numbered from 1. *)
Theorem train_early_stopping (rt : runtime num W) (h : hooks num D tensor)
  (p : dict) (train_data valid_data : D) (w w' : world num W)
  (e : train_end num) (patience : Z) :
  p !! "patience" = Some (PInt patience) →
  train rt h p train_data valid_data w = (Ok e, w') →
  epoch <$> log_to_save e = seqZ 1 (Z.of_nat (length (log_to_save e))) ∧
  early_stopping patience num_inf 0 (entry_validation <$> log_to_save e) =
  (best_val_acc e, best_val_acc_epoch e,
   if stopped e then last (epoch <$> log_to_save e) else None).
Proof.
  intros Hp Hrun.
  apply train_ok in Hrun as (n & start & w1 & Hn & Hrun).
  apply train_loop_ok in Hrun as (new & Hlog & Heps & _ & _ & Hes).
  simpl in Hlog. rewrite Hlog. split; [|by apply Hes].
  rewrite Heps. unfold range1.
  assert (length new ≤ length (seqZ 1 (n - 1)))%nat as Hle.
  { pose proof (f_equal length Heps) as Hlen.
    rewrite length_fmap, length_take in Hlen. unfold range1 in Hlen. lia. }
  rewrite length_seqZ in Hle.
  apply list_eq. intros i. rewrite lookup_take.
  destruct (decide (i < length new)%nat) as [Hi|Hi].
  - rewrite !lookup_seqZ_lt by lia. done.
  - rewrite lookup_seqZ_ge by lia. done.
Qed.

(** C5, as the code has it: when early stopping does not trigger and
    [train] returns, the epochs run are 1 to [num_epochs - 1], so
    [num_epochs - 1] of them when [num_epochs] is at least 1 and none
    otherwise. *)
Theorem train_runs_budget (rt : runtime num W) (h : hooks num D tensor)
  (p : dict) (train_data valid_data : D) (w w' : world num W)
  (e : train_end num) (num_epochs : Z) :
  p !! "num_epochs" = Some (PInt num_epochs) →
  train rt h p train_data valid_data w = (Ok e, w') →
  stopped e = false →
  epoch <$> log_to_save e = seqZ 1 (num_epochs - 1) ∧
  Z.of_nat (length (log_to_save e)) = Z.max 0 (num_epochs - 1).
Proof.
  intros Hp Hrun Hstop.
  apply train_ok in Hrun as (n & start & w1 & Hn & Hrun).
  unfold dict_item in Hn. rewrite Hp in Hn. injection Hn as <-.
  apply train_loop_ok in Hrun as (new & Hlog & Heps & Hlen & _).
  specialize (Hlen Hstop). simpl in Hlog. rewrite Hlog.
  rewrite Heps, Hlen, firstn_all. unfold range1. split; [done|].
  rewrite length_seqZ. lia.
Qed.

End ChemModelTheory.

(** ** The order of delivery *)

Section StreamerTheory.
Import ThreadedIterator.
Context {A : Type}.

Lemma in_flight_app (q q' : list (option A)) :
  omap id (q ++ q') = omap id q ++ omap id q'.
Proof.
  induction q as [|[x|] q IH]; simpl; [done| |apply IH]. f_equal. apply IH.
Qed.

Lemma streams_start (items : list A) : streams items (start items).
Proof. split; [done|]. simpl. split; [done|]. by exists []. Qed.

Lemma streams_step (items : list A) (cap : nat) (t : thread) (s : state A) :
  streams items s → streams items (step cap t s).
Proof.
  destruct s as [src q cl del fin]. unfold streams, in_flight. simpl.
  intros [Hitems Hshape]. destruct t; simpl.
  - destruct cl; [done|]. destruct Hshape as [-> [xs ->]].
    destruct (length (Some <$> xs) <? cap)%nat;
      [|split; [done|]; split; [done|]; by exists xs].
    destruct src as [|x src]; simpl.
    + rewrite in_flight_app. simpl. rewrite !app_nil_r in *.
      split; [done|]. split; [done|]. by exists xs.
    + rewrite in_flight_app. simpl. split.
      * rewrite <- Hitems, <- !app_assoc. done.
      * split; [done|]. exists (xs ++ [x]). by rewrite fmap_app.
  - destruct fin; [done|]. destruct q as [|[x|] q]; [done| |]; simpl.
    + split; [by rewrite <- Hitems, <- !app_assoc|].
      destruct cl.
      * destruct Hshape as [-> [xs Hq]]. split; [done|].
        destruct xs as [|y xs]; [done|]. injection Hq as _ ->. by exists xs.
      * destruct Hshape as [_ [xs Hq]]. split; [done|].
        destruct xs as [|y xs]; [done|]. injection Hq as _ ->. by exists xs.
    + destruct cl.
      * destruct Hshape as [-> [xs Hq]].
        destruct xs as [|y xs]; [|done]. injection Hq as ->.
        simpl in Hitems. by rewrite !app_nil_r in *.
      * destruct Hshape as [_ [xs Hq]]. by destruct xs.
Qed.

Lemma streams_run (items : list A) (cap : nat) (schedule : list thread)
  (s : state A) :
  streams items s → streams items (run cap schedule s).
Proof.
  unfold run. revert s.
  induction schedule as [|t schedule IH]; intros s Hs; simpl; [done|].
  apply IH. by apply streams_step.
Qed.

Lemma queue_bounded_step (cap : nat) (t : thread) (s : state A) :
  (length (queue s) ≤ cap)%nat → (length (queue (step cap t s)) ≤ cap)%nat.
Proof.
  destruct s as [src q cl del fin]. simpl. intros Hq. destruct t; simpl.
  - destruct cl; [done|].
    destruct (Nat.ltb_spec (length q) cap); [|done].
    destruct src; simpl; rewrite length_app; simpl; lia.
  - destruct fin; [done|]. destruct q as [|[x|] q]; simpl in *; lia.
Qed.

Lemma queue_bounded_run (cap : nat) (schedule : list thread) (s : state A) :
  (length (queue s) ≤ cap)%nat →
  (length (queue (run cap schedule s)) ≤ cap)%nat.
Proof.
  unfold run. revert s.
  induction schedule as [|t schedule IH]; intros s Hs; simpl; [done|].
  apply IH. by apply queue_bounded_step.
Qed.

(** C9: under every schedule of the worker and the consumer, with the
    queue of capacity 3 between them, what the consumer has received is
    an initial segment of what the model's iterator yields, in the same
    order; once the consumer has taken the end-of-stream sentinel it
    has received all of it; the queue never holds more than 3 entries;
    and until then one of the two threads can always move. *)
Theorem delivery_in_order (items : list A) (schedule : list thread) :
  let s := run max_queue_size schedule (start items) in
  delivered s `prefix_of` items ∧
  (finished s = true → delivered s = items) ∧
  (length (queue s) ≤ max_queue_size)%nat ∧
  (finished s = false →
   step max_queue_size Producer s ≠ s ∨ step max_queue_size Consumer s ≠ s).
Proof.
  cbv zeta.
  pose proof (streams_run items max_queue_size schedule _ (streams_start items))
    as [Hitems Hshape].
  pose proof (queue_bounded_run max_queue_size schedule (start items))
    as Hbound.
  destruct (run max_queue_size schedule (start items))
    as [src q cl del fin]. unfold in_flight in *. simpl in *.
  split; [by eexists|]. split; [|split; [apply Hbound; lia|]].
  - intros ->. destruct cl.
    + destruct Hshape as [-> ->]. simpl in Hitems. by rewrite !app_nil_r in *.
    + by destruct Hshape.
  - intros ->. destruct q as [|entry q].
    + left. destruct cl.
      * destruct Hshape as [_ [xs Hq]]. by destruct xs.
      * unfold step, max_queue_size. simpl.
        destruct src; intros Heq; by inversion Heq.
    + right. unfold step. simpl. destruct entry; intros Heq; inversion Heq as [Hq].
      apply (f_equal length) in Hq. simpl in Hq. lia.
Qed.

Lemma round_robin_from (items done_so_far : list A) :
  run max_queue_size (round_robin (S (length items)))
    {| source := items; queue := []; closed := false;
       delivered := done_so_far; finished := false |} =
  {| source := []; queue := []; closed := true;
     delivered := done_so_far ++ items; finished := true |}.
Proof.
  revert done_so_far.
  induction items as [|x items IH]; intros done_so_far.
  - cbn. by rewrite app_nil_r.
  - change (round_robin (S (length (x :: items))))
      with (Producer :: Consumer :: round_robin (S (length items))).
    unfold run in *. cbn [foldl]. unfold step at 2 3. cbn -[round_robin].
    rewrite IH, <- app_assoc. reflexivity.
Qed.

(** The streamer does finish: under the alternating schedule, one
    round per item and one for the sentinel deliver everything. *)
Lemma round_robin_delivers_all (items : list A) :
  run max_queue_size (round_robin (S (length items))) (start items) =
  {| source := []; queue := []; closed := true;
     delivered := items; finished := true |}.
Proof. apply (round_robin_from items []). Qed.

End StreamerTheory.

(** * Properties of the rest of the class *)

(** ** Splitting and joining *)

Lemma split_on_cons (sep : ascii) (s : string) :
  ∃ piece pieces, split_on sep s = piece :: pieces.
Proof.
  induction s as [|c s (piece & pieces & IH)]; simpl; [by eauto|].
  destruct (Ascii.eqb c sep); [by eauto|]. rewrite IH. eauto.
Qed.

Lemma join_with_cons (sep : ascii) (piece piece' : string)
  (pieces : list string) :
  join_with sep (piece :: piece' :: pieces) =
  piece +:+ String sep (join_with sep (piece' :: pieces)).
Proof. reflexivity. Qed.

Lemma join_split (sep : ascii) (s : string) :
  join_with sep (split_on sep s) = s.
Proof.
  induction s as [|c s IH]; [done|]. cbn [split_on].
  destruct (split_on_cons sep s) as (piece & pieces & Hs).
  rewrite Hs in *. destruct (Ascii.eqb_spec c sep) as [->|Hc].
  - rewrite join_with_cons, IH. reflexivity.
  - destruct pieces as [|piece' pieces].
    + simpl in *. by rewrite IH.
    + rewrite join_with_cons in IH. rewrite join_with_cons.
      change (String c (piece +:+ String sep (join_with sep (piece' :: pieces)))
              = String c s).
      by rewrite IH.
Qed.

Lemma split_on_no_sep (sep : ascii) (s : string) :
  occurs sep s = false → split_on sep s = [s].
Proof.
  induction s as [|c s IH]; [done|]. simpl.
  intros [Hc Hs]%orb_false_elim. rewrite Hc, IH by done. done.
Qed.

Lemma split_on_app (sep : ascii) (piece rest : string) :
  occurs sep piece = false →
  split_on sep (piece +:+ String sep rest) = piece :: split_on sep rest.
Proof.
  induction piece as [|c piece IH]; simpl.
  - intros _. by rewrite Ascii.eqb_refl.
  - intros [Hc Hs]%orb_false_elim. rewrite Hc, IH by done. done.
Qed.

Lemma split_join (sep : ascii) (pieces : list string) :
  pieces ≠ [] →
  Forall (λ piece, occurs sep piece = false) pieces →
  split_on sep (join_with sep pieces) = pieces.
Proof.
  induction pieces as [|piece pieces IH]; [done|]. intros _ Hall.
  apply Forall_cons in Hall as [Hpiece Hall].
  destruct pieces as [|piece' pieces].
  - simpl. by apply split_on_no_sep.
  - rewrite join_with_cons, split_on_app by done. by rewrite IH.
Qed.

Lemma split_on_length (sep : ascii) (s : string) :
  length (split_on sep s) = S (occurrences sep s).
Proof.
  induction s as [|c s IH]; [done|]. simpl.
  destruct (Ascii.eqb c sep); simpl; [by rewrite IH|].
  destruct (split_on_cons sep s) as (piece & pieces & Hs).
  rewrite Hs in *. simpl in *. done.
Qed.

Lemma occurs_app (c : ascii) (s t : string) :
  occurs c (s +:+ t) = occurs c s || occurs c t.
Proof.
  induction s as [|c' s IH]; [done|]. simpl. by rewrite IH, orb_assoc.
Qed.

Lemma occurs_join (c sep : ascii) (pieces : list string) :
  c ≠ sep →
  Forall (λ piece, occurs c piece = false) pieces →
  occurs c (join_with sep pieces) = false.
Proof.
  intros Hc. induction pieces as [|piece pieces IH]; [done|]. intros Hall.
  apply Forall_cons in Hall as [Hpiece Hall].
  destruct pieces as [|piece' pieces]; [done|].
  rewrite join_with_cons, occurs_app, Hpiece. cbn [occurs orb].
  rewrite IH by done. destruct (Ascii.eqb_spec sep c); [congruence|done].
Qed.

Lemma rmap_ok {A B} (f : A → result B) (l : list A) (l' : list B) :
  rmap f l = Ok l' ↔ Forall2 (λ x y, f x = Ok y) l l'.
Proof.
  revert l'. induction l as [|x l IH]; intros l'; simpl.
  - split; [by intros [= <-]; constructor|].
    intros ->%Forall2_nil_inv_l. done.
  - destruct (f x) as [y|e] eqn:Hx; simpl.
    + destruct (rmap f l) as [ys|e]; simpl.
      * split.
        -- intros [= <-]. constructor; [done|]. by apply IH.
        -- intros (y' & ys' & Hy & Hys & ->)%Forall2_cons_inv_l.
           apply IH in Hys. congruence.
      * split; [done|].
        intros (y' & ys' & Hy & Hys & ->)%Forall2_cons_inv_l.
        by apply IH in Hys.
    + split; [done|].
      intros (y' & ys' & Hy & Hys & ->)%Forall2_cons_inv_l. congruence.
Qed.

Lemma rmap_raise {A B} (f : A → result B) (l : list A) (x : A) (e : exn) :
  x ∈ l → f x = Raise e → ∃ e', rmap f l = Raise e'.
Proof.
  intros Hx Hf. induction l as [|y l IH]; [by inversion Hx|]. simpl.
  destruct (f y) as [z|e'] eqn:Hy; simpl; [|by eauto].
  apply elem_of_cons in Hx as [->|Hx]; [congruence|].
  destruct (IH Hx) as [e' ->]. simpl. eauto.
Qed.

Section GraphStringTheory.
Variable py_int : string → result Z.

(** X1: rows of integers, none of them empty, that are printed by a
    function [show] which [int] inverts and which emits neither a
    space nor a newline, then joined by spaces within a row and by
    newlines between rows, are read back by [graph_string_to_array] as
    they were. *)
Theorem graph_string_round_trip (show : Z → string) (rows : list (list Z)) :
  rows ≠ [] →
  Forall (λ row, row ≠ []) rows →
  Forall (Forall (λ z, py_int (show z) = Ok z ∧
                       occurs space (show z) = false ∧
                       occurs newline (show z) = false)) rows →
  graph_string_to_array py_int
    (join_with newline ((λ row, join_with space (show <$> row)) <$> rows))
  = Ok rows.
Proof.
  intros Hrows Hne Hshow. unfold graph_string_to_array.
  rewrite split_join.
  - apply rmap_ok. apply Forall2_fmap_l, Forall_Forall2_diag.
    apply Forall_forall. intros row Hrow.
    rewrite Forall_forall in Hne, Hshow.
    specialize (Hne row Hrow). specialize (Hshow row Hrow).
    unfold compose. rewrite split_join.
    + apply rmap_ok. apply Forall2_fmap_l, Forall_Forall2_diag.
      eapply Forall_impl; [exact Hshow|]. by intros z (Hz & _).
    + by destruct row.
    + apply Forall_fmap. eapply Forall_impl; [exact Hshow|].
      by intros z (_ & Hz & _).
  - by destruct rows.
  - apply Forall_fmap. eapply Forall_impl; [exact Hshow|]. intros row Hrow.
    simpl. apply occurs_join; [done|].
    apply Forall_fmap. eapply Forall_impl; [exact Hrow|].
    by intros z (_ & _ & Hz).
Qed.

(** X2: when [graph_string_to_array] returns, it returns one row per
    line of the text, that is one more than there are newlines, and
    each row has one number more than its line has spaces. *)
Theorem graph_string_shape (graph_string : string) (rows : list (list Z)) :
  graph_string_to_array py_int graph_string = Ok rows →
  length rows = S (occurrences newline graph_string) ∧
  Forall2 (λ line row, length row = S (occurrences space line))
          (split_on newline graph_string) rows.
Proof.
  unfold graph_string_to_array. intros Hrows%rmap_ok.
  split.
  - rewrite <- (Forall2_length _ _ _ Hrows). apply split_on_length.
  - eapply Forall2_impl; [exact Hrows|]. simpl.
    intros line row Hrow%rmap_ok.
    rewrite <- (Forall2_length _ _ _ Hrow). apply split_on_length.
Qed.

(** X3: [int] rejects the empty string, so a text with an empty token
    anywhere is rejected: an empty line, a trailing newline, two
    spaces in a row, a space at either end of a line. *)
Theorem graph_string_empty_token (graph_string line : string) (e : exn) :
  py_int "" = Raise e →
  line ∈ split_on newline graph_string →
  "" ∈ split_on space line →
  ∃ e', graph_string_to_array py_int graph_string = Raise e'.
Proof.
  intros Hint Hline Htoken. unfold graph_string_to_array.
  destruct (rmap_raise py_int (split_on space line) "" e Htoken Hint)
    as [e' He'].
  eapply rmap_raise; [exact Hline|exact He'].
Qed.

End GraphStringTheory.

Section ChemModelRestTheory.
Context {num : Type} `{Numeric num}.
Context {D tensor W : Type}.

Local Abbreviation dict := (gmap string (pyval num)).

(** ** Gradient clipping *)

Lemma clip_loop_spec (clip_by_norm : tensor → pyval num → tensor) (p : dict)
  (grads_and_vars clipped : list (option tensor * tensor)) :
  clip_loop clip_by_norm p grads_and_vars clipped =
  match p !! "clamp_gradient_norm" with
  | Some clamp =>
      Ok (clipped ++
          ((λ gv : option tensor * tensor,
              ((λ g, clip_by_norm g clamp) <$> gv.1, gv.2))
             <$> grads_and_vars))
  | None =>
      if forallb no_gradient grads_and_vars
      then Ok (clipped ++ grads_and_vars)
      else Raise (KeyError "clamp_gradient_norm")
  end.
Proof.
  revert clipped.
  induction grads_and_vars as [|[[g|] var] rest IH]; intros clipped;
    cbn [clip_loop].
  - destruct (p !! "clamp_gradient_norm"); simpl; by rewrite app_nil_r.
  - unfold dict_item.
    destruct (p !! "clamp_gradient_norm") as [clamp|] eqn:Hp;
      cbn [rbind]; [|done].
    rewrite IH, <- app_assoc. done.
  - rewrite IH.
    destruct (p !! "clamp_gradient_norm"); cbn [forallb no_gradient fst andb];
      [|destruct (forallb _ _)]; by rewrite <- ?app_assoc.
Qed.

(** X4: the clipping loop of [make_model] keeps the pairs in order and
    their variables as they are, clips every gradient that is not
    [None] by [params['clamp_gradient_norm']] and leaves a [None]
    gradient alone; without that parameter it raises [KeyError], unless
    every gradient is [None], when the parameter is never read. *)
Theorem clip_gradients_spec (clip_by_norm : tensor → pyval num → tensor)
  (p : dict) (grads_and_vars : list (option tensor * tensor)) :
  clip_gradients clip_by_norm p grads_and_vars =
  match p !! "clamp_gradient_norm" with
  | Some clamp =>
      Ok ((λ gv : option tensor * tensor,
              ((λ g, clip_by_norm g clamp) <$> gv.1, gv.2))
            <$> grads_and_vars)
  | None =>
      if forallb no_gradient grads_and_vars
      then Ok grads_and_vars
      else Raise (KeyError "clamp_gradient_norm")
  end.
Proof. unfold clip_gradients. by rewrite clip_loop_spec. Qed.

(** ** Parameters the class reads *)

(** X5: whatever the configuration file and the inline configuration
    hold, the parameters resolved from the defaults of [ChemModel]
    have every key the class itself reads. *)
Theorem default_keys_survive (json_load_file json_loads : string → result dict)
  (a resolved : dict) :
  collect_params json_load_file json_loads default_params a = Ok resolved →
  Forall (λ k, is_Some (resolved !! k))
    ["num_epochs"; "patience"; "dropout_keep_prob"; "tie_fwd_bkwd"; "task_id";
     "hidden_size"; "clamp_gradient_norm"].
Proof.
  unfold collect_params. intros Hres.
  assert (∀ k (d e : dict), is_Some (d !! k) → is_Some (dict_update d e !! k))
    as Hkeep.
  { intros k d e [v Hv]. rewrite dict_update_lookup.
    destruct (e !! k); eauto. }
  assert (∃ params : dict,
            (∀ k, is_Some (default_params (num:=num) !! k) → is_Some (params !! k)) ∧
            match dict_get a "--config" with
            | PNone => Ok params
            | PStr s => rbind (json_loads s) (λ d, Ok (dict_update params d))
            | _ => Raise TypeError
            end = Ok resolved) as (params & Hparams & Hinline).
  { destruct (dict_get a "--config-file"); simpl in Hres; try done.
    - eauto.
    - destruct (json_load_file s); simpl in Hres; [|done]. eauto. }
  assert (∀ k, is_Some (default_params (num:=num) !! k) → is_Some (resolved !! k))
    as Hall.
  { intros k Hk. destruct (dict_get a "--config"); try done.
    - injection Hinline as <-. auto.
    - destruct (json_loads s); simpl in Hinline; [|done].
      injection Hinline as <-. auto. }
  repeat constructor; apply Hall; eexists; reflexivity.
Qed.

Lemma edge_vertices_nil (es : list (Z * Z * Z)) :
  edge_vertices es = [] ↔ es = [].
Proof. by destruct es. Qed.

Lemma edge_types_nil (es : list (Z * Z * Z)) : edge_types es = [] ↔ es = [].
Proof. by destruct es. Qed.

Lemma py_max_cons (x : Z) (l : list Z) (b : Z) :
  ∃ m, py_max (x :: l) = Ok m ∧ Z.max b m = foldl Z.max b (x :: l).
Proof. eexists. split; [reflexivity|]. apply foldl_max_comm. Qed.

(** The scanning loop, exactly: it completes when every record has an
    edge, and then [max_num_vertices] has taken in every vertex index
    of the split. *)
Lemma scan_graphs_returns (data : list (graph_record num)) (n : Z)
  (s : chem_model num) :
  Forall (λ g, graph g ≠ []) data →
  scan_graphs data n s =
  (Ok (foldl Z.max n (observed_edge_types data)),
   set_max_num_vertices
     (foldl Z.max (max_num_vertices s) (observed_vertices data)) s).
Proof.
  intros Hall. revert n s.
  induction Hall as [|g data Hg _ IH]; intros n s.
  - simpl. unfold ret. by destruct s.
  - cbn [scan_graphs]. unfold bind at 1, lift at 1.
    destruct (edge_vertices (graph g)) as [|v vs] eqn:Hv;
      [by apply edge_vertices_nil in Hv|].
    destruct (py_max_cons v vs (max_num_vertices s)) as (m & -> & Hm).
    unfold bind at 1, modify at 1.
    unfold bind at 1, lift at 1.
    destruct (edge_types (graph g)) as [|t ts] eqn:Ht;
      [by apply edge_types_nil in Ht|].
    destruct (py_max_cons t ts n) as (m' & -> & Hm').
    rewrite IH. unfold observed_edge_types, observed_vertices.
    cbn [mbind list_bind]. rewrite !foldl_app, Hv, Ht, <- Hm, <- Hm'.
    reflexivity.
Qed.

Lemma scan_graphs_edgeless (data : list (graph_record num)) (n : Z)
  (s : chem_model num) :
  Exists (λ g, graph g = []) data →
  (scan_graphs data n s).1 = Raise ValueError.
Proof.
  intros Hex. revert n s.
  induction data as [|g data IH]; intros n s; [by inversion Hex|].
  cbn [scan_graphs]. rewrite bind_fst. unfold lift at 1. cbn [fst snd].
  destruct (graph g) as [|e es] eqn:Hg; [done|].
  apply Exists_cons in Hex as [Hex|Hex]; [congruence|].
  cbn [edge_vertices mbind list_bind app py_max].
  rewrite bind_fst. unfold modify at 1. cbn [fst snd].
  rewrite bind_fst. unfold lift at 1. cbn [fst snd edge_types fmap list_fmap py_max].
  by apply IH.
Qed.

Lemma schema_grows_refl (s : chem_model num) : schema_grows s s.
Proof. repeat split; lia. Qed.

Lemma schema_grows_trans (s1 s2 s3 : chem_model num) :
  schema_grows s1 s2 → schema_grows s2 s3 → schema_grows s1 s3.
Proof.
  intros ((Ha & Hp & Hd) & Hv & Hn & Hs) ((Ha' & Hp' & Hd') & Hv' & Hn' & Hs').
  repeat split; try congruence; lia.
Qed.

Lemma growing_ret {A} (a : A) : growing (num:=num) (ret a).
Proof. intros s. apply schema_grows_refl. Qed.

Lemma growing_lift {A} (r : result A) : growing (num:=num) (lift r).
Proof. intros s. apply schema_grows_refl. Qed.

Lemma growing_get : growing (num:=num) get.
Proof. intros s. apply schema_grows_refl. Qed.

Lemma growing_bind {A B} (m : M (chem_model num) A)
  (k : A → M (chem_model num) B) :
  growing m → (∀ a, growing (k a)) → growing (bind m k).
Proof.
  intros Hm Hk s. rewrite bind_snd. specialize (Hm s).
  destruct (m s).1 as [a|e]; [|done].
  eapply schema_grows_trans; [exact Hm|apply Hk].
Qed.

Lemma growing_max_num_vertices (v : Z) :
  growing (modify (λ self : chem_model num,
             set_max_num_vertices (Z.max (max_num_vertices self) v) self)).
Proof. intros s. repeat split; simpl; lia. Qed.

Lemma growing_num_edge_types (v : Z) :
  growing (modify (λ self : chem_model num,
             set_num_edge_types (Z.max (num_edge_types self) v) self)).
Proof. intros s. repeat split; simpl; lia. Qed.

Lemma growing_annotation_size (v : Z) :
  growing (modify (λ self : chem_model num,
             set_annotation_size (Z.max (annotation_size self) v) self)).
Proof. intros s. repeat split; simpl; lia. Qed.

Lemma growing_scan_graphs (data : list (graph_record num)) (n : Z) :
  growing (scan_graphs data n).
Proof.
  revert n. induction data as [|g data IH]; intros n; [apply growing_ret|].
  cbn [scan_graphs].
  apply growing_bind; [apply growing_lift|intros v].
  apply growing_bind; [apply growing_max_num_vertices|intros _].
  apply growing_bind; [apply growing_lift|intros t]. apply IH.
Qed.

Lemma growing_load_data
  (read_data : string → result (list (graph_record num)))
  (h : hooks num D tensor) (file_name : string) :
  growing (load_data read_data h file_name).
Proof.
  unfold load_data.
  apply growing_bind; [apply growing_get|intros self].
  apply growing_bind; [apply growing_lift|intros raw].
  apply growing_bind; [apply growing_lift|intros data].
  apply growing_bind; [apply growing_scan_graphs|intros n].
  apply growing_bind; [apply growing_lift|intros tie].
  apply growing_bind; [apply growing_num_edge_types|intros _].
  apply growing_bind; [apply growing_lift|intros g0].
  apply growing_bind; [apply growing_lift|intros f0].
  apply growing_bind; [apply growing_annotation_size|intros _].
  apply growing_bind; [apply growing_get|intros self'].
  apply growing_lift.
Qed.

(** X6: whatever a sequence of [load_data] calls does, and wherever it
    stops, no schema field of [self] decreases, and the arguments,
    the parameters and the data directory are left alone. *)
Theorem load_all_monotone
  (read_data : string → result (list (graph_record num)))
  (h : hooks num D tensor) (file_names : list string) (s : chem_model num) :
  schema_grows s (load_all read_data h file_names s).2.
Proof.
  revert s. change (growing (load_all read_data h file_names)).
  induction file_names as [|f fs IH]; [apply growing_ret|].
  cbn [load_all].
  apply growing_bind; [apply growing_load_data|intros d].
  apply growing_bind; [apply IH|intros ds]. apply growing_ret.
Qed.

Lemma first_feature_length_index (data : list (graph_record num)) :
  match first_feature_length data with
  | Some n => ∃ g0 f0, py_index data 0 = Ok g0 ∧
                        py_index (node_features g0) 0 = Ok f0 ∧
                        n = Z.of_nat (length f0)
  | None => py_index data 0 = Raise IndexError ∨
            ∃ g0, py_index data 0 = Ok g0 ∧
                  py_index (node_features g0) 0 = Raise IndexError
  end.
Proof.
  unfold first_feature_length. destruct data as [|g0 data]; [by left|].
  cbn [lookup list_lookup mbind option_bind]. rewrite py_index_0.
  destruct (node_features g0) as [|f0 fs] eqn:Hf; simpl.
  - right. exists g0. by rewrite Hf.
  - exists g0, f0. by rewrite Hf.
Qed.

(** The outcome of [load_data] when it returns, and when it does. *)
Lemma load_data_outcome
  (read_data : string → result (list (graph_record num)))
  (h : hooks num D tensor) (file_name : string) (d : D)
  (s s' : chem_model num) :
  load_data read_data h file_name s = (Ok d, s') ↔
  ∃ data tie n,
    loaded_records read_data s file_name = Ok data ∧
    Forall (λ g, graph g ≠ []) data ∧
    params s !! "tie_fwd_bkwd" = Some tie ∧
    first_feature_length data = Some n ∧
    s' = loaded_model s data tie n ∧
    process_raw_graphs h s' data = Ok d.
Proof.
  unfold load_data, loaded_records.
  unfold bind at 1, get at 1. unfold bind at 1, lift at 1.
  destruct (read_data _) as [raw|e]; cbn [rbind];
    [|split; [done|by intros (? & ? & ? & ? & _)]].
  unfold bind at 1, lift at 1.
  destruct (restrict_data _ raw) as [data|e];
    [|split; [done|by intros (? & ? & ? & ? & _)]].
  unfold bind at 1.
  destruct (decide (Forall (λ g : graph_record num, graph g ≠ []) data))
    as [Hall|Hnot].
  2:{ split; [|intros (? & ? & ? & [= <-] & ? & _); done].
      destruct (scan_graphs data 0 s) as [[n|e] s1] eqn:Hscan; [|done].
      by apply scan_graphs_ok in Hscan as (_ & ? & _). }
  rewrite (scan_graphs_returns data 0 s Hall).
  unfold bind at 1, lift at 1, dict_item.
  destruct (params s !! "tie_fwd_bkwd") as [tie|];
    [|split; [done|by intros (? & ? & ? & _ & _ & ? & _)]].
  unfold bind at 1, modify at 1.
  pose proof (first_feature_length_index data) as Hfirst.
  destruct (first_feature_length data) as [n|] eqn:Hfl.
  - destruct Hfirst as (g0 & f0 & -> & Hf0 & ->).
    unfold bind at 1, lift at 1. unfold bind at 1, lift at 1. rewrite Hf0.
    unfold bind at 1, modify at 1. unfold bind at 1, get at 1. unfold lift.
    split.
    + intros [= Hd <-]. exists data, tie, (Z.of_nat (length f0)).
      split; [done|]. split; [done|]. split; [done|]. split; [done|].
      split; [reflexivity|]. exact Hd.
    + intros (? & ? & ? & [= <-] & _ & [= <-] & Hfl' & -> & Hd).
      rewrite Hfl in Hfl'. injection Hfl' as <-.
      f_equal. exact Hd.
  - split; [|intros (? & ? & ? & [= <-] & _ & _ & Hfl' & _); congruence].
    unfold bind at 1, lift at 1.
    destruct Hfirst as [->|(g0 & -> & Hf0)]; [done|].
    unfold bind at 1, lift at 1. by rewrite Hf0.
Qed.

(** X7: when [load_data] returns, exactly: the file decodes, the optional
    truncation applies, every record scanned has an edge, the flag
    [tie_fwd_bkwd] is configured, the first record has a first node,
    and the model's [process_raw_graphs] returns; [self] is then
    [loaded_model], and the hook is handed the updated [self]. *)
Theorem load_data_returns
  (read_data : string → result (list (graph_record num)))
  (h : hooks num D tensor) (file_name : string) (d : D)
  (s s' : chem_model num) :
  load_data read_data h file_name s = (Ok d, s') ↔
  ∃ data tie n,
    loaded_records read_data s file_name = Ok data ∧
    Forall (λ g, graph g ≠ []) data ∧
    params s !! "tie_fwd_bkwd" = Some tie ∧
    first_feature_length data = Some n ∧
    s' = loaded_model s data tie n ∧
    process_raw_graphs h s' data = Ok d.
Proof.
  exact (load_data_outcome read_data h file_name d s s').
Qed.

(** X8: a record without edges anywhere in the split makes [load_data]
    raise [ValueError], from the builtin [max] on an empty list. *)
Theorem load_data_edgeless
  (read_data : string → result (list (graph_record num)))
  (h : hooks num D tensor) (file_name : string) (s : chem_model num)
  (data : list (graph_record num)) :
  loaded_records read_data s file_name = Ok data →
  Exists (λ g, graph g = []) data →
  (load_data read_data h file_name s).1 = Raise ValueError.
Proof.
  unfold load_data, loaded_records. intros Hdata Hex.
  rewrite bind_fst. unfold get at 1 2. cbn [fst snd].
  rewrite bind_fst. unfold lift at 1 2. cbn [fst snd].
  destruct (read_data _) as [raw|e]; [|done]. cbn [rbind] in Hdata.
  rewrite bind_fst. unfold lift at 1 2. cbn [fst snd]. rewrite Hdata.
  rewrite bind_fst. by rewrite scan_graphs_edgeless.
Qed.

(** X9: a split with no record, or whose first record has no node, makes
    [load_data] raise [IndexError]; by then the split has been scanned
    and [num_edge_types] assigned. *)
Theorem load_data_no_first_feature
  (read_data : string → result (list (graph_record num)))
  (h : hooks num D tensor) (file_name : string) (s : chem_model num)
  (data : list (graph_record num)) (tie : pyval num) :
  loaded_records read_data s file_name = Ok data →
  Forall (λ g, graph g ≠ []) data →
  params s !! "tie_fwd_bkwd" = Some tie →
  first_feature_length data = None →
  load_data read_data h file_name s =
  (Raise IndexError, loaded_model s data tie (annotation_size s)).
Proof.
  unfold load_data, loaded_records. intros Hdata Hall Htie Hnone.
  unfold bind at 1, get at 1. unfold bind at 1, lift at 1.
  destruct (read_data _) as [raw|e]; [|done]. cbn [rbind] in Hdata.
  unfold bind at 1, lift at 1. rewrite Hdata.
  unfold bind at 1. rewrite (scan_graphs_returns data 0 s Hall).
  unfold bind at 1, lift at 1, dict_item. rewrite Htie.
  unfold bind at 1, modify at 1.
  pose proof (first_feature_length_index data) as Hfirst.
  rewrite Hnone in Hfirst.
  assert (loaded_model s data tie (annotation_size s) =
          set_num_edge_types
            (Z.max (num_edge_types
                      (set_max_num_vertices
                         (foldl Z.max (max_num_vertices s)
                            (observed_vertices data)) s))
               (foldl Z.max 0 (observed_edge_types data) *
                (if py_truthy tie then 1 else 2)))
            (set_max_num_vertices
               (foldl Z.max (max_num_vertices s) (observed_vertices data)) s))
    as ->.
  { unfold loaded_model, set_num_edge_types, direction_factor. simpl.
    f_equal. lia. }
  unfold bind at 1, lift at 1.
  destruct Hfirst as [->|(g0 & -> & Hf0)]; [done|].
  unfold bind at 1, lift at 1. by rewrite Hf0.
Qed.

Lemma load_data_loaded
  (read_data read_data' : string → result (list (graph_record num)))
  (h : hooks num D tensor) (file_name : string) (s : chem_model num) :
  loaded_records read_data s file_name = loaded_records read_data' s file_name →
  load_data read_data h file_name s = load_data read_data' h file_name s.
Proof.
  unfold load_data, loaded_records. intros Heq.
  unfold bind at 1, get at 1. unfold bind at 1, lift at 1.
  unfold bind at 1, lift at 1.
  symmetry.
  unfold bind at 1, get at 1. unfold bind at 1, lift at 1.
  unfold bind at 1, lift at 1.
  destruct (read_data _) as [raw|e], (read_data' _) as [raw'|e'];
    cbn [rbind] in Heq.
  - by rewrite Heq.
  - rewrite Heq. done.
  - rewrite <- Heq. done.
  - by injection Heq as ->.
Qed.

(** X10: with a positive [--restrict_data] limit, [load_data] does not look
    beyond the first [limit] records: files that agree on them are
    loaded alike, outcome and [self]. *)
Theorem load_data_ignores_tail
  (read_data read_data' : string → result (list (graph_record num)))
  (h : hooks num D tensor) (file_name : string) (s : chem_model num)
  (limit : Z) (raw raw' : list (graph_record num)) :
  dict_get (args s) "--restrict_data" = PInt limit →
  0 < limit →
  read_data (path_join (data_dir s) file_name) = Ok raw →
  read_data' (path_join (data_dir s) file_name) = Ok raw' →
  take (Z.to_nat limit) raw = take (Z.to_nat limit) raw' →
  load_data read_data h file_name s = load_data read_data' h file_name s.
Proof.
  intros Hlimit Hpos Hraw Hraw' Htake. apply load_data_loaded.
  unfold loaded_records. rewrite Hraw, Hraw', Hlimit. cbn [rbind restrict_data].
  destruct (Z.ltb_spec 0 limit); [|lia]. by rewrite Htake.
Qed.

Lemma load_all_vertices
  (read_data : string → result (list (graph_record num)))
  (h : hooks num D tensor) (file_names : list string) (ds : list D)
  (s s' : chem_model num) :
  load_all read_data h file_names s = (Ok ds, s') →
  ∃ splits,
    Forall2 (λ f data, loaded_records read_data s f = Ok data ∧
                       observed_vertices data ≠ []) file_names splits ∧
    max_num_vertices s' =
      foldl Z.max (max_num_vertices s) (splits ≫= observed_vertices).
Proof.
  revert ds s. induction file_names as [|f fs IH]; intros ds s.
  - intros [= <- <-]. exists []. split; [constructor|done].
  - cbn [load_all]. unfold bind at 1.
    destruct (load_data read_data h f s) as [[d|e] s1] eqn:Hload; [|done].
    pose proof (growing_load_data read_data h f s) as (Hsame & _).
    rewrite Hload in Hsame. cbn [snd] in Hsame.
    apply load_data_outcome in Hload
      as (data & tie & n & Hdata & Hall & _ & Hfirst & -> & _).
    unfold bind at 1.
    destruct (load_all read_data h fs _) as [[ds'|e] s2] eqn:Hrest; [|done].
    intros [= <- <-]. apply IH in Hrest as (splits & Hsplits & Hmax).
    exists (data :: splits). split.
    + constructor.
      * split; [done|]. unfold first_feature_length in Hfirst.
        destruct data as [|g0 data]; [done|].
        apply Forall_cons in Hall as [Hg0 _].
        unfold observed_vertices. cbn [mbind list_bind].
        destruct (graph g0); [done|]. discriminate.
      * eapply Forall2_impl; [exact Hsplits|]. simpl. intros f' data' [Hl Ho].
        split; [|done]. by rewrite <- (loaded_records_same_setup _ _ _ _ Hsame).
    + rewrite Hmax. cbn [mbind list_bind]. by rewrite foldl_app.
Qed.

Lemma observed_vertices_elem (data : list (graph_record num)) (x : Z) :
  x ∈ observed_vertices data →
  ∃ g e, g ∈ data ∧ e ∈ graph g ∧ (x = e.1.1 ∨ x = e.2).
Proof.
  unfold observed_vertices, edge_vertices. intros Hx.
  apply list_elem_of_bind in Hx as (g & Hx & Hg).
  apply list_elem_of_bind in Hx as (e & Hx & He).
  exists g, e. split; [done|]. split; [done|].
  apply elem_of_cons in Hx as [->|Hx]; [by left|].
  apply elem_of_cons in Hx as [->|Hx]; [by right|]. by inversion Hx.
Qed.

(** X11: after a sequence of [load_data] calls on a fresh object, with
    non-negative vertex indices, [max_num_vertices] is the largest
    vertex index, source or target, over every edge of every record
    loaded: an index, not a count. *)
Theorem max_num_vertices_running_max
  (read_data : string → result (list (graph_record num)))
  (h : hooks num D tensor) (file_names : list string) (a p : dict)
  (ds : list D) (s' : chem_model num) :
  file_names ≠ [] →
  (∀ f data g e,
     f ∈ file_names →
     loaded_records read_data (new_model a p) f = Ok data →
     g ∈ data → e ∈ graph g → 0 ≤ e.1.1 ∧ 0 ≤ e.2) →
  load_all read_data h file_names (new_model a p) = (Ok ds, s') →
  ∃ splits,
    Forall2 (λ f data, loaded_records read_data (new_model a p) f = Ok data)
            file_names splits ∧
    is_max (splits ≫= observed_vertices) (max_num_vertices s').
Proof.
  intros Hne Hpos Hload.
  apply load_all_vertices in Hload as (splits & Hsplits & Hmax).
  exists splits. split.
  { eapply Forall2_impl; [exact Hsplits|]. by intros f data [? _]. }
  rewrite Hmax. simpl. apply foldl_max_is_max.
  destruct file_names as [|f fs]; [done|].
  apply Forall2_cons_inv_l in Hsplits as (data & splits' & [Hdata Hobs] & _ & ->).
  destruct (observed_vertices data) as [|x l] eqn:Hx; [done|].
  exists x. split.
  - cbn [mbind list_bind]. rewrite Hx. left.
  - assert (x ∈ observed_vertices data) as Hin by (rewrite Hx; left).
    apply observed_vertices_elem in Hin as (g & e & Hg & He & Hxe).
    destruct (Hpos f data g e) as [? ?]; [left|done..|].
    destruct Hxe; lia.
Qed.

(** ** Construction *)

Section Construction.

Variable json_load_file : string → result dict.
Variable json_loads : string → result dict.
Variable read_data : string → result (list (graph_record num)).
Variable timestamp : string.
Variable pid : Z.
Variable can_write : string → bool.

Local Abbreviation init' :=
  (init json_load_file json_loads read_data timestamp pid can_write).

(** [__init__] up to the point where the parameter file has been
    written. *)
Lemma init_written (h : hooks num D tensor) (defaults a : dict)
  (d : disk num) (dir : string) (p : dict) :
  log_dir_of a = Ok dir →
  collect_params json_load_file json_loads defaults a = Ok p →
  can_write (path_join dir ((timestamp +:+ "_" +:+ pretty pid) +:+ "_params.json"))
    = true →
  let d' := d ++ [(path_join dir
                     ((timestamp +:+ "_" +:+ pretty pid) +:+ "_params.json"), p)] in
  init' h defaults a d =
  match data_dir_usable a with
  | Raise e => (Raise e, d')
  | Ok _ =>
      match load_data read_data h "molecules_train.json" (new_model a p) with
      | (Raise e, _) => (Raise e, d')
      | (Ok train, model) =>
          match load_data read_data h "molecules_valid.json" model with
          | (Raise e, _) => (Raise e, d')
          | (Ok valid, model) =>
              match make_model h model with
              | Raise e => (Raise e, d')
              | Ok values =>
                  (Ok {| self := model;
                         run_id := timestamp +:+ "_" +:+ pretty pid;
                         log_file_path :=
                           path_join dir
                             ((timestamp +:+ "_" +:+ pretty pid) +:+ "_log.json");
                         train_data := train; valid_data := valid;
                         computed_values := values |}, d')
              end
          end
      end
  end.
Proof.
  intros Hdir Hp Hw. cbv zeta. unfold init.
  unfold bind at 1, lift at 1. rewrite Hdir.
  unfold bind at 1, lift at 1. rewrite Hp.
  unfold bind at 1, write_json at 1. rewrite Hw.
  unfold bind at 1, lift at 1.
  destruct (data_dir_usable a); [|done].
  destruct (load_data read_data h "molecules_train.json" _) as [[train|e] m1];
    [|done].
  destruct (load_data read_data h "molecules_valid.json" m1) as [[valid|e] m2];
    [|done].
  unfold bind at 1, lift at 1.
  by destruct (make_model h m2).
Qed.

(** [__init__] when it does not get to write the parameter file:
    the disk is as it was. *)
Lemma init_not_written (h : hooks num D tensor) (defaults a : dict)
  (d : disk num) :
  match log_dir_of a with
  | Raise _ => True
  | Ok dir =>
      match collect_params json_load_file json_loads defaults a with
      | Raise _ => True
      | Ok _ =>
          can_write (path_join dir
                       ((timestamp +:+ "_" +:+ pretty pid) +:+ "_params.json"))
          = false
      end
  end →
  ∃ e, init' h defaults a d = (Raise e, d).
Proof.
  unfold init.
  unfold bind at 1, lift at 1.
  destruct (log_dir_of a) as [dir|e]; [|eauto].
  unfold bind at 1, lift at 1.
  destruct (collect_params _ _ _ _) as [p|e]; [|eauto].
  intros Hw. unfold bind at 1, write_json at 1. rewrite Hw. eauto.
Qed.

(** X12: the parameter file is written before any data is read: once the
    log directory and the parameters are resolved and the file can be
    opened, it is on disk with the resolved parameters, whether the
    rest of [__init__] succeeds or raises; and nothing else is
    written. *)
Theorem init_writes_params_first (h : hooks num D tensor) (defaults a : dict)
  (d : disk num) (dir : string) (p : dict) :
  log_dir_of a = Ok dir →
  collect_params json_load_file json_loads defaults a = Ok p →
  can_write (path_join dir ((timestamp +:+ "_" +:+ pretty pid) +:+ "_params.json"))
    = true →
  (init' h defaults a d).2 =
  d ++ [(path_join dir ((timestamp +:+ "_" +:+ pretty pid) +:+ "_params.json"),
         p)].
Proof.
  intros Hdir Hp Hw. rewrite (init_written h defaults a d dir p) by done.
  cbv zeta.
  destruct (data_dir_usable a); [|done].
  destruct (load_data read_data h "molecules_train.json" _) as [[train|e] m1];
    [|done].
  destruct (load_data read_data h "molecules_valid.json" m1) as [[valid|e] m2];
    [|done].
  by destruct (make_model h m2).
Qed.

Lemma load_data_base_hooks (file_name : string) (s : chem_model num) :
  ∃ e, (load_data read_data (base_hooks (D:=D) (tensor:=tensor)) file_name s).1
       = Raise e.
Proof.
  unfold load_data.
  repeat (rewrite bind_fst;
          match goal with
          | |- context [match ?r with Ok _ => _ | Raise _ => _ end] =>
              destruct r; [|eauto]
          end).
  unfold lift. simpl. eauto.
Qed.

(** X13: the class cannot be instantiated as it is: with the hooks of
    [ChemModel] itself, [__init__] raises in every environment and for
    every command line. *)
Theorem init_base_hooks_raises (defaults a : dict) (d : disk num) :
  ∃ e, (init' (base_hooks (D:=D) (tensor:=tensor)) defaults a d).1 = Raise e.
Proof.
  destruct (log_dir_of a) as [dir|e] eqn:Hdir.
  2:{ destruct (init_not_written base_hooks defaults a d) as [e' ->];
        [by rewrite Hdir|eauto]. }
  destruct (collect_params json_load_file json_loads defaults a) as [p|e] eqn:Hp.
  2:{ destruct (init_not_written base_hooks defaults a d) as [e' ->];
        [by rewrite Hdir, Hp|eauto]. }
  destruct (can_write (path_join dir
              ((timestamp +:+ "_" +:+ pretty pid) +:+ "_params.json"))) eqn:Hw.
  2:{ destruct (init_not_written base_hooks defaults a d) as [e' ->];
        [by rewrite Hdir, Hp|eauto]. }
  rewrite (init_written _ defaults a d dir p) by done. cbv zeta.
  destruct (data_dir_usable a); [|eauto].
  destruct (load_data_base_hooks "molecules_train.json" (new_model a p))
    as [e He].
  destruct (load_data read_data base_hooks "molecules_train.json" _)
    as [[train|e'] m1]; [done|eauto].
Qed.

(** X14: when [__init__] returns: the parameters of the object are the
    resolved ones; the log file and the parameter file are named by the
    same run identifier in the log directory, and the parameter file is
    the one file written; the training split and then the validation
    split were loaded on the same object, whose schema fields are what
    [make_model] was given. *)
Theorem init_returns (h : hooks num D tensor) (defaults a : dict)
  (d d' : disk num) (inst : instance num D tensor) :
  init' h defaults a d = (Ok inst, d') →
  ∃ dir p,
    log_dir_of a = Ok dir ∧
    collect_params json_load_file json_loads defaults a = Ok p ∧
    run_id inst = timestamp +:+ "_" +:+ pretty pid ∧
    log_file_path inst = path_join dir (run_id inst +:+ "_log.json") ∧
    d' = d ++ [(path_join dir (run_id inst +:+ "_params.json"), p)] ∧
    load_all read_data h ["molecules_train.json"; "molecules_valid.json"]
             (new_model a p)
      = (Ok [train_data inst; valid_data inst], self inst) ∧
    make_model h (self inst) = Ok (computed_values inst).
Proof.
  intros Hinit.
  destruct (log_dir_of a) as [dir|e] eqn:Hdir.
  2:{ destruct (init_not_written h defaults a d) as [e' He];
        [by rewrite Hdir|congruence]. }
  destruct (collect_params json_load_file json_loads defaults a) as [p|e] eqn:Hp.
  2:{ destruct (init_not_written h defaults a d) as [e' He];
        [by rewrite Hdir, Hp|congruence]. }
  destruct (can_write (path_join dir
              ((timestamp +:+ "_" +:+ pretty pid) +:+ "_params.json"))) eqn:Hw.
  2:{ destruct (init_not_written h defaults a d) as [e' He];
        [by rewrite Hdir, Hp|congruence]. }
  rewrite (init_written _ defaults a d dir p) in Hinit by done.
  cbv zeta in Hinit.
  destruct (data_dir_usable a); [|done].
  destruct (load_data read_data h "molecules_train.json" _) as [[train|e] m1]
    eqn:Htrain; [|done].
  destruct (load_data read_data h "molecules_valid.json" m1) as [[valid|e] m2]
    eqn:Hvalid; [|done].
  destruct (make_model h m2) as [values|e] eqn:Hmodel; [|done].
  injection Hinit as <- <-. exists dir, p. simpl.
  repeat split; try done.
  unfold bind at 1. rewrite Htrain.
  unfold bind at 1. unfold bind at 1. by rewrite Hvalid.
Qed.

End Construction.

(** ** One pass over a split, continued *)

Lemma py_index_in_range {A} (l : list A) (i : Z) :
  - Z.of_nat (length l) ≤ i < Z.of_nat (length l) →
  ∃ x, py_index l i = Ok x.
Proof.
  intros Hi. unfold py_index.
  set (j := if i <? 0 then i + Z.of_nat (length l) else i).
  assert (0 ≤ j < Z.of_nat (length l)) as Hj.
  { unfold j. destruct (Z.ltb_spec i 0); lia. }
  destruct (Z.ltb_spec j 0); [lia|].
  destruct (Z.leb_spec (Z.of_nat (length l)) j); [lia|]. simpl.
  destruct (l !! Z.to_nat j) as [x|] eqn:Hx; [eauto|].
  apply lookup_ge_None in Hx. lia.
Qed.

Lemma py_index_out_of_range {A} (l : list A) (i : Z) :
  i < - Z.of_nat (length l) ∨ Z.of_nat (length l) ≤ i →
  py_index l i = Raise IndexError.
Proof.
  intros Hi. unfold py_index.
  set (j := if i <? 0 then i + Z.of_nat (length l) else i).
  assert (j < 0 ∨ Z.of_nat (length l) ≤ j) as Hj.
  { unfold j. destruct (Z.ltb_spec i 0); lia. }
  destruct (Z.ltb_spec j 0); [done|].
  destruct (Z.leb_spec (Z.of_nat (length l)) j); [done|lia].
Qed.

Lemma chemical_accuracy_length :
  length (chemical_accuracy (num:=num)) = 13%nat.
Proof. reflexivity. Qed.

Lemma run_batches_inv (rt : runtime num W) (p : dict) (is_training : bool)
  (batches : list dict) (loss accuracy : total num) (n : Z)
  (w w' : world num W) (v : total num * total num * Z) :
  run_batches rt p is_training batches loss accuracy n w = (Ok v, w') →
  ∃ gs reqs,
    Forall2 (λ b g, batch_num_graphs b = Ok g) batches gs ∧
    Forall2 (λ b r, batch_request p is_training b = Ok r) batches reqs.
Proof.
  revert loss accuracy n w.
  induction batches as [|b batches IH]; intros loss accuracy n w Hrun.
  - exists [], []. split; constructor.
  - destruct (batch_num_graphs b) as [g|e] eqn:Hg.
    2:{ by rewrite (run_batches_no_count _ _ _ _ _ _ _ _ _ _ Hg) in Hrun. }
    destruct (batch_request p is_training b) as [r|e] eqn:Hr.
    2:{ by rewrite (run_batches_no_request _ _ _ _ _ _ _ _ _ _ _ Hg Hr) in Hrun. }
    rewrite (run_batches_cons _ _ _ _ _ _ _ _ _ _ _ Hg Hr) in Hrun.
    apply IH in Hrun as (gs & reqs & Hgs & Hreqs).
    exists (g :: gs), (r :: reqs). split; by constructor.
Qed.

Lemma foldl_total_add_float (t : total num) (xs : list num) :
  xs ≠ [] → ∃ x, foldl total_add t xs = TFloat x.
Proof.
  revert t. induction xs as [|y xs IH]; intros t Hne; [done|]. simpl.
  destruct xs as [|z xs]; [destruct t; simpl; eauto|].
  by apply IH.
Qed.

Lemma requests_exist (p : dict) (is_training : bool) (batches : list dict) :
  (is_training = true → is_Some (p !! "dropout_keep_prob")) →
  ∃ reqs, Forall2 (λ b r, batch_request p is_training b = Ok r) batches reqs.
Proof.
  intros Hkeep. induction batches as [|b batches [reqs IH]].
  - exists []. constructor.
  - unfold batch_request at 1, dict_item. destruct is_training.
    + destruct Hkeep as [keep Hkeep]; [done|].
      eexists (_ :: reqs). constructor; [|exact IH]. by rewrite Hkeep.
    + eexists (_ :: reqs). constructor; [reflexivity|exact IH].
Qed.

(** The pass on minibatches that can all be run. *)
Lemma run_epoch_batches_ok (rt : runtime num W) (h : hooks num D tensor)
  (p : dict) (epoch_name : string) (data : D) (is_training : bool)
  (w : world num W) (batches : list dict) (gs : list Z)
  (reqs : list (list op * dict)) :
  make_minibatch_iterator h data is_training = Ok batches →
  batches ≠ [] →
  Forall2 (λ b g, batch_num_graphs b = Ok g) batches gs →
  Forall2 (λ b r, batch_request p is_training b = Ok r) batches reqs →
  ∃ loss accuracy,
    weighted_mean ((batch_values rt reqs (weights w)).*1) gs = Ok loss ∧
    weighted_mean ((batch_values rt reqs (weights w)).*2) gs = Ok accuracy ∧
    run_epoch rt h p epoch_name data is_training w =
    match rbind (dict_item p "task_id") as_int with
    | Raise e => (Raise e, after_pass rt reqs w 1)
    | Ok task_id =>
        match py_index chemical_accuracy task_id with
        | Raise e => (Raise e, after_pass rt reqs w 1)
        | Ok reference =>
            if num_is_zero (elapsed rt w)
            then (Raise ZeroDivisionError, after_pass rt reqs w 2)
            else (Ok (loss, accuracy, num_div accuracy reference,
                      num_div (num_of_int (sum_counts gs)) (elapsed rt w)),
                  after_pass rt reqs w 2)
        end
    end.
Proof.
  intros Hit Hne Hgs Hreqs. unfold weighted_mean, py_sum.
  assert (∀ xs : list num, length xs = length gs →
            ∃ x, foldl total_add (TInt 0)
                   (zip_with (λ x g, num_mul x (num_of_int g)) xs gs) = TFloat x)
    as Hfloat.
  { intros xs Hlen. apply foldl_total_add_float.
    destruct batches as [|b batches]; [done|].
    apply Forall2_cons_inv_l in Hgs as (g & gs' & _ & _ & ->).
    destruct xs; [done|]. done. }
  assert (length (batch_values rt reqs (weights w)) = length gs) as Hlen.
  { rewrite <- (Forall2_length _ _ _ Hgs), (Forall2_length _ _ _ Hreqs).
    clear. generalize (weights w).
    induction reqs as [|[fl feed] reqs IH]; intros vars; simpl; [done|].
    by rewrite IH. }
  destruct (Hfloat ((batch_values rt reqs (weights w)).*1)) as [l Hl];
    [by rewrite length_fmap|].
  destruct (Hfloat ((batch_values rt reqs (weights w)).*2)) as [a Ha];
    [by rewrite length_fmap|].
  rewrite Hl, Ha. cbn [total_div]. do 2 eexists.
  split; [reflexivity|]. split; [reflexivity|].
  unfold run_epoch.
  unfold bind at 1, time_time at 1.
  unfold bind at 1, lift at 1. rewrite Hit.
  unfold bind at 1.
  rewrite (run_batches_ok rt p is_training batches gs reqs) by done.
  cbn [weights clock sess_calls log_file]. rewrite Z.add_0_l, Hl, Ha.
  unfold bind at 1, lift at 1. cbn [total_div].
  unfold bind at 1, lift at 1. cbn [total_div].
  unfold bind at 1, lift at 1.
  destruct (rbind (dict_item p "task_id") as_int) as [task_id|e]; [|done].
  unfold bind at 1, lift at 1.
  destruct (py_index chemical_accuracy task_id) as [reference|e]; [|done].
  unfold bind at 1, time_time at 1. cbn [weights clock sess_calls log_file].
  unfold bind at 1, lift at 1, int_div_float, elapsed.
  destruct (num_is_zero _); reflexivity.
Qed.

(** The pass on no minibatch. *)
Lemma run_epoch_nil (rt : runtime num W) (h : hooks num D tensor)
  (p : dict) (epoch_name : string) (data : D) (is_training : bool)
  (w : world num W) :
  make_minibatch_iterator h data is_training = Ok [] →
  run_epoch rt h p epoch_name data is_training w =
  (Raise ZeroDivisionError,
   {| weights := weights w; clock := S (clock w);
      sess_calls := sess_calls w; log_file := log_file w |}).
Proof.
  intros Hit. unfold run_epoch.
  unfold bind at 1, time_time at 1.
  unfold bind at 1, lift at 1. rewrite Hit. reflexivity.
Qed.

(** X15: a pass over a split that yields no minibatch raises
    [ZeroDivisionError], from the integer division [0 / 0] of the
    accuracy total; it has read the clock once and has not run the
    session. *)
Theorem run_epoch_no_batches (rt : runtime num W) (h : hooks num D tensor)
  (p : dict) (epoch_name : string) (data : D) (is_training : bool)
  (w : world num W) :
  make_minibatch_iterator h data is_training = Ok [] →
  run_epoch rt h p epoch_name data is_training w =
  (Raise ZeroDivisionError,
   {| weights := weights w; clock := S (clock w);
      sess_calls := sess_calls w; log_file := log_file w |}).
Proof.
  intros Hit. unfold run_epoch.
  unfold bind at 1, time_time at 1.
  unfold bind at 1, lift at 1. rewrite Hit. reflexivity.
Qed.

(** The loop on minibatches stops at the first one that does not
    declare an integer graph count. *)
Lemma run_batches_bad_count (rt : runtime num W) (p : dict)
  (is_training : bool) (good : list dict) (bad : dict) (rest : list dict)
  (gs : list Z) (reqs : list (list op * dict)) (e : exn)
  (loss accuracy : total num) (n : Z) (w : world num W) :
  Forall2 (λ b g, batch_num_graphs b = Ok g) good gs →
  Forall2 (λ b r, batch_request p is_training b = Ok r) good reqs →
  batch_num_graphs bad = Raise e →
  run_batches rt p is_training (good ++ bad :: rest) loss accuracy n w =
  (Raise e,
   {| weights := run_requests rt reqs (weights w);
      clock := clock w;
      sess_calls := sess_calls w ++ reqs;
      log_file := log_file w |}).
Proof.
  intros Hgs. revert reqs loss accuracy n w.
  induction Hgs as [|b g good gs Hg _ IH];
    intros reqs loss accuracy n w Hreqs Hbad.
  - apply Forall2_nil_inv_l in Hreqs as ->. simpl app.
    rewrite (run_batches_no_count _ _ _ _ _ _ _ _ _ _ Hbad).
    simpl. rewrite app_nil_r. by destruct w.
  - apply Forall2_cons_inv_l in Hreqs as (r & reqs' & Hr & Hreqs & ->).
    rewrite <- app_comm_cons.
    rewrite (run_batches_cons _ _ _ _ _ _ _ _ _ _ _ Hg Hr).
    rewrite (IH reqs') by done. simpl.
    by rewrite <- app_assoc.
Qed.

(** X16: a minibatch that has no entry for [num_graphs] ends the pass
    with [KeyError]; the minibatches before it have been run, and it
    and the ones after it have not. *)
Theorem run_epoch_stops_at_bad_batch (rt : runtime num W)
  (h : hooks num D tensor) (p : dict) (epoch_name : string) (data : D)
  (is_training : bool) (w : world num W) (good : list dict) (bad : dict)
  (rest : list dict) (gs : list Z) (reqs : list (list op * dict)) :
  make_minibatch_iterator h data is_training = Ok (good ++ bad :: rest) →
  Forall2 (λ b g, batch_num_graphs b = Ok g) good gs →
  Forall2 (λ b r, batch_request p is_training b = Ok r) good reqs →
  bad !! "num_graphs" = None →
  run_epoch rt h p epoch_name data is_training w =
  (Raise (KeyError "num_graphs"), after_pass rt reqs w 1).
Proof.
  intros Hit Hgs Hreqs Hbad. unfold run_epoch.
  unfold bind at 1, time_time at 1.
  unfold bind at 1, lift at 1. rewrite Hit.
  unfold bind at 1.
  rewrite (run_batches_bad_count rt p is_training good bad rest gs reqs
             (KeyError "num_graphs")); [done..|].
  unfold batch_num_graphs, dict_item. by rewrite Hbad.
Qed.

(** X17: the task identifier is looked up and range-checked only after
    the last minibatch: when [chemical_accuracy[params['task_id']]]
    raises (a missing key, a value that is no integer, an index outside
    the table of 13), every request of the pass has been run by then. *)
Theorem run_epoch_task_checked_last (rt : runtime num W)
  (h : hooks num D tensor) (p : dict) (epoch_name : string) (data : D)
  (is_training : bool) (w : world num W) (batches : list dict)
  (gs : list Z) (reqs : list (list op * dict)) (e : exn) :
  make_minibatch_iterator h data is_training = Ok batches →
  batches ≠ [] →
  Forall2 (λ b g, batch_num_graphs b = Ok g) batches gs →
  Forall2 (λ b r, batch_request p is_training b = Ok r) batches reqs →
  rbind (rbind (dict_item p "task_id") as_int) (py_index chemical_accuracy)
    = Raise e →
  run_epoch rt h p epoch_name data is_training w =
  (Raise e, after_pass rt reqs w 1).
Proof.
  intros Hit Hne Hgs Hreqs Htask.
  destruct (run_epoch_batches_ok rt h p epoch_name data is_training w
              batches gs reqs Hit Hne Hgs Hreqs) as (l & a & _ & _ & ->).
  destruct (rbind (dict_item p "task_id") as_int) as [task_id|e'];
    cbn [rbind] in Htask; [|by injection Htask as ->].
  by rewrite Htask.
Qed.

(** X18: the last two components of the result of a pass: the error ratio
    is the accuracy divided by the table entry of the task, and the
    throughput is the number of graphs divided by the difference of the
    two clock readings; the pass has read the clock twice and run every
    request. *)
Theorem run_epoch_rates (rt : runtime num W) (h : hooks num D tensor)
  (p : dict) (epoch_name : string) (data : D) (is_training : bool)
  (w : world num W) (batches : list dict) (gs : list Z)
  (reqs : list (list op * dict)) (reference : num) :
  make_minibatch_iterator h data is_training = Ok batches →
  batches ≠ [] →
  Forall2 (λ b g, batch_num_graphs b = Ok g) batches gs →
  Forall2 (λ b r, batch_request p is_training b = Ok r) batches reqs →
  rbind (rbind (dict_item p "task_id") as_int) (py_index chemical_accuracy)
    = Ok reference →
  num_is_zero (elapsed rt w) = false →
  ∃ loss accuracy,
    run_epoch rt h p epoch_name data is_training w =
    (Ok (loss, accuracy, num_div accuracy reference,
         num_div (num_of_int (sum_counts gs)) (elapsed rt w)),
     after_pass rt reqs w 2).
Proof.
  intros Hit Hne Hgs Hreqs Htask Hclock.
  destruct (run_epoch_batches_ok rt h p epoch_name data is_training w
              batches gs reqs Hit Hne Hgs Hreqs) as (l & a & _ & _ & ->).
  exists l, a.
  destruct (rbind (dict_item p "task_id") as_int) as [task_id|e'];
    cbn [rbind] in Htask; [|done].
  by rewrite Htask, Hclock.
Qed.

(** X19: what a pass needs in order to return, and what is enough.
    If it returns, the iterator has yielded at least one minibatch,
    every minibatch has an entry for [num_graphs], the dropout-keep
    probability is configured if the pass trains, the task identifier
    is an integer from -13 to 12, and the clock has advanced between
    its two readings; and with integer graph counts these conditions
    make it return. *)
Theorem run_epoch_returns (rt : runtime num W) (h : hooks num D tensor)
  (p : dict) (epoch_name : string) (data : D) (is_training : bool)
  (w : world num W) :
  ((∃ r w', run_epoch rt h p epoch_name data is_training w = (Ok r, w')) →
   ∃ batches task_id,
     make_minibatch_iterator h data is_training = Ok batches ∧
     batches ≠ [] ∧
     Forall (λ b, is_Some (b !! "num_graphs")) batches ∧
     (is_training = true → is_Some (p !! "dropout_keep_prob")) ∧
     rbind (dict_item p "task_id") as_int = Ok task_id ∧
     -13 ≤ task_id < 13 ∧
     num_is_zero (elapsed rt w) = false) ∧
  ((∃ batches gs task_id,
      make_minibatch_iterator h data is_training = Ok batches ∧
      batches ≠ [] ∧
      Forall2 (λ b g, batch_num_graphs b = Ok g) batches gs ∧
      (is_training = true → is_Some (p !! "dropout_keep_prob")) ∧
      rbind (dict_item p "task_id") as_int = Ok task_id ∧
      -13 ≤ task_id < 13 ∧
      num_is_zero (elapsed rt w) = false) →
   ∃ r w', run_epoch rt h p epoch_name data is_training w = (Ok r, w')).
Proof.
  split.
  - intros (r & w' & Hrun).
    destruct (make_minibatch_iterator h data is_training) as [batches|e] eqn:Hit.
    2:{ revert Hrun. unfold run_epoch.
        unfold bind at 1, time_time at 1.
        unfold bind at 1, lift at 1. by rewrite Hit. }
    destruct batches as [|b batches].
    { by rewrite (run_epoch_nil _ _ _ _ _ _ _ Hit) in Hrun. }
    assert (∃ gs reqs,
              Forall2 (λ b g, batch_num_graphs b = Ok g) (b :: batches) gs ∧
              Forall2 (λ b r, batch_request p is_training b = Ok r)
                      (b :: batches) reqs) as (gs & reqs & Hgs & Hreqs).
    { revert Hrun. unfold run_epoch.
      unfold bind at 1, time_time at 1.
      unfold bind at 1, lift at 1. rewrite Hit.
      unfold bind at 1.
      destruct (run_batches _ _ _ _ _ _ _ _) as [[v|e] w1] eqn:Hb; [|done].
      intros _. by apply run_batches_inv in Hb. }
    destruct (run_epoch_batches_ok rt h p epoch_name data is_training w
                (b :: batches) gs reqs Hit ltac:(done) Hgs Hreqs)
      as (l & a & _ & _ & Heq).
    rewrite Heq in Hrun.
    destruct (rbind (dict_item p "task_id") as_int) as [task_id|e]; [|done].
    exists (b :: batches), task_id.
    split; [done|]. split; [done|]. split.
    { clear -Hgs. induction Hgs as [|b' g bs gs' Hg _ IH]; constructor; [|done].
      unfold batch_num_graphs, dict_item in Hg.
      destruct (b' !! "num_graphs"); [eauto|done]. }
    split.
    { intros ->. apply Forall2_cons_inv_l in Hreqs as (r0 & _ & Hr0 & _).
      unfold batch_request, dict_item in Hr0.
      destruct (p !! "dropout_keep_prob"); [eauto|done]. }
    split; [done|].
    destruct (decide (-13 ≤ task_id < 13)) as [Hin|Hout].
    + split; [done|].
      destruct (py_index chemical_accuracy task_id); [|done].
      by destruct (num_is_zero (elapsed rt w)).
    + rewrite py_index_out_of_range in Hrun; [done|].
      rewrite chemical_accuracy_length. lia.
  - intros (batches & gs & task_id & Hit & Hne & Hgs & Hkeep & Htask & Hin & Hclock).
    destruct (requests_exist p is_training batches Hkeep) as [reqs Hreqs].
    destruct (run_epoch_batches_ok rt h p epoch_name data is_training w
                batches gs reqs Hit Hne Hgs Hreqs) as (l & a & _ & _ & ->).
    rewrite Htask.
    destruct (py_index_in_range (chemical_accuracy (num:=num)) task_id)
      as [reference ->]; [rewrite chemical_accuracy_length; lia|].
    rewrite Hclock. eauto.
Qed.

(** ** The training loop, continued *)

Lemma take_seqZ_length (m : Z) (n : nat) (l : list Z) :
  l = take (length l) (seqZ m (Z.of_nat n)) →
  l = seqZ m (Z.of_nat (length l)).
Proof.
  intros Hl.
  assert (length l ≤ n)%nat as Hle.
  { pose proof (f_equal length Hl) as Hlen.
    rewrite length_take, length_seqZ in Hlen. lia. }
  rewrite Hl at 1. apply list_eq. intros i. rewrite lookup_take.
  destruct (decide (i < length l)%nat) as [Hi|Hi].
  - rewrite !lookup_seqZ_lt by lia. done.
  - rewrite lookup_seqZ_ge by lia. done.
Qed.

(** A prefix of [range(1, n)] counts from 1. *)
Lemma take_range1 (n : Z) (l : list Z) :
  l = take (length l) (range1 n) → l = seqZ 1 (Z.of_nat (length l)).
Proof.
  unfold range1. intros Hl.
  destruct (Z.le_gt_cases 0 (n - 1)) as [Hn|Hn].
  - rewrite <- (Z2Nat.id (n - 1)) in Hl by done.
    by apply take_seqZ_length in Hl.
  - replace (seqZ 1 (n - 1)) with (@nil Z) in Hl.
    2:{ unfold seqZ. by replace (Z.to_nat (n - 1)) with 0%nat by lia. }
    rewrite take_nil in Hl. by subst l.
Qed.

(** The entry at a position of a log that counts from 1. *)
Lemma logged_epoch (earlier later : list (log_entry num))
  (entry : log_entry num) :
  epoch <$> earlier ++ entry :: later =
    seqZ 1 (Z.of_nat (length (earlier ++ entry :: later))) →
  epoch entry = Z.of_nat (S (length earlier)).
Proof.
  intros Heps. apply (f_equal (λ l, l !! length earlier)) in Heps.
  rewrite list_lookup_fmap, lookup_app_r, Nat.sub_diag in Heps by done.
  rewrite lookup_seqZ_lt in Heps by (rewrite length_app; simpl; lia).
  simpl in Heps. injection Heps as ->. lia.
Qed.

(** The epoch loop whatever its outcome: the entries it appended are
    those of a prefix of the epochs, the log file holds the log as of
    the last entry, and a returned log is that log. *)
Lemma train_loop_log_file (rt : runtime num W) (h : hooks num D tensor)
  (p : dict) (train_data valid_data : D) (start : num) (epochs : list Z)
  (log : list (log_entry num)) (best : num) (best_epoch : Z)
  (w w' : world num W) (r : result (train_end num)) :
  train_loop rt h p train_data valid_data start epochs log best best_epoch w
    = (r, w') →
  ∃ new,
    epoch <$> new = take (length new) epochs ∧
    log_file w' = match new with [] => log_file w | _ :: _ => Some (log ++ new) end ∧
    match r with Ok e => log_to_save e = log ++ new | Raise _ => True end.
Proof.
  revert log best best_epoch w.
  induction epochs as [|current_epoch epochs IH];
    intros log best best_epoch w Hrun.
  - injection Hrun as <- <-. exists []. simpl. by rewrite app_nil_r.
  - apply train_loop_cons_inv in Hrun
      as [[Hl [e ->]]|(entry & w3 & Hep & _ & Hl & Hrest)];
      [by exists []|].
    cbv zeta in Hrest.
    assert (∀ best' best_epoch',
              train_loop rt h p train_data valid_data start epochs
                (log ++ [entry]) best' best_epoch' w3 = (r, w') →
              ∃ new,
                epoch <$> new = take (length new) (current_epoch :: epochs) ∧
                log_file w' = match new with
                              | [] => log_file w
                              | _ :: _ => Some (log ++ new)
                              end ∧
                match r with
                | Ok e => log_to_save e = log ++ new
                | Raise _ => True
                end) as Hnext.
    { intros best' best_epoch' Hrun.
      apply IH in Hrun as (new & Heps & Hfile & Hr).
      exists (entry :: new). rewrite fmap_cons, Hep. cbn [length take].
      rewrite <- Heps. split; [done|]. rewrite <- app_assoc in Hfile, Hr.
      split; [|done]. destruct new; [by rewrite Hfile, Hl|done]. }
    assert (w' = w3 →
            match r with
            | Ok e => log_to_save e = log ++ [entry]
            | Raise _ => True
            end →
            ∃ new,
              epoch <$> new = take (length new) (current_epoch :: epochs) ∧
              log_file w' = match new with
                            | [] => log_file w
                            | _ :: _ => Some (log ++ new)
                            end ∧
              match r with
              | Ok e => log_to_save e = log ++ new
              | Raise _ => True
              end) as Hhere.
    { intros -> Hr. exists [entry]. simpl. by rewrite Hep. }
    destruct (num_ltb _ best); [by eapply Hnext|].
    destruct (out_of_patience p current_epoch best_epoch) as [[|]|e].
    + destruct Hrest as [-> ->]. by apply Hhere.
    + by eapply Hnext.
    + destruct Hrest as [-> ->]. by apply Hhere.
Qed.

(** One step into [train]: the initialiser is run, the clock read, and
    the epoch budget looked up. *)
Lemma train_start (rt : runtime num W) (h : hooks num D tensor)
  (p : dict) (train_data valid_data : D) (w : world num W) :
  let w1 := {| weights := init_weights rt; clock := S (clock w);
               sess_calls := sess_calls w ++ [([InitOp], ∅)];
               log_file := log_file w |} in
  train rt h p train_data valid_data w =
  match rbind (dict_item p "num_epochs") as_int with
  | Ok n => train_loop rt h p train_data valid_data (now rt (clock w))
              (range1 n) [] num_inf 0 w1
  | Raise e => (Raise e, w1)
  end.
Proof.
  cbv zeta. unfold train.
  unfold bind at 1, sess_run at 1.
  unfold bind at 1, time_time at 1. cbn [weights clock sess_calls log_file].
  unfold bind at 1, lift at 1.
  by destruct (rbind (dict_item p "num_epochs") as_int).
Qed.


(** X21: with an epoch budget of at most 1, [train] initialises the
    variables and returns at once: no pass is run, whatever the model,
    the log file is not written, and the best accuracy is still the
    +inf at epoch 0 it starts from. *)
Theorem train_small_budget (rt : runtime num W) (h : hooks num D tensor)
  (p : dict) (train_data valid_data : D) (w : world num W) (num_epochs : Z) :
  p !! "num_epochs" = Some (PInt num_epochs) →
  num_epochs ≤ 1 →
  train rt h p train_data valid_data w =
  (Ok {| log_to_save := []; best_val_acc := num_inf;
         best_val_acc_epoch := 0; stopped := false |},
   {| weights := init_weights rt; clock := S (clock w);
      sess_calls := sess_calls w ++ [([InitOp], ∅)];
      log_file := log_file w |}).
Proof.
  intros Hp Hn. rewrite train_start. cbv zeta.
  unfold dict_item. rewrite Hp. cbn [rbind as_int].
  unfold range1, seqZ. by replace (Z.to_nat (num_epochs - 1)) with 0%nat by lia.
Qed.

(** X22: with a budget of at least one epoch and a training split that
    yields no minibatch, [train] raises [ZeroDivisionError] in its
    first pass: the variables are initialised, no request is made and
    the log file is not written. *)
Theorem train_empty_training_split (rt : runtime num W)
  (h : hooks num D tensor) (p : dict) (train_data valid_data : D)
  (w : world num W) (num_epochs : Z) :
  p !! "num_epochs" = Some (PInt num_epochs) →
  1 < num_epochs →
  make_minibatch_iterator h train_data true = Ok [] →
  train rt h p train_data valid_data w =
  (Raise ZeroDivisionError,
   {| weights := init_weights rt; clock := S (S (clock w));
      sess_calls := sess_calls w ++ [([InitOp], ∅)];
      log_file := log_file w |}).
Proof.
  intros Hp Hn Hit. rewrite train_start. cbv zeta.
  unfold dict_item. rewrite Hp. cbn [rbind as_int].
  unfold range1, seqZ.
  replace (Z.to_nat (num_epochs - 1)) with (S (Z.to_nat (num_epochs - 2)))
    by lia.
  cbn [seq fmap list_fmap train_loop]. unfold bind at 1.
  by rewrite (run_epoch_nil _ _ _ _ _ _ _ Hit).
Qed.

(** The epoch loop when it returns: either the best accuracy and its
    epoch are the ones it started with and no new entry was strictly
    lower, or they are those of a new entry after which no entry was
    strictly lower. *)
Lemma train_loop_best (rt : runtime num W) (h : hooks num D tensor)
  (p : dict) (train_data valid_data : D) (start : num) (epochs : list Z)
  (log : list (log_entry num)) (best : num) (best_epoch : Z)
  (w w' : world num W) (e : train_end num) :
  train_loop rt h p train_data valid_data start epochs log best best_epoch w
    = (Ok e, w') →
  ∃ new,
    log_to_save e = log ++ new ∧
    ((best_val_acc e = best ∧ best_val_acc_epoch e = best_epoch ∧
      Forall (λ x, num_ltb (result_accuracy (valid_results x)) best = false)
             new) ∨
     ∃ pre entry post,
       new = pre ++ entry :: post ∧
       epoch entry = best_val_acc_epoch e ∧
       result_accuracy (valid_results entry) = best_val_acc e ∧
       Forall (λ x, num_ltb (result_accuracy (valid_results x))
                            (best_val_acc e) = false) post).
Proof.
  revert log best best_epoch w.
  induction epochs as [|current_epoch epochs IH];
    intros log best best_epoch w Hrun.
  - injection Hrun as <- <-. exists []. simpl. rewrite app_nil_r.
    split; [done|]. left. by repeat split.
  - apply train_loop_cons_inv in Hrun
      as [[_ [e' [=]]]|(entry & w3 & Hep & _ & _ & Hrest)].
    cbv zeta in Hrest.
    destruct (num_ltb (result_accuracy (valid_results entry)) best) eqn:Hlt.
    { apply IH in Hrest as (new & Hlog & Hbest).
      exists (entry :: new). rewrite Hlog, <- app_assoc. split; [done|].
      right. destruct Hbest as [(Hb & Hbe & Hall)|(pre & x & post & -> & Hx)].
      - exists [], entry, new. rewrite Hb, Hbe. by repeat split.
      - exists (entry :: pre), x, post. by split. }
    assert (train_loop rt h p train_data valid_data start epochs
              (log ++ [entry]) best best_epoch w3 = (Ok e, w') →
            ∃ new,
              log_to_save e = log ++ new ∧
              ((best_val_acc e = best ∧ best_val_acc_epoch e = best_epoch ∧
                Forall (λ x, num_ltb (result_accuracy (valid_results x)) best
                             = false) new) ∨
               ∃ pre entry post,
                 new = pre ++ entry :: post ∧
                 epoch entry = best_val_acc_epoch e ∧
                 result_accuracy (valid_results entry) = best_val_acc e ∧
                 Forall (λ x, num_ltb (result_accuracy (valid_results x))
                                      (best_val_acc e) = false) post))
      as Hnext.
    { intros Hrun. apply IH in Hrun as (new & Hlog & Hbest).
      exists (entry :: new). rewrite Hlog, <- app_assoc. split; [done|].
      destruct Hbest as [(Hb & Hbe & Hall)|(pre & x & post & -> & Hx)].
      - left. repeat split; try done. by constructor.
      - right. exists (entry :: pre), x, post. by split. }
    destruct (out_of_patience p current_epoch best_epoch) as [[|]|e'].
    + destruct Hrest as [[= ->] _]. exists [entry]. split; [done|].
      left. repeat split. by constructor.
    + by apply Hnext.
    + by destruct Hrest as [[=] _].
Qed.

(** The epoch loop when it stops early: the last entry is not strictly
    lower than the best, and the patience test succeeded on it. *)
Lemma train_loop_stopped (rt : runtime num W) (h : hooks num D tensor)
  (p : dict) (train_data valid_data : D) (start : num) (epochs : list Z)
  (log : list (log_entry num)) (best : num) (best_epoch : Z)
  (w w' : world num W) (e : train_end num) :
  train_loop rt h p train_data valid_data start epochs log best best_epoch w
    = (Ok e, w') →
  stopped e = true →
  ∃ earlier entry,
    log_to_save e = earlier ++ [entry] ∧
    num_ltb (result_accuracy (valid_results entry)) (best_val_acc e) = false ∧
    out_of_patience p (epoch entry) (best_val_acc_epoch e) = Ok true.
Proof.
  revert log best best_epoch w.
  induction epochs as [|current_epoch epochs IH];
    intros log best best_epoch w Hrun Hstop.
  - injection Hrun as <- <-. done.
  - apply train_loop_cons_inv in Hrun
      as [[_ [e' [=]]]|(entry & w3 & Hep & _ & _ & Hrest)].
    cbv zeta in Hrest.
    destruct (num_ltb (result_accuracy (valid_results entry)) best) eqn:Hlt.
    { by apply IH in Hrest. }
    destruct (out_of_patience p current_epoch best_epoch) as [[|]|e'] eqn:Hout.
    + destruct Hrest as [[= ->] _]. exists log, entry. simpl.
      by rewrite Hep.
    + by apply IH in Hrest.
    + by destruct Hrest as [[=] _].
Qed.

Lemma train_returns (rt : runtime num W) (h : hooks num D tensor)
  (p : dict) (train_data valid_data : D) (w w' : world num W)
  (e : train_end num) :
  train rt h p train_data valid_data w = (Ok e, w') →
  epoch <$> log_to_save e = seqZ 1 (Z.of_nat (length (log_to_save e))) ∧
  ∃ n start w1,
    train_loop rt h p train_data valid_data start (range1 n) [] num_inf 0 w1
      = (Ok e, w').
Proof.
  intros Hrun. apply train_ok in Hrun as (n & start & w1 & _ & Hrun).
  split; [|eauto].
  apply train_loop_log_file in Hrun as (new & Heps & _ & Hr).
  simpl in Hr. rewrite Hr.
  rewrite <- (length_fmap epoch new) in Heps |- *.
  by apply take_range1 in Heps.
Qed.

(** X23: when [train] returns, the best validation accuracy it holds is the
    one logged at the epoch it names as best, and no later epoch logged
    a strictly lower one; or no epoch improved on the initial +inf, and
    the best epoch is still 0. *)
Theorem train_best_is_logged (rt : runtime num W) (h : hooks num D tensor)
  (p : dict) (train_data valid_data : D) (w w' : world num W)
  (e : train_end num) :
  train rt h p train_data valid_data w = (Ok e, w') →
  (best_val_acc e = num_inf ∧ best_val_acc_epoch e = 0 ∧
   Forall (λ x, num_ltb (result_accuracy (valid_results x)) num_inf = false)
          (log_to_save e)) ∨
  ∃ earlier entry later,
    log_to_save e = earlier ++ entry :: later ∧
    epoch entry = best_val_acc_epoch e ∧
    best_val_acc_epoch e = Z.of_nat (S (length earlier)) ∧
    result_accuracy (valid_results entry) = best_val_acc e ∧
    Forall (λ x, num_ltb (result_accuracy (valid_results x))
                         (best_val_acc e) = false) later.
Proof.
  intros Hrun. apply train_returns in Hrun as (Heps & n & start & w1 & Hrun).
  apply train_loop_best in Hrun as (new & Hlog & Hbest). simpl in Hlog.
  rewrite Hlog in Heps |- *.
  destruct Hbest as [?|(pre & x & post & -> & Hx & Hacc & Hpost)]; [by left|].
  right. exists pre, x, post. split; [done|]. split; [done|].
  split; [|done]. rewrite <- Hx. by apply logged_epoch in Heps.
Qed.

(** X24: when [train] stops early, at its last epoch more than [patience]
    epochs have passed since the best one, and that last epoch was not
    strictly better than the best; so it never stops before epoch
    [patience + 1]. *)
Theorem train_stop_margin (rt : runtime num W) (h : hooks num D tensor)
  (p : dict) (train_data valid_data : D) (w w' : world num W)
  (e : train_end num) (patience : Z) :
  p !! "patience" = Some (PInt patience) →
  train rt h p train_data valid_data w = (Ok e, w') →
  stopped e = true →
  let epochs_run := Z.of_nat (length (log_to_save e)) in
  patience < epochs_run - best_val_acc_epoch e ∧
  0 ≤ best_val_acc_epoch e ∧
  patience < epochs_run ∧
  ∃ earlier entry,
    log_to_save e = earlier ++ [entry] ∧
    epoch entry = epochs_run ∧
    num_ltb (result_accuracy (valid_results entry)) (best_val_acc e) = false.
Proof.
  intros Hp Hrun Hstop. cbv zeta.
  apply train_returns in Hrun as (Heps & n & start & w1 & Hrun).
  pose proof (train_loop_best _ _ _ _ _ _ _ _ _ _ _ _ _ Hrun)
    as (new & Hnew & Hbest).
  simpl in Hnew.
  apply train_loop_stopped in Hrun as (earlier & entry & Hlog & Hlt & Hout);
    [|done].
  rewrite (out_of_patience_int _ _ _ _ Hp) in Hout. injection Hout as Hout.
  apply Z.ltb_lt in Hout.
  assert (epoch entry = Z.of_nat (length (log_to_save e))) as Hlast.
  { rewrite Hlog in Heps |- *. apply logged_epoch in Heps.
    rewrite length_app. simpl. lia. }
  assert (0 ≤ best_val_acc_epoch e) as Hpos.
  { destruct Hbest as [(_ & -> & _)|(pre & x & post & -> & <- & _)]; [lia|].
    rewrite Hnew in Heps. apply logged_epoch in Heps. lia. }
  rewrite <- Hlast. split; [lia|]. split; [done|]. split; [lia|].
  exists earlier, entry. by rewrite Hlast.
Qed.

Lemma never_initialises_quiet {A} (m : M (world num W) A) :
  quiet m → never_initialises m.
Proof.
  intros Hq w. destruct (Hq w) as (_ & Hc & _).
  exists []. by rewrite app_nil_r.
Qed.

Lemma never_initialises_bind {A B} (m : M (world num W) A)
  (k : A → M (world num W) B) :
  never_initialises m → (∀ a, never_initialises (k a)) →
  never_initialises (bind m k).
Proof.
  intros Hm Hk w. rewrite bind_snd.
  destruct (Hm w) as (calls & Hc & Hall).
  destruct (m w).1 as [a|e]; [|eauto].
  destruct (Hk a (m w).2) as (calls' & Hc' & Hall').
  exists (calls ++ calls'). rewrite Hc', Hc, app_assoc.
  split; [done|]. by apply Forall_app.
Qed.

Lemma never_initialises_write_log (log : list (log_entry num)) :
  never_initialises (W:=W) (write_log log).
Proof. intros w. exists []. by rewrite app_nil_r. Qed.

Lemma never_initialises_run_epoch (rt : runtime num W)
  (h : hooks num D tensor) (p : dict) (epoch_name : string) (data : D)
  (is_training : bool) :
  never_initialises (run_epoch rt h p epoch_name data is_training).
Proof.
  intros w.
  destruct (run_epoch_trace rt h p epoch_name data is_training w)
    as (served & reqs & _ & Hreqs & Hc & _).
  exists reqs. split; [exact Hc|].
  clear Hc. induction Hreqs as [|b [fl feed] served reqs Hr _ IH];
    constructor; [|done].
  unfold batch_request, dict_item in Hr. destruct is_training.
  - destruct (p !! "dropout_keep_prob"); [|done].
    injection Hr as <- _. simpl. intros Hin.
    repeat (apply elem_of_cons in Hin as [Hin|Hin]; [discriminate|]).
    by apply elem_of_nil in Hin.
  - injection Hr as <- _. simpl. intros Hin.
    repeat (apply elem_of_cons in Hin as [Hin|Hin]; [discriminate|]).
    by apply elem_of_nil in Hin.
Qed.

Lemma never_initialises_train_loop (rt : runtime num W)
  (h : hooks num D tensor) (p : dict) (train_data valid_data : D)
  (start : num) (epochs : list Z) (log : list (log_entry num)) (best : num)
  (best_epoch : Z) :
  never_initialises
    (train_loop rt h p train_data valid_data start epochs log best best_epoch).
Proof.
  revert log best best_epoch.
  induction epochs as [|current_epoch epochs IH]; intros log best best_epoch.
  - apply never_initialises_quiet, quiet_ret.
  - cbn [train_loop].
    apply never_initialises_bind; [apply never_initialises_run_epoch|intros tr].
    apply never_initialises_bind; [apply never_initialises_run_epoch|intros vr].
    apply never_initialises_bind;
      [apply never_initialises_quiet, quiet_time_time|intros t].
    apply never_initialises_bind; [apply never_initialises_write_log|intros _].
    destruct (num_ltb _ best); [apply IH|].
    apply never_initialises_bind;
      [apply never_initialises_quiet, quiet_lift|intros [|]];
      [apply never_initialises_quiet, quiet_ret|apply IH].
Qed.

(** X25: whatever the outcome of [train], its first session call runs the
    initialiser, on an empty feed, and no later call of it does: the
    variables are initialised once, before the first pass. *)
Theorem train_initialises_once (rt : runtime num W) (h : hooks num D tensor)
  (p : dict) (train_data valid_data : D) (w : world num W) :
  ∃ calls,
    sess_calls (train rt h p train_data valid_data w).2 =
      sess_calls w ++ ([InitOp], ∅) :: calls ∧
    Forall (λ c, InitOp ∉ c.1) calls.
Proof.
  rewrite train_start. cbv zeta.
  destruct (rbind (dict_item p "num_epochs") as_int) as [n|e].
  - match goal with
    | |- context [train_loop rt h p train_data valid_data ?s ?es ?l ?b ?be ?w1] =>
        destruct (never_initialises_train_loop rt h p train_data valid_data
                    s es l b be w1) as (calls & Hc & Hall)
    end.
    exists calls. rewrite Hc. cbn [sess_calls].
    by rewrite <- app_assoc.
  - exists []. done.
Qed.

End ChemModelRestTheory.

(** * The specification's examples, on the concrete model *)

(** A pair from its first component. *)
Lemma pair_from_fst {A B} (p : A * B) (a : A) : p.1 = a → p = (a, p.2).
Proof. intros <-. by destruct p. Qed.

(** Case analysis on membership in a list that is written out. *)
Ltac elems H :=
  repeat (apply elem_of_cons in H as [->|H]);
  try (by apply not_elem_of_nil in H).

(** The sequence [b1, b2, b3] is consumed as [b1, b2, b3], whether the
    worker fills the queue before the consumer starts or the two
    alternate. *)
Lemma streamer_example :
  let eager := [ ThreadedIterator.Producer; ThreadedIterator.Producer;
                 ThreadedIterator.Producer; ThreadedIterator.Producer;
                 ThreadedIterator.Consumer; ThreadedIterator.Consumer;
                 ThreadedIterator.Producer; ThreadedIterator.Consumer;
                 ThreadedIterator.Consumer ] in
  ThreadedIterator.delivered
    (ThreadedIterator.run ThreadedIterator.max_queue_size eager
       (ThreadedIterator.start ["b1"; "b2"; "b3"])) = ["b1"; "b2"; "b3"] ∧
  ThreadedIterator.delivered
    (ThreadedIterator.run ThreadedIterator.max_queue_size
       (ThreadedIterator.round_robin 4)
       (ThreadedIterator.start ["b1"; "b2"; "b3"])) = ["b1"; "b2"; "b3"].
Proof. split; reflexivity. Qed.

(** Defaults [{hidden_size: 100}], file [{hidden_size: 50}], inline
    [{}]: the resolved [hidden_size] is 50. *)
Lemma collect_params_example :
  ∃ resolved,
    collect_params Toy.json_load_file Toy.json_loads Toy.defaults Toy.cli
      = Ok resolved ∧
    resolved !! "hidden_size" = Some (PInt 50).
Proof.
  destruct (collect_params_resolved Toy.json_load_file Toy.json_loads
              Toy.defaults Toy.cli
              (Some {["hidden_size" := PInt 50]}) (Some ∅))
    as (resolved & Hresolved & Hkeys).
  - exists "params.json". split; reflexivity.
  - exists "{}". split; reflexivity.
  - exists resolved. split; [exact Hresolved|].
    rewrite Hkeys. reflexivity.
Defined.

(** Split A with forward edge types up to 2, then split B with edge
    types up to 3, untied: [num_edge_types] is 6. *)
Lemma load_example :
  let r := load_all Toy.read_data Toy.h Toy.files (new_model ∅ Toy.untied) in
  num_edge_types r.2 = 6 ∧
  ∃ ms,
    Forall2 (λ f m, ∃ data,
               loaded_records Toy.read_data (new_model ∅ Toy.untied) f = Ok data ∧
               is_max (observed_edge_types data) m) Toy.files ms ∧
    is_max ((λ m, m * direction_factor (num:=float) (PBool false)) <$> ms)
           (num_edge_types r.2).
Proof.
  cbv zeta. split; [vm_compute; reflexivity|].
  eapply (num_edge_types_running_max Toy.read_data Toy.h Toy.files ∅ Toy.untied
           (PBool false) Toy.processed).
  - reflexivity.
  - discriminate.
  - intros f data g e Hf Hdata Hg He.
    elems Hf; vm_compute in Hdata; injection Hdata as <-;
      elems Hg; simpl in He; elems He; simpl; lia.
  - apply pair_from_fst. reflexivity.
Defined.

(** The same two loads: [annotation_size] is the larger of the two
    first feature lengths, 1 and 2. *)
Lemma annotation_example :
  let r := load_all Toy.read_data Toy.h Toy.files (new_model ∅ default_params) in
  annotation_size r.2 = 2 ∧
  ∃ lens,
    Forall2 (λ f n, ∃ data,
               loaded_records Toy.read_data (new_model ∅ default_params) f
                 = Ok data ∧
               first_feature_length data = Some n) Toy.files lens ∧
    is_max lens (annotation_size r.2).
Proof.
  cbv zeta. split; [vm_compute; reflexivity|].
  eapply (annotation_size_running_max Toy.read_data Toy.h Toy.files ∅
            default_params Toy.processed).
  - discriminate.
  - apply pair_from_fst. reflexivity.
Defined.

(** The first load has a first feature vector of length 1, the second
    one of length 2: after both, [annotation_size] is 2, not the 1 of
    the first load. *)
Lemma annotation_size_follows_later_load :
  let r := load_all Toy.read_data Toy.h Toy.files (new_model ∅ default_params) in
  r.1 = Ok Toy.processed ∧
  loaded_records Toy.read_data (new_model ∅ default_params)
    "molecules_train.json" = Ok Toy.split_a ∧
  first_feature_length Toy.split_a = Some 1 ∧
  annotation_size r.2 = 2 ∧
  annotation_size r.2 ≠ 1.
Proof.
  cbv zeta. split; [reflexivity|]. split; [reflexivity|].
  split; [reflexivity|]. split; [vm_compute; reflexivity|].
  vm_compute. discriminate.
Qed.

(** Batches (loss 1.0, 1 graph) and (loss 3.0, 3 graphs): the loss of
    the pass is 2.5. *)
Lemma weighted_mean_example :
  ∃ loss accuracy error_ratio instance_per_sec w',
    run_epoch (Toy.rt []) Toy.h default_params "validation" Toy.two_batches
              false Toy.w0 =
      (Ok (loss, accuracy, error_ratio, instance_per_sec), w') ∧
    weighted_mean [1%float; 3%float] [1; 3] = Ok loss ∧
    loss = 2.5%float.
Proof.
  destruct (run_epoch_weighted_mean (Toy.rt []) Toy.h default_params
              "validation" Toy.two_batches false Toy.w0 Toy.two_batches
              [1; 3] (validation_request <$> Toy.two_batches) 0
              (num_lit 0.066513725%Q))
    as (loss & accuracy & error_ratio & instance_per_sec & w' & Hrun & Hl & _).
  - reflexivity.
  - repeat constructor.
  - repeat constructor.
  - reflexivity.
  - reflexivity.
  - vm_compute. reflexivity.
  - vm_compute. discriminate.
  - exists loss, accuracy, error_ratio, instance_per_sec, w'.
    split; [exact Hrun|]. split; [exact Hl|].
    vm_compute in Hl. injection Hl as <-. reflexivity.
Defined.

(** Validation accuracies 5, 4, 6, 7, 8 with a patience of 2: the best
    is 4 at epoch 2, and the loop stops at epoch 5. *)
Lemma early_stopping_example :
  ∃ e w',
    train (Toy.rt Toy.accuracies) Toy.h (Toy.budget 3000 2)
          Toy.one_graph Toy.one_graph Toy.w0 = (Ok e, w') ∧
    entry_validation <$> log_to_save e =
      [(1, 5%float); (2, 4%float); (3, 6%float); (4, 7%float); (5, 8%float)] ∧
    early_stopping 2 infinity 0 (entry_validation <$> log_to_save e) =
      (4%float, 2, Some 5) ∧
    best_val_acc e = 4%float ∧ best_val_acc_epoch e = 2 ∧ stopped e = true.
Proof.
  destruct (train (Toy.rt Toy.accuracies) Toy.h (Toy.budget 3000 2)
              Toy.one_graph Toy.one_graph Toy.w0) as [[e|err] w'] eqn:Hrun.
  - pose proof (train_early_stopping (Toy.rt Toy.accuracies) Toy.h (Toy.budget 3000 2)
                  _ _ _ _ _ 2 eq_refl Hrun)
      as [_ Hrule].
    exists e, w'. split; [reflexivity|].
    apply (f_equal fst) in Hrun. vm_compute in Hrun. injection Hrun as <-.
    split; [reflexivity|]. split; [exact Hrule|]. repeat split.
  - apply (f_equal fst) in Hrun. vm_compute in Hrun. discriminate.
Defined.

(** With [num_epochs] 0 early stopping does not trigger and no epoch
    runs: that is 0 epochs, not [num_epochs - 1]. *)
Lemma zero_epoch_budget :
  ∃ e w',
    train (Toy.rt Toy.accuracies) Toy.h (Toy.budget 0 2)
          Toy.one_graph Toy.one_graph Toy.w0 = (Ok e, w') ∧
    stopped e = false ∧
    Z.of_nat (length (log_to_save e)) = 0 ∧
    Z.of_nat (length (log_to_save e)) ≠ 0 - 1.
Proof.
  eexists _, _. split; [apply pair_from_fst; reflexivity|].
  split; [reflexivity|]. split; [reflexivity|]. discriminate.
Qed.

(** With [num_epochs] 3 and no early stop, epochs 1 and 2 run. *)
Lemma budget_example :
  ∃ e w',
    train (Toy.rt Toy.accuracies) Toy.h (Toy.budget 3 25)
          Toy.one_graph Toy.one_graph Toy.w0 = (Ok e, w') ∧
    stopped e = false ∧
    epoch <$> log_to_save e = [1; 2] ∧
    Z.of_nat (length (log_to_save e)) = 2.
Proof.
  destruct (train (Toy.rt Toy.accuracies) Toy.h (Toy.budget 3 25)
              Toy.one_graph Toy.one_graph Toy.w0) as [[e|err] w'] eqn:Hrun.
  - assert (stopped e = false) as Hstop.
    { apply (f_equal fst) in Hrun. vm_compute in Hrun. by injection Hrun as <-. }
    pose proof (train_runs_budget (Toy.rt Toy.accuracies) Toy.h (Toy.budget 3 25)
                  _ _ _ _ _ 3 eq_refl Hrun Hstop)
      as [Hepochs Hcount].
    exists e, w'. split; [reflexivity|]. split; [exact Hstop|].
    split; [exact Hepochs|exact Hcount].
  - apply (f_equal fst) in Hrun. vm_compute in Hrun. discriminate.
Defined.

(** * Further examples *)


(** The rows [[0, 1, 1], [1, 2, 2]], printed in decimal and joined by
    spaces and newlines, are read back as they were. *)
Lemma graph_string_example :
  graph_string_to_array Decimal.int
    (join_with newline
       ((λ row, join_with space (pretty <$> row)) <$> Samples.rows))
  = Ok Samples.rows.
Proof.
  apply (graph_string_round_trip Decimal.int pretty Samples.rows).
  - discriminate.
  - repeat constructor; discriminate.
  - repeat first [apply Forall_nil_2 | apply Forall_cons_2];
      vm_compute; by repeat split.
Defined.

(** Two lines of three tokens give two rows of three numbers. *)
Lemma graph_shape_example :
  length Samples.rows = S (occurrences newline Samples.graph_string) ∧
  Forall2 (λ line row, length row = S (occurrences space line))
          (split_on newline Samples.graph_string) Samples.rows.
Proof.
  apply (graph_string_shape Decimal.int Samples.graph_string Samples.rows).
  reflexivity.
Defined.

(** A text that ends in a newline has an empty last line, and is
    rejected. *)
Lemma trailing_newline_example :
  ∃ e, graph_string_to_array Decimal.int Samples.trailing_newline = Raise e.
Proof.
  apply (graph_string_empty_token Decimal.int Samples.trailing_newline ""
           ValueError).
  - reflexivity.
  - vm_compute. repeat constructor.
  - vm_compute. repeat constructor.
Defined.

(** Under a configuration file that overrides [hidden_size], the
    parameters the class reads are all there. *)
Lemma default_keys_example :
  ∃ resolved,
    collect_params Toy.json_load_file Toy.json_loads default_params Toy.cli
      = Ok resolved ∧
    Forall (λ k, is_Some (resolved !! k))
      ["num_epochs"; "patience"; "dropout_keep_prob"; "tie_fwd_bkwd";
       "task_id"; "hidden_size"; "clamp_gradient_norm"].
Proof.
  eexists. split; [reflexivity|].
  apply (default_keys_survive Toy.json_load_file Toy.json_loads Toy.cli).
  reflexivity.
Defined.

(** Split A loads: its one record has edges and a first node, and
    the defaults tie the directions. *)
Lemma load_data_example :
  load_data Toy.read_data Toy.h "molecules_train.json"
            (new_model ∅ default_params) =
  (Ok [Toy.plain_batch 1],
   loaded_model (new_model ∅ default_params) Toy.split_a (PBool true) 1).
Proof.
  apply (load_data_returns Toy.read_data Toy.h "molecules_train.json").
  exists Toy.split_a, (PBool true), 1.
  split; [reflexivity|]. split; [repeat constructor; discriminate|].
  split; [reflexivity|]. split; [reflexivity|]. split; reflexivity.
Defined.

(** A split with a single-atom molecule cannot be loaded. *)
Lemma single_atom_example :
  (load_data Samples.read_data Toy.h "single_atom.json"
             (new_model ∅ default_params)).1 = Raise ValueError.
Proof.
  apply (load_data_edgeless Samples.read_data Toy.h "single_atom.json"
           (new_model ∅ default_params) Samples.single_atom).
  - reflexivity.
  - apply Exists_cons_tl, Exists_cons_hd. reflexivity.
Defined.

(** A file that holds no record cannot be loaded either. *)
Lemma empty_split_example :
  load_data Samples.read_data Toy.h "empty.json" (new_model ∅ default_params)
  = (Raise IndexError,
     loaded_model (new_model ∅ default_params) [] (PBool true) 0).
Proof.
  apply (load_data_no_first_feature Samples.read_data Toy.h "empty.json"
           (new_model ∅ default_params) [] (PBool true)).
  - reflexivity.
  - constructor.
  - reflexivity.
  - reflexivity.
Defined.

(** With [--restrict_data] 1, the second record of the validation
    file makes no difference. *)
Lemma restrict_example :
  load_data Toy.read_data Toy.h "molecules_valid.json"
            (new_model Samples.restricted default_params) =
  load_data Samples.read_head Toy.h "molecules_valid.json"
            (new_model Samples.restricted default_params).
Proof.
  apply (load_data_ignores_tail Toy.read_data Samples.read_head Toy.h
           "molecules_valid.json" (new_model Samples.restricted default_params)
           1 Toy.split_b (take 1 Toy.split_b)).
  - reflexivity.
  - lia.
  - reflexivity.
  - reflexivity.
  - reflexivity.
Defined.

(** Splits A and B: the largest vertex index is 2. *)
Lemma max_num_vertices_example :
  let r := load_all Toy.read_data Toy.h Toy.files (new_model ∅ default_params) in
  max_num_vertices r.2 = 2 ∧
  ∃ splits,
    Forall2 (λ f data,
               loaded_records Toy.read_data (new_model ∅ default_params) f
                 = Ok data) Toy.files splits ∧
    is_max (splits ≫= observed_vertices) (max_num_vertices r.2).
Proof.
  cbv zeta. split; [vm_compute; reflexivity|].
  eapply (max_num_vertices_running_max Toy.read_data Toy.h Toy.files ∅
            default_params Toy.processed).
  - discriminate.
  - intros f data g e Hf Hdata Hg He.
    elems Hf; vm_compute in Hdata; injection Hdata as <-;
      elems Hg; simpl in He; elems He; simpl; lia.
  - apply pair_from_fst. reflexivity.
Defined.

(** A run of process 4242: the parameter file is in the log directory,
    named by the run. *)
Lemma params_file_example :
  ∃ p,
    (init Toy.json_load_file Toy.json_loads Toy.read_data Samples.timestamp
          Samples.pid Samples.can_write Toy.h default_params Toy.cli []).2
    = [("./2018-03-01-12-00-00_4242_params.json", p)] ∧
    p !! "hidden_size" = Some (PInt 50).
Proof.
  eexists. split.
  - apply (init_writes_params_first Toy.json_load_file Toy.json_loads
             Toy.read_data Samples.timestamp Samples.pid Samples.can_write
             Toy.h default_params Toy.cli [] ".").
    + reflexivity.
    + reflexivity.
    + reflexivity.
  - reflexivity.
Defined.

(** The same run constructs the object: both splits are loaded, and
    the log file is named like the parameter file. *)
Lemma init_example :
  ∃ inst d',
    init Toy.json_load_file Toy.json_loads Toy.read_data Samples.timestamp
         Samples.pid Samples.can_write Toy.h default_params Toy.cli []
      = (Ok inst, d') ∧
    log_file_path inst = "./2018-03-01-12-00-00_4242_log.json" ∧
    train_data inst = [Toy.plain_batch 1] ∧
    ∃ p, load_all Toy.read_data Toy.h Toy.files (new_model Toy.cli p)
         = (Ok [train_data inst; valid_data inst], self inst).
Proof.
  destruct (init Toy.json_load_file Toy.json_loads Toy.read_data
              Samples.timestamp Samples.pid Samples.can_write Toy.h
              default_params Toy.cli []) as [[inst|err] d'] eqn:Hrun.
  - destruct (init_returns Toy.json_load_file Toy.json_loads Toy.read_data
                Samples.timestamp Samples.pid Samples.can_write Toy.h
                default_params Toy.cli [] d' inst Hrun)
      as (dir & p & Hdir & Hp & Hid & Hlog & _ & Hload & _).
    exists inst, d'. split; [reflexivity|].
    change (Ok "." = Ok dir) in Hdir. injection Hdir as <-.
    assert (collect_params Toy.json_load_file Toy.json_loads default_params
              Toy.cli
            = Ok (dict_update
                    (dict_update default_params {["hidden_size" := PInt 50]})
                    ∅)) as Hc by reflexivity.
    rewrite Hc in Hp. injection Hp as <-.
    rewrite Hid in Hlog.
    split; [exact Hlog|]. split; [|eexists; exact Hload].
    apply (f_equal fst) in Hload. cbn [fst] in Hload.
    change (Ok Toy.processed = Ok [train_data inst; valid_data inst]) in Hload.
    by injection Hload as <- _.
  - assert (match (init Toy.json_load_file Toy.json_loads Toy.read_data
                      Samples.timestamp Samples.pid Samples.can_write Toy.h
                      default_params Toy.cli []).1 with
            | Ok _ => True
            | Raise _ => False
            end) as Hok by (vm_compute; exact I).
    rewrite Hrun in Hok. destruct Hok.
Defined.

(** A validation pass over an empty split. *)
Lemma no_batches_example :
  run_epoch (Toy.rt []) Toy.h default_params "validation" [] false Toy.w0 =
  (Raise ZeroDivisionError,
   {| weights := 0%nat; clock := 1%nat; sess_calls := []; log_file := None |}).
Proof.
  apply (run_epoch_no_batches (Toy.rt []) Toy.h default_params "validation"
           [] false Toy.w0).
  reflexivity.
Defined.

(** The second of three minibatches has no [num_graphs]: the pass
    raises [KeyError] after running the first. *)
Lemma bad_batch_example :
  run_epoch (Toy.rt []) Toy.h default_params "validation" Samples.bad_batches
            false Toy.w0 =
  (Raise (KeyError "num_graphs"),
   after_pass (Toy.rt []) [validation_request (Toy.batch 1 1 2)] Toy.w0 1).
Proof.
  apply (run_epoch_stops_at_bad_batch (Toy.rt []) Toy.h default_params
           "validation" Samples.bad_batches false Toy.w0
           [Toy.batch 1 1 2] ∅ [Toy.batch 3 3 4] [1]).
  - reflexivity.
  - repeat constructor.
  - repeat constructor.
  - reflexivity.
Defined.

(** With [task_id] 13 a training pass raises [IndexError], after it
    has taken both of its train steps. *)
Lemma task_13_example :
  let r := run_epoch (Toy.rt []) Toy.h Samples.task_13 "training"
                     Toy.two_batches true Toy.w0 in
  r.1 = Raise IndexError ∧ weights r.2 = 2%nat ∧
  length (sess_calls r.2) = 2%nat.
Proof.
  cbv zeta.
  rewrite (run_epoch_task_checked_last (Toy.rt []) Toy.h Samples.task_13
             "training" Toy.two_batches true Toy.w0 Toy.two_batches [1; 3]
             (training_request (PFloat (num_lit 1.0%Q)) <$> Toy.two_batches)
             IndexError).
  - repeat split.
  - reflexivity.
  - discriminate.
  - repeat constructor.
  - repeat constructor.
  - reflexivity.
Defined.

(** Four graphs in one second at an accuracy of 3.5 on task 0: the
    error ratio is 3.5 / 0.066513725 and the throughput 4. *)
Lemma rates_example :
  ∃ loss accuracy w',
    run_epoch (Toy.rt []) Toy.h default_params "validation" Toy.two_batches
              false Toy.w0 =
    (Ok (loss, accuracy, (accuracy / num_lit 0.066513725%Q)%float, 4%float),
     w') ∧
    accuracy = 3.5%float.
Proof.
  destruct (run_epoch_rates (Toy.rt []) Toy.h default_params "validation"
              Toy.two_batches false Toy.w0 Toy.two_batches [1; 3]
              (validation_request <$> Toy.two_batches)
              (num_lit 0.066513725%Q))
    as (loss & accuracy & Hrun).
  - reflexivity.
  - discriminate.
  - repeat constructor.
  - repeat constructor.
  - reflexivity.
  - vm_compute. reflexivity.
  - exists loss, accuracy, (after_pass (Toy.rt [])
                              (validation_request <$> Toy.two_batches) Toy.w0 2).
    split; [exact Hrun|].
    apply (f_equal (λ r, match r.1 with
                         | Ok v => v.1.1.2
                         | Raise _ => 0%float
                         end)) in Hrun.
    vm_compute in Hrun. symmetry. exact Hrun.
Defined.

(** The validation pass over the two minibatches returns. *)
Lemma returns_example :
  ∃ r w',
    run_epoch (Toy.rt []) Toy.h default_params "validation" Toy.two_batches
              false Toy.w0 = (Ok r, w').
Proof.
  apply (run_epoch_returns (Toy.rt []) Toy.h default_params "validation"
           Toy.two_batches false Toy.w0).
  exists Toy.two_batches, [1; 3], 0.
  split; [reflexivity|]. split; [discriminate|].
  split; [repeat constructor|]. split; [discriminate|].
  split; [reflexivity|]. split; [lia|]. vm_compute. reflexivity.
Defined.

(** With [num_epochs] 1 nothing is trained. *)
Lemma small_budget_example :
  train (Toy.rt Toy.accuracies) Toy.h (Toy.budget 1 2) Toy.one_graph
        Toy.one_graph Toy.w0 =
  (Ok {| log_to_save := []; best_val_acc := infinity;
         best_val_acc_epoch := 0; stopped := false |},
   {| weights := 0%nat; clock := 1%nat; sess_calls := [([InitOp], ∅)];
      log_file := None |}).
Proof.
  assert (1 ≤ 1) as Hle by lia.
  exact (train_small_budget (Toy.rt Toy.accuracies) Toy.h (Toy.budget 1 2)
           Toy.one_graph Toy.one_graph Toy.w0 1 eq_refl Hle).
Defined.

(** With an empty training split, training stops in its first pass. *)
Lemma empty_training_split_example :
  train (Toy.rt Toy.accuracies) Toy.h (Toy.budget 3 2) [] Toy.one_graph Toy.w0
  = (Raise ZeroDivisionError,
     {| weights := 0%nat; clock := 2%nat; sess_calls := [([InitOp], ∅)];
        log_file := None |}).
Proof.
  assert (1 < 3) as Hlt by lia.
  exact (train_empty_training_split (Toy.rt Toy.accuracies) Toy.h
           (Toy.budget 3 2) [] Toy.one_graph Toy.w0 3 eq_refl Hlt eq_refl).
Defined.

(** Validation accuracies 5, 4, 6, 7, 8: the best, 4, is the one
    logged at epoch 2, and epochs 3 to 5 are not lower. *)
Lemma best_is_logged_example :
  ∃ e w' earlier entry later,
    train (Toy.rt Toy.accuracies) Toy.h (Toy.budget 3000 2)
          Toy.one_graph Toy.one_graph Toy.w0 = (Ok e, w') ∧
    log_to_save e = earlier ++ entry :: later ∧
    epoch entry = 2 ∧
    result_accuracy (valid_results entry) = 4%float ∧
    best_val_acc e = 4%float ∧
    length later = 3%nat.
Proof.
  destruct (train (Toy.rt Toy.accuracies) Toy.h (Toy.budget 3000 2)
              Toy.one_graph Toy.one_graph Toy.w0) as [[e|err] w'] eqn:Hrun.
  - assert (best_val_acc e = 4%float ∧ best_val_acc_epoch e = 2 ∧
            length (log_to_save e) = 5%nat) as (Hbest & Hepoch & Hlen).
    { apply (f_equal (λ r, match r.1 with
                           | Ok e => (best_val_acc e, best_val_acc_epoch e,
                                      length (log_to_save e))
                           | Raise _ => (0%float, 0, 0%nat)
                           end)) in Hrun.
      vm_compute in Hrun. by injection Hrun as -> -> ->. }
    destruct (train_best_is_logged (Toy.rt Toy.accuracies) Toy.h
                (Toy.budget 3000 2) _ _ _ _ _ Hrun)
      as [(Hinf & _)|(earlier & entry & later & Hlog & Hep & Hpos & Hacc & _)].
    + rewrite Hbest in Hinf. vm_compute in Hinf. discriminate.
    + exists e, w', earlier, entry, later.
      split; [reflexivity|]. split; [exact Hlog|].
      rewrite Hepoch in Hep, Hpos. rewrite Hbest in Hacc.
      split; [exact Hep|]. split; [exact Hacc|]. split; [exact Hbest|].
      rewrite Hlog, length_app in Hlen. simpl in Hlen. lia.
  - assert (match (train (Toy.rt Toy.accuracies) Toy.h (Toy.budget 3000 2)
                     Toy.one_graph Toy.one_graph Toy.w0).1 with
            | Ok _ => True
            | Raise _ => False
            end) as Hok by (vm_compute; exact I).
    rewrite Hrun in Hok. destruct Hok.
Defined.

(** The same run, with a patience of 2: it stops at epoch 5, three
    epochs after the best. *)
Lemma stop_margin_example :
  ∃ e w',
    train (Toy.rt Toy.accuracies) Toy.h (Toy.budget 3000 2)
          Toy.one_graph Toy.one_graph Toy.w0 = (Ok e, w') ∧
    stopped e = true ∧
    Z.of_nat (length (log_to_save e)) = 5 ∧
    best_val_acc_epoch e = 2 ∧
    2 < Z.of_nat (length (log_to_save e)) - best_val_acc_epoch e.
Proof.
  destruct (train (Toy.rt Toy.accuracies) Toy.h (Toy.budget 3000 2)
              Toy.one_graph Toy.one_graph Toy.w0) as [[e|err] w'] eqn:Hrun.
  - assert (stopped e = true ∧ best_val_acc_epoch e = 2 ∧
            length (log_to_save e) = 5%nat) as (Hstop & Hepoch & Hlen).
    { apply (f_equal (λ r, match r.1 with
                           | Ok e => (stopped e, best_val_acc_epoch e,
                                      length (log_to_save e))
                           | Raise _ => (false, 0, 0%nat)
                           end)) in Hrun.
      vm_compute in Hrun. by injection Hrun as -> -> ->. }
    destruct (train_stop_margin (Toy.rt Toy.accuracies) Toy.h
                (Toy.budget 3000 2) _ _ _ _ _ 2 eq_refl Hrun Hstop)
      as (Hmargin & _).
    exists e, w'. split; [reflexivity|]. split; [exact Hstop|].
    split; [lia|]. split; [exact Hepoch|exact Hmargin].
  - assert (match (train (Toy.rt Toy.accuracies) Toy.h (Toy.budget 3000 2)
                     Toy.one_graph Toy.one_graph Toy.w0).1 with
            | Ok _ => True
            | Raise _ => False
            end) as Hok by (vm_compute; exact I).
    rewrite Hrun in Hok. destruct Hok.
Defined.
